(** * jekyll.py: the Opalstack Jekyll installer, embedded and verified

    The script is a linear provisioning routine: it talks to the Opalstack
    API, runs a handful of external commands, writes files with explicit
    permissions and appends one line to the user's crontab.  The embedding
    below follows the source function by function.  Python values are a
    small inductive type, the script's effects (file system, crontab,
    subprocesses, HTTP, logging, randomness) are threaded through an
    explicit state, and exceptions are an error result. *)

From Stdlib Require Import ZArith String Ascii List Lia Bool.
From stdpp Require Import base option strings gmap.

#[local] Set Warnings "-register-all".

Local Open Scope Z_scope.
Local Open Scope string_scope.

(** ** Characters and text *)

Module Text.

Definition chr (n : nat) : string := String (ascii_of_nat n) EmptyString.
Definition nl : string := chr 10.
Definition dq : string := chr 34.

(** [c in chars], the membership test behind [str.strip(chars)]. *)
Fixpoint mem (c : ascii) (chars : string) : bool :=
  match chars with
  | EmptyString => false
  | String d rest => if Ascii.eqb c d then true else mem c rest
  end.

Fixpoint rev_onto (s acc : string) : string :=
  match s with
  | EmptyString => acc
  | String c rest => rev_onto rest (String c acc)
  end.

Definition rev (s : string) : string := rev_onto s EmptyString.

(** [str.lstrip(chars)]: drop leading characters while they belong to the
    set [chars]. *)
Fixpoint lstrip (chars s : string) : string :=
  match s with
  | EmptyString => EmptyString
  | String c rest => if mem c chars then lstrip chars rest else s
  end.

Definition rstrip (chars s : string) : string := rev (lstrip chars (rev s)).

(** [str.strip(chars)]: the argument is a SET of characters, removed from
    both ends for as long as the end character belongs to it. *)
Definition strip (chars s : string) : string := rstrip chars (lstrip chars s).

(** The text made of the given bytes. *)
Fixpoint bytes (l : list nat) : string :=
  match l with
  | nil => EmptyString
  | n :: rest => String (ascii_of_nat n) (bytes rest)
  end.

(** White space, the characters [str.strip()] removes: those for which
    [str.isspace] holds, each given by its UTF-8 bytes.  They are the ASCII
    ones (space, tab to carriage return, the four separators 0x1c-0x1f) and
    U+0085, U+00A0, U+1680, U+2000 to U+200A, U+2028, U+2029, U+202F, U+205F
    and U+3000. *)
Definition whitespace : list string :=
  List.map bytes
    ((32 :: nil) :: (9 :: nil) :: (10 :: nil) :: (11 :: nil) :: (12 :: nil) :: (13 :: nil)
     :: (28 :: nil) :: (29 :: nil) :: (30 :: nil) :: (31 :: nil)
     :: (194 :: 133 :: nil) :: (194 :: 160 :: nil) :: (225 :: 154 :: 128 :: nil)
     :: (226 :: 128 :: 128 :: nil) :: (226 :: 128 :: 129 :: nil) :: (226 :: 128 :: 130 :: nil)
     :: (226 :: 128 :: 131 :: nil) :: (226 :: 128 :: 132 :: nil) :: (226 :: 128 :: 133 :: nil)
     :: (226 :: 128 :: 134 :: nil) :: (226 :: 128 :: 135 :: nil) :: (226 :: 128 :: 136 :: nil)
     :: (226 :: 128 :: 137 :: nil) :: (226 :: 128 :: 138 :: nil)
     :: (226 :: 128 :: 168 :: nil) :: (226 :: 128 :: 169 :: nil) :: (226 :: 128 :: 175 :: nil)
     :: (226 :: 129 :: 159 :: nil) :: (227 :: 128 :: 128 :: nil) :: nil)%nat.

(** [after p s]: what follows the prefix [p] in [s], if [s] starts with it. *)
Fixpoint after (p s : string) : option string :=
  match p, s with
  | EmptyString, _ => Some s
  | String c p', String d s' => if Ascii.eqb c d then after p' s' else None
  | String _ _, EmptyString => None
  end.

(** [s] without the first of the [seqs] it starts with, if there is one. *)
Fixpoint after_any (seqs : list string) (s : string) : option string :=
  match seqs with
  | nil => None
  | p :: rest =>
      match after p s with
      | Some s' => Some s'
      | None => after_any rest s
      end
  end.

(** Drop leading occurrences of the [seqs], at most [fuel] of them. *)
Fixpoint lstrip_seqs (fuel : nat) (seqs : list string) (s : string) : string :=
  match fuel with
  | O => s
  | S k =>
      match after_any seqs s with
      | Some s' => lstrip_seqs k seqs s'
      | None => s
      end
  end.

(** [str.strip()] on text held as its UTF-8 bytes: white space goes from
    both ends.  In well-formed UTF-8 the bytes of a character at either end
    of the text are that character, so the ends can be compared bytewise. *)
Definition strip_ws (s : string) : string :=
  let s1 := lstrip_seqs (String.length s) whitespace s in
  rev (lstrip_seqs (String.length s1) (List.map rev whitespace) (rev s1)).

Fixpoint ends_with_slash (s : string) : bool :=
  match s with
  | EmptyString => false
  | String c EmptyString => Ascii.eqb c "/"%char
  | String _ rest => ends_with_slash rest
  end.

Definition starts_with_slash (s : string) : bool :=
  match s with
  | String c _ => Ascii.eqb c "/"%char
  | EmptyString => false
  end.

Fixpoint join (sep : string) (parts : list string) : string :=
  match parts with
  | nil => EmptyString
  | p :: nil => p
  | p :: rest => p ++ sep ++ join sep rest
  end.

(** [split_on c s]: the fields of [s] separated by the character [c]. *)
Fixpoint split_on (c : ascii) (s : string) : list string :=
  match s with
  | EmptyString => EmptyString :: nil
  | String d rest =>
      if Ascii.eqb d c then EmptyString :: split_on c rest
      else match split_on c rest with
           | nil => String d EmptyString :: nil
           | f :: fs => String d f :: fs
           end
  end.

Fixpoint spaces (n : nat) : string :=
  match n with
  | O => EmptyString
  | S k => String " "%char (spaces k)
  end.

(** [s[n:]]. *)
Fixpoint drop (n : nat) (s : string) : string :=
  match n, s with
  | O, _ => s
  | S k, String _ rest => drop k rest
  | S _, EmptyString => EmptyString
  end.

(** A source line of a triple-quoted template: indentation, text, newline. *)
Definition line (indent : nat) (s : string) : string := spaces indent ++ s ++ nl.

End Text.

(** ** Module-level constants (jekyll.py lines 20-23) *)

(** [os.environ.get('API_URL', 'https://my.opalstack.com')
       .strip('https://').strip('http://')] *)
Definition API_HOST (api_url : option string) : string :=
  Text.strip "http://"
    (Text.strip "https://"
       (match api_url with
        | Some u => u
        | None => "https://my.opalstack.com"
        end)).

Definition API_BASE_URI : string := "/api/v1".

(** ** Python values

    The values the script handles: [None], booleans, integers, finite
    floats, text, bytes, lists and dictionaries.  A dictionary is the list
    of its bindings; [json.loads] produces values of this type. *)

Inductive pyval : Type :=
  | PNone
  | PBool (b : bool)
  | PInt (z : Z)
  | PFloat (num : Z) (den : positive)
  | PStr (s : string)
  | PBytes (b : string)
  | PList (l : list pyval)
  | PDict (d : list (string * pyval)).

Definition nonempty (s : string) : bool :=
  match s with EmptyString => false | _ => true end.

(** Python truth value ([bool(v)]), as used by [if not v]. *)
Definition truthy (v : pyval) : bool :=
  match v with
  | PNone => false
  | PBool b => b
  | PInt z => negb (Z.eqb z 0)
  | PFloat n _ => negb (Z.eqb n 0)
  | PStr s => nonempty s
  | PBytes b => nonempty b
  | PList l => match l with nil => false | _ => true end
  | PDict d => match d with nil => false | _ => true end
  end.

Fixpoint dict_get (k : string) (d : list (string * pyval)) : option pyval :=
  match d with
  | nil => None
  | (k', v) :: rest => if String.eqb k k' then Some v else dict_get k rest
  end.

(** The text [json.dumps(v)] puts on the wire, represented by the value it
    denotes. *)
Inductive wire : Type := Json (v : pyval).

Definition json_dumps (v : pyval) : wire := Json v.

(** ** Exceptions and results *)

Inductive os_error : Type :=
  | FileNotFoundError | FileExistsError | IsADirectoryError
  | NotADirectoryError | PermissionError.

Inductive exn : Type :=
  | SystemExit (code : Z)
  | CalledProcessError (returncode : Z) (cmd : list string) (output : string)
  | OSError (kind : os_error) (path : string)
  | ValueError (msg : string)
  | UnicodeDecodeError
  | JSONDecodeError
  | KeyError (key : string)
  | TypeError
  | AttributeError
  | NetworkError
  | UnsupportedOperation
  | OverflowError.

Inductive result (A : Type) : Type :=
  | Ok (a : A)
  | Raise (e : exn).
Arguments Ok {A} a.
Arguments Raise {A} e.

(** Exit status of the interpreter when [main] ends with this result:
    0 on normal completion, the argument of [sys.exit], 1 after an uncaught
    exception. *)
Definition exit_status {A} (r : result A) : Z :=
  match r with
  | Ok _ => 0
  | Raise (SystemExit code) => code
  | Raise _ => 1
  end.

(** ** The machine the script runs on *)

Inductive node : Type :=
  | File (data : string) (mode : Z)
  | Dir (mode : Z).

(** A location is a resolved path: the list of its components below the root. *)
Abbreviation location := (list string).

Record os : Type := {
  os_fs : gmap location node;          (* files and directories *)
  os_cron : option string;         (* the invoking user's installed crontab *)
}.

Record request : Type := {
  rq_method : string;
  rq_host : string;
  rq_endpoint : string;
  rq_body : option wire;
  rq_headers : list (string * string);
}.

Inductive reply : Type :=
  | Unreachable                    (* connection or transport failure *)
  | Body (parsed : option pyval).  (* body read; [None] when it is not JSON *)

Inductive proc_outcome : Type :=
  | NotLaunched (why : os_error)                (* the program could not be started *)
  | Exited (code : Z) (stdout stderr : string). (* it ran and exited *)

Inductive event : Type :=
  | EvLog (level : Z) (msg : string)
  | EvRun (argv : list string) (env : gmap string string) (cwd : option string)
  | EvHttp (r : request).

(** Everything outside the script: the programs on the machine, the API
    server, the random source, the clock and the library functions whose
    results the script only passes along.  The first argument of [spawn],
    [server] and [entropy] is the number of earlier interactions, so that
    the same command may behave differently each time it is run. *)
Record platform : Type := {
  spawn : nat -> list string -> gmap string string -> option string -> os -> os * proc_outcome;
  server : nat -> request -> reply;
  entropy : nat -> nat;
  dedent : string -> string;       (* textwrap.dedent *)
  py_repr : pyval -> string;       (* str() of a value that is not text *)
  today_iso : string;              (* datetime.date.today().isoformat(), read once per run *)
  now_stamp : string;              (* datetime.datetime.now().strftime(...), read once per run *)
  home : string;                   (* os.path.expanduser('~') *)
  environ : gmap string string;    (* os.environ when the module is loaded *)
}.

Record state : Type := {
  st_os : os;
  st_root : bool;                  (* does the script run as the superuser? *)
  st_umask : Z;
  st_cwd : string;
  st_env : gmap string string;     (* the module-level dictionary CMD_ENV *)
  st_level : Z;                    (* threshold of the root logger *)
  st_tick : nat;                   (* interactions with the platform so far *)
  st_trace : list event;           (* what the script did, oldest first *)
}.

Definition set_os (o : os) (st : state) : state :=
  {| st_os := o; st_root := st_root st; st_umask := st_umask st;
     st_cwd := st_cwd st; st_env := st_env st;
     st_level := st_level st; st_tick := st_tick st; st_trace := st_trace st |}.

Definition set_fs (fs : gmap location node) (st : state) : state :=
  set_os {| os_fs := fs; os_cron := os_cron (st_os st) |} st.

Definition set_cwd (d : string) (st : state) : state :=
  {| st_os := st_os st; st_root := st_root st; st_umask := st_umask st;
     st_cwd := d; st_env := st_env st;
     st_level := st_level st; st_tick := st_tick st; st_trace := st_trace st |}.

Definition set_env (e : gmap string string) (st : state) : state :=
  {| st_os := st_os st; st_root := st_root st; st_umask := st_umask st;
     st_cwd := st_cwd st; st_env := e;
     st_level := st_level st; st_tick := st_tick st; st_trace := st_trace st |}.

Definition set_level (l : Z) (st : state) : state :=
  {| st_os := st_os st; st_root := st_root st; st_umask := st_umask st;
     st_cwd := st_cwd st; st_env := st_env st;
     st_level := l; st_tick := st_tick st; st_trace := st_trace st |}.

Definition record (e : event) (st : state) : state :=
  {| st_os := st_os st; st_root := st_root st; st_umask := st_umask st;
     st_cwd := st_cwd st; st_env := st_env st;
     st_level := st_level st; st_tick := st_tick st; st_trace := (st_trace st ++ e :: nil)%list |}.

Definition tick (st : state) : state :=
  {| st_os := st_os st; st_root := st_root st; st_umask := st_umask st;
     st_cwd := st_cwd st; st_env := st_env st;
     st_level := st_level st; st_tick := S (st_tick st); st_trace := st_trace st |}.

(** ** The script's monad: state passing with exceptions *)

Definition M (A : Type) : Type := state -> state * result A.

Definition ret {A} (a : A) : M A := fun st => (st, Ok a).

Definition raise {A} (e : exn) : M A := fun st => (st, Raise e).

Definition bind {A B} (m : M A) (k : A -> M B) : M B :=
  fun st =>
    match m st with
    | (st', Ok a) => k a st'
    | (st', Raise e) => (st', Raise e)
    end.

(** [try: m  except ...: h e]; the handler re-raises what it does not catch. *)
Definition try_except {A} (m : M A) (h : exn -> M A) : M A :=
  fun st =>
    match m st with
    | (st', Ok a) => (st', Ok a)
    | (st', Raise e) => h e st'
    end.

Notation "'let*' x ':=' m 'in' k" := (bind m (fun x => k))
  (at level 10, x name, m at level 100, k at level 200).
Notation "'do' m 'then' k" := (bind m (fun _ => k))
  (at level 10, m at level 100, k at level 200).

Definition gets {A} (f : state -> A) : M A := fun st => (st, Ok (f st)).
Definition modify (f : state -> state) : M unit := fun st => (f st, Ok tt).

(** ** Library functions the script calls *)

(** [shlex.split(cmd)]: POSIX mode, splitting on white space only.  Single
    quotes keep everything literally, double quotes allow a backslash before
    a backslash or a double quote, a backslash outside quotes keeps the next
    character.  [None] stands for the [ValueError] of an unclosed quotation
    or a dangling backslash. *)
Module Shlex.

Inductive lex_state : Type :=
  | Between                     (* state ' ': no token started *)
  | Word                        (* state 'a': inside a token *)
  | Quote (q : ascii)           (* inside a quotation opened by [q] *)
  | Esc (back : option ascii).  (* after a backslash; [back] is the quotation to return to *)

Definition is_space (c : ascii) : bool := Text.mem c (" " ++ Text.chr 9 ++ Text.chr 13 ++ Text.chr 10).
Definition is_quote (c : ascii) : bool := Text.mem c ("'" ++ Text.dq).
Definition backslash : ascii := ascii_of_nat 92.
Definition is_escape (c : ascii) : bool := Ascii.eqb c backslash.
Definition is_dquote (c : ascii) : bool := Text.mem c Text.dq.

(** [tok] is the current token, last character first. *)
Fixpoint lex (s : string) (state : lex_state) (tok : string) : option (list string) :=
  match s with
  | EmptyString =>
      match state with
      | Between => Some nil
      | Word => Some (Text.rev tok :: nil)
      | Quote _ => None
      | Esc _ => None
      end
  | String c rest =>
      match state with
      | Between =>
          if is_space c then lex rest Between EmptyString
          else if is_escape c then lex rest (Esc None) EmptyString
          else if is_quote c then lex rest (Quote c) EmptyString
          else lex rest Word (String c EmptyString)
      | Word =>
          if is_space c then option_map (cons (Text.rev tok)) (lex rest Between EmptyString)
          else if is_quote c then lex rest (Quote c) tok
          else if is_escape c then lex rest (Esc None) tok
          else lex rest Word (String c tok)
      | Quote q =>
          if Ascii.eqb c q then lex rest Word tok
          else if is_escape c && is_dquote q then lex rest (Esc (Some q)) tok
          else lex rest (Quote q) (String c tok)
      | Esc None => lex rest Word (String c tok)
      | Esc (Some q) =>
          if negb (is_escape c) && negb (Ascii.eqb c q)
          then lex rest (Quote q) (String c (String backslash tok))
          else lex rest (Quote q) (String c tok)
      end
  end.

Definition split (cmd : string) : option (list string) := lex cmd Between EmptyString.

End Shlex.

(** [bytes.decode()]: strict UTF-8.  Text is represented by its UTF-8
    bytes, so decoding checks well-formedness and returns the same bytes. *)
Module Utf8.

Definition between (lo hi : N) (c : ascii) : bool :=
  (N.leb lo (N_of_ascii c) && N.leb (N_of_ascii c) hi)%bool.

(** [need] continuation bytes are still expected, the next one in [lo..hi]. *)
Fixpoint scan (s : string) (need : nat) (lo hi : N) : bool :=
  match s with
  | EmptyString => match need with O => true | S _ => false end
  | String c rest =>
      match need with
      | S k => if between lo hi c then scan rest k 128%N 191%N else false
      | O =>
          if between 0 127 c then scan rest 0 128%N 191%N
          else if between 194 223 c then scan rest 1 128%N 191%N
          else if between 224 224 c then scan rest 2 160%N 191%N
          else if between 237 237 c then scan rest 2 128%N 159%N
          else if between 225 239 c then scan rest 2 128%N 191%N
          else if between 240 240 c then scan rest 3 144%N 191%N
          else if between 241 243 c then scan rest 3 128%N 191%N
          else if between 244 244 c then scan rest 3 128%N 143%N
          else false
      end
  end.

Definition valid (b : string) : bool := scan b 0 128%N 191%N.

Definition decode (b : string) : option string :=
  if valid b then Some b else None.

End Utf8.

(** Decimal and octal text of integers: [str(n)] and [oct(n)]. *)
Module Num.

Definition digit (d : Z) : ascii := ascii_of_nat (48 + Z.to_nat d).

Fixpoint digits (base : Z) (fuel : nat) (n : Z) (acc : string) : string :=
  match fuel with
  | O => acc
  | S f =>
      let acc' := String (digit (n mod base)) acc in
      if Z.eqb (n / base) 0 then acc' else digits base f (n / base) acc'
  end.

Definition unsigned (base : Z) (n : Z) : string :=
  digits base (S (Z.to_nat (Z.log2 n))) n EmptyString.

Definition str (n : Z) : string :=
  if Z.ltb n 0 then "-" ++ unsigned 10 (- n) else unsigned 10 n.

Definition oct (n : Z) : string :=
  if Z.ltb n 0 then "-0o" ++ unsigned 8 (- n) else "0o" ++ unsigned 8 n.

End Num.

(** Paths.  [os.path.join] is the library's; [resolve] is what the kernel
    does with a path name: relative names start at the working directory,
    empty components and [.] are skipped ([..] and symbolic links are not
    interpreted). *)
Module Path.

Definition join (a b : string) : string :=
  if Text.starts_with_slash b then b
  else if negb (nonempty a) || Text.ends_with_slash a then a ++ b
  else a ++ "/" ++ b.

Definition keep (c : string) : bool :=
  nonempty c && negb (String.eqb c ".").

Definition resolve (cwd p : string) : location :=
  List.filter keep
    (Text.split_on "/"%char (if Text.starts_with_slash p then p else cwd ++ "/" ++ p)).

Definition show (q : location) : string := "/" ++ Text.join "/" q.

Definition parent (q : location) : location := removelast q.

(** The proper ancestors of [q] followed by [q] itself, outermost first. *)
Fixpoint chain (above q : location) : list location :=
  match q with
  | nil => nil
  | c :: rest => (above ++ c :: nil)%list :: chain (above ++ c :: nil)%list rest
  end.

End Path.

(** ** File-system calls *)

Definition node_at (fs : gmap location node) (q : location) : option node :=
  match q with
  | nil => Some (Dir 493)          (* the root directory *)
  | _ => fs !! q
  end.

Definition fs_of (st : state) : gmap location node := os_fs (st_os st).

Definition locate (st : state) (p : string) : location := Path.resolve (st_cwd st) p.

(** Mode bits of the file or directory named [p], if there is one. *)
Definition mode_of (st : state) (p : string) : option Z :=
  match node_at (fs_of st) (locate st p) with
  | Some (File _ m) => Some m
  | Some (Dir m) => Some m
  | None => None
  end.

Definition data_of (st : state) (p : string) : option string :=
  match node_at (fs_of st) (locate st p) with
  | Some (File d _) => Some d
  | _ => None
  end.

Definition exists_at (st : state) (p : string) : bool :=
  match node_at (fs_of st) (locate st p) with Some _ => true | None => false end.

Definition isdir_at (st : state) (p : string) : bool :=
  match node_at (fs_of st) (locate st p) with Some (Dir _) => true | _ => false end.

Definition os_path_exists (p : string) : M bool := gets (fun st => exists_at st p).

Definition os_path_isdir (p : string) : M bool := gets (fun st => isdir_at st p).

(** Mode of a node created by the script: [wanted & ~umask]. *)
Definition masked (wanted umask : Z) : Z := Z.land wanted (Z.lnot umask).

(** *** Opening a file

    The mode string of [open]: exactly one of the letters [r], [w], [x] and
    [a], at most one [+] and at most one of [t] and [b], in any order and
    without repetition.  The checks are made in the order of [io.open], and
    the messages are its messages. *)
Inductive open_kind : Type := Reading | Writing | Creating | Appending.

Record open_mode : Type := {
  om_kind : open_kind;
  om_update : bool;                (* [+]: reading and writing *)
  om_binary : bool;                (* [b] *)
}.

Fixpoint within (chars s : string) : bool :=
  match s with
  | EmptyString => true
  | String c rest => Text.mem c chars && within chars rest
  end.

Fixpoint distinct (s : string) : bool :=
  match s with
  | EmptyString => true
  | String c rest => negb (Text.mem c rest) && distinct rest
  end.

Definition parse_mode (mode : string) : result open_mode :=
  let has (c : ascii) := Text.mem c mode in
  if negb (within "axrwb+t" mode && distinct mode)
  then Raise (ValueError ("invalid mode: '" ++ mode ++ "'"))
  else if has "t"%char && has "b"%char
  then Raise (ValueError "can't have text and binary mode at once")
  else
    let mk k := Ok {| om_kind := k; om_update := has "+"%char; om_binary := has "b"%char |} in
    match has "x"%char, has "r"%char, has "w"%char, has "a"%char with
    | true, false, false, false => mk Creating
    | false, true, false, false => mk Reading
    | false, false, true, false => mk Writing
    | false, false, false, true => mk Appending
    | false, false, false, false =>
        Raise (ValueError
                 "Must have exactly one of create/read/write/append mode and at most one plus")
    | _, _, _, _ => Raise (ValueError "must have exactly one of create/read/write/append mode")
    end.

Definition readable (om : open_mode) : bool :=
  match om_kind om with Reading => true | _ => om_update om end.

Definition writable (om : open_mode) : bool :=
  match om_kind om with Reading => om_update om | _ => true end.

(** May the script open a file of mode [m] this way?  Every file belongs to
    the user the script runs as, so the owner's bits decide; the superuser
    is refused nothing. *)
Definition permitted (st : state) (om : open_mode) (m : Z) : bool :=
  st_root st
  || ((negb (readable om) || Z.testbit m 8) && (negb (writable om) || Z.testbit m 7)).

(** [open(p, writemode)].  [w] truncates or creates, [a] keeps or creates,
    [x] creates and refuses an existing name, [r] needs an existing file; a
    new file needs an existing parent directory and gets mode
    [0o666 & ~umask].  The permissions of the directories on the way are
    not looked at. *)
Definition fs_open (p writemode : string) : M unit :=
  fun st =>
    match parse_mode writemode with
    | Raise e => (st, Raise e)
    | Ok om =>
        let q := locate st p in
        match node_at (fs_of st) q with
        | Some (Dir _) =>
            match om_kind om with
            | Creating => (st, Raise (OSError FileExistsError p))
            | _ => (st, Raise (OSError IsADirectoryError p))
            end
        | Some (File d m) =>
            match om_kind om with
            | Creating => (st, Raise (OSError FileExistsError p))
            | k =>
                if negb (permitted st om m) then (st, Raise (OSError PermissionError p))
                else match k with
                     | Writing => (set_fs (<[q := File EmptyString m]> (fs_of st)) st, Ok tt)
                     | _ => (st, Ok tt)
                     end
            end
        | None =>
            match node_at (fs_of st) (Path.parent q) with
            | Some (Dir _) =>
                match om_kind om with
                | Reading => (st, Raise (OSError FileNotFoundError p))
                | _ => (set_fs (<[q := File EmptyString (masked 438 (st_umask st))]> (fs_of st))
                          st, Ok tt)
                end
            | Some (File _ _) => (st, Raise (OSError NotADirectoryError p))
            | None => (st, Raise (OSError FileNotFoundError p))
            end
        end
    end.

(** [f.write(data)] followed by the flush, for a file whose position is
    its end (opened with [w], [x] or [a]): the data goes to the end of the
    file. *)
Definition fs_write (p data : string) : M unit :=
  modify (fun st =>
    match node_at (fs_of st) (locate st p) with
    | Some (File d m) => set_fs (<[locate st p := File (d ++ data) m]> (fs_of st)) st
    | _ => st
    end).

(** The same for a file whose position is its start (opened with [r+]): the
    data replaces the bytes at the start of the file. *)
Definition fs_overwrite (p data : string) : M unit :=
  modify (fun st =>
    match node_at (fs_of st) (locate st p) with
    | Some (File d m) =>
        set_fs (<[locate st p := File (data ++ Text.drop (String.length data) d) m]> (fs_of st)) st
    | _ => st
    end).

(** [f.write(data)], [data] being text, on the file opened as [writemode]:
    a file opened for reading only takes nothing
    ([io.UnsupportedOperation]), a binary file takes no text ([TypeError]).
    Text is held as its UTF-8 bytes, which is also what the file receives:
    the encoding of the locale is taken to be UTF-8.  A device that runs
    full is outside the model. *)
Definition file_write (p writemode data : string) : M unit :=
  match parse_mode writemode with
  | Raise e => raise e
  | Ok om =>
      if negb (writable om) then raise UnsupportedOperation
      else if om_binary om then raise TypeError
      else match om_kind om with
           | Reading => fs_overwrite p data
           | _ => fs_write p data
           end
  end.

(** Does the integer fit a C [int]? *)
Definition fits_int (n : Z) : bool := Z.leb (-2147483648) n && Z.leb n 2147483647.

(** [os.chmod(p, perms)]: [perms] has to fit a C [int]; the kernel keeps the
    twelve permission bits. *)
Definition os_chmod (p : string) (perms : Z) : M unit :=
  fun st =>
    let q := locate st p in
    if negb (fits_int perms)
    then (st, Raise OverflowError)
    else
      match node_at (fs_of st) q with
      | Some (File d _) => (set_fs (<[q := File d (Z.land perms 4095)]> (fs_of st)) st, Ok tt)
      | Some (Dir _) => (set_fs (<[q := Dir (Z.land perms 4095)]> (fs_of st)) st, Ok tt)
      | None => (st, Raise (OSError FileNotFoundError p))
      end.

(** The directories of [chain] are created from the outermost inwards;
    [leaf] tells whether the last one is the directory asked for. *)
Fixpoint mkdirs (name : string) (exist_ok : bool) (umask : Z) (chain : list location)
    (fs : gmap location node) : result (gmap location node) :=
  match chain with
  | nil => Ok fs
  | q :: rest =>
      match fs !! q, rest with
      | Some (Dir _), nil => if exist_ok then Ok fs else Raise (OSError FileExistsError name)
      | Some (Dir _), _ => mkdirs name exist_ok umask rest fs
      | Some (File _ _), nil => Raise (OSError FileExistsError name)
      | Some (File _ _), _ => Raise (OSError NotADirectoryError name)
      | None, _ => mkdirs name exist_ok umask rest (<[q := Dir (masked 511 umask)]> fs)
      end
  end.

(** [os.makedirs(p, exist_ok=...)]. *)
Definition os_makedirs (p : string) (exist_ok : bool) : M unit :=
  fun st =>
    match locate st p with
    | nil => if exist_ok then (st, Ok tt) else (st, Raise (OSError FileExistsError p))
    | q =>
        match mkdirs p exist_ok (st_umask st) (Path.chain nil q) (fs_of st) with
        | Ok fs' => (set_fs fs' st, Ok tt)
        | Raise e => (st, Raise e)
        end
    end.

(** [os.chdir(p)]. *)
Definition os_chdir (p : string) : M unit :=
  fun st =>
    match node_at (fs_of st) (locate st p) with
    | Some (Dir _) => (set_cwd (Path.show (locate st p)) st, Ok tt)
    | Some (File _ _) => (st, Raise (OSError NotADirectoryError p))
    | None => (st, Raise (OSError FileNotFoundError p))
    end.

(** ** Logging *)

Definition DEBUG : Z := 10.
Definition INFO : Z := 20.
Definition WARNING : Z := 30.

(** A record is emitted when its level reaches the logger's threshold. *)
Definition logging_log (level : Z) (msg : string) : M unit :=
  modify (fun st => if Z.leb (st_level st) level then record (EvLog level msg) st else st).

Definition logging_debug := logging_log DEBUG.
Definition logging_info := logging_log INFO.
Definition logging_warning := logging_log WARNING.

(** [logging.basicConfig(level=...)]. *)
Definition logging_basicConfig (level : Z) : M unit := modify (set_level level).

(** ** Python helpers *)

Definition decode (b : string) : M string :=
  match Utf8.decode b with
  | Some s => ret s
  | None => raise UnicodeDecodeError
  end.

(** [v.get(key)]: only a dictionary has the method. *)
Definition py_get (v : pyval) (key : string) : M pyval :=
  match v with
  | PDict d => ret (match dict_get key d with Some x => x | None => PNone end)
  | _ => raise AttributeError
  end.

(** [v[key]] for a text key. *)
Definition py_item (v : pyval) (key : string) : M pyval :=
  match v with
  | PDict d => match dict_get key d with Some x => ret x | None => raise (KeyError key) end
  | _ => raise TypeError
  end.

(** [CMD_ENV[key]]. *)
Definition env_item (key : string) : M string :=
  fun st =>
    match st_env st !! key with
    | Some v => (st, Ok v)
    | None => (st, Raise (KeyError key))
    end.

(** ** The script *)

Section Script.

Variable P : platform.

(** How an f-string renders a value. *)
Definition fmt (v : pyval) : string :=
  match v with
  | PStr s => s
  | _ => py_repr P v
  end.

(** One HTTPS exchange: [conn.request(...)] then
    [json.loads(conn.getresponse().read())]. *)
Definition https (r : request) : M pyval :=
  fun st =>
    let st' := tick (record (EvHttp r) st) in
    match server P (st_tick st) r with
    | Unreachable => (st', Raise NetworkError)
    | Body None => (st', Raise JSONDecodeError)
    | Body (Some v) => (st', Ok v)
    end.

(** *** class OpalstackAPITool (lines 25-65) *)

Record OpalstackAPITool : Type := {
  host : string;
  base_uri : string;
  headers : list (string * string);
}.

Definition OpalstackAPITool_init (host0 base_uri0 : string) (authtoken user password : pyval)
    : M OpalstackAPITool :=
  let* authtoken :=
    (if negb (truthy authtoken) then
       let endpoint := base_uri0 ++ "/login/" in
       let payload := json_dumps (PDict (("username", user) :: ("password", password) :: nil)) in
       let* result :=
         https {| rq_method := "POST"; rq_host := host0; rq_endpoint := endpoint;
                  rq_body := Some payload;
                  rq_headers := ("Content-type", "application/json") :: nil |} in
       let* token := py_get result "token" in
       if negb (truthy token) then
         do logging_warning "Invalid username or password and no auth token provided, exiting." then
         raise (SystemExit 1)
       else py_item result "token"
     else ret authtoken) in
  ret {| host := host0; base_uri := base_uri0;
         headers := ("Content-type", "application/json")
                    :: ("Authorization", "Token " ++ fmt authtoken) :: nil |}.

Definition api_get (self : OpalstackAPITool) (endpoint : string) : M pyval :=
  let endpoint := base_uri self ++ endpoint in
  https {| rq_method := "GET"; rq_host := host self; rq_endpoint := endpoint;
           rq_body := None; rq_headers := headers self |}.

Definition api_post (self : OpalstackAPITool) (endpoint : string) (payload : wire) : M pyval :=
  let endpoint := base_uri self ++ endpoint in
  https {| rq_method := "POST"; rq_host := host self; rq_endpoint := endpoint;
           rq_body := Some payload; rq_headers := headers self |}.

(** *** run_command (lines 67-75) *)

(** [subprocess.check_output(argv, cwd=cwd, env=env)]: standard output is
    captured; a non-zero exit status raises [CalledProcessError], whose
    [output] is the captured standard output. *)
Definition check_output (argv : list string) (cwd : option string) (env : gmap string string)
    : M string :=
  fun st =>
    let '(os', outcome) := spawn P (st_tick st) argv env cwd (st_os st) in
    let st' := tick (record (EvRun argv env cwd) (set_os os' st)) in
    match outcome with
    | NotLaunched why => (st', Raise (OSError why (hd EmptyString argv)))
    | Exited code stdout _ =>
        if Z.eqb code 0 then (st', Ok stdout)
        else (st', Raise (CalledProcessError code argv stdout))
    end.

Definition shlex_split (cmd : string) : M (list string) :=
  match Shlex.split cmd with
  | Some argv => ret argv
  | None => raise (ValueError "shlex")
  end.

Definition run_command (cmd : string) (env : gmap string string) (cwd : option string)
    : M string :=
  do logging_info ("Running: " ++ cmd) then
  try_except
    (let* argv := shlex_split cmd in check_output argv cwd env)
    (fun e =>
       match e with
       | CalledProcessError _ _ output =>
           do logging_debug (py_repr P (PBytes output)) then
           ret output
       | _ => raise e
       end).

(** *** create_file (lines 77-82) *)

Definition create_file (path contents : string) (writemode : option string) (perms : option Z)
    : M unit :=
  let writemode := default "w" writemode in
  let perms := default 384 perms in
  do fs_open path writemode then
  do file_write path writemode contents then
  do os_chmod path perms then
  logging_info ("Created file " ++ path ++ " with permissions " ++ Num.oct perms).

(** *** gen_password (lines 91-94) *)

Definition ascii_letters : string := "abcdefghijklmnopqrstuvwxyzABCDEFGHIJKLMNOPQRSTUVWXYZ".
Definition digits : string := "0123456789".

(** [secrets.choice(chars)]. *)
Definition secrets_choice (chars : string) : M string :=
  fun st =>
    let i := (entropy P (st_tick st) mod String.length chars)%nat in
    (tick st, Ok (match String.get i chars with
                  | Some c => String c EmptyString
                  | None => EmptyString
                  end)).

Fixpoint choices (chars : string) (n : nat) : M string :=
  match n with
  | O => ret EmptyString
  | S k =>
      let* c := secrets_choice chars in
      let* rest := choices chars k in
      ret (c ++ rest)
  end.

Definition gen_password (length : option nat) : M string :=
  let length := default 20%nat length in
  let chars := ascii_letters ++ digits in
  choices chars length.

(** *** add_cronjob (lines 96-110) *)

Definition add_cronjob (cronjob : string) (env : gmap string string) : M unit :=
  let homedir := home P in
  let* pw := gen_password None in
  let tmpname := homedir ++ "/.tmp" ++ pw in
  do fs_open tmpname "w" then
  let* current :=
    try_except
      (let* out := run_command "crontab -l" env None in decode out)
      (fun ex =>
         match ex with
         | SystemExit _ => raise ex      (* not an [Exception] *)
         | _ => ret EmptyString
         end) in
  do fs_write tmpname current then
  do fs_write tmpname (cronjob ++ Text.nl) then
  let* _ := run_command ("crontab " ++ tmpname) env None in
  let* _ := run_command ("rm -f " ++ tmpname) env None in
  logging_info ("Added cron job: " ++ cronjob).

(** *** main (lines 112-288) *)

(** The parsed command line: each field is [None] or text. *)
Record Args : Type := {
  app_uuid : pyval;
  app_name : pyval;
  opal_token : pyval;
  opal_user : pyval;
  opal_password : pyval;
}.

(** [CMD_ENV] as the module defines it (line 23). *)
Definition CMD_ENV : gmap string string :=
  <["PATH" := "/usr/local/bin:/usr/bin:/bin"]> (<["UMASK" := "0002"]> ∅).

(** Lines 135-151: resolve the app, create its directories, extend CMD_ENV.
    Returns the application directory. *)
Definition prepare_appdir (api : OpalstackAPITool) (args : Args) : M string :=
  let* appinfo := api_get api ("/app/read/" ++ fmt (app_uuid args)) in
  let* osuser := py_item appinfo "osuser_name" in
  let* appname := py_item appinfo "name" in
  let appdir := "/home/" ++ fmt osuser ++ "/apps/" ++ fmt appname in
  let* present := os_path_exists appdir in
  do (if negb present then os_makedirs appdir true else ret tt) then
  let tmpdir := Path.join appdir "tmp" in
  do os_makedirs tmpdir true then
  do modify (fun st =>
       set_env (<["HOME" := "/home/" ++ fmt osuser]>
                  (<["GEM_HOME" := tmpdir]> (<["TMPDIR" := tmpdir]> (st_env st)))) st) then
  ret appdir.

(** Lines 157-169: install Jekyll and Bundler, put the gem directory on PATH. *)
Definition install_jekyll (appdir : string) : M unit :=
  do logging_info "Installing Jekyll and Bundler with --user-install" then
  let* env := gets st_env in
  let* _ := run_command "gem install jekyll bundler --user-install" env (Some appdir) in
  let* env := gets st_env in
  let* out := run_command "ruby -r rubygems -e 'puts Gem.user_dir'" env (Some appdir) in
  let* text := decode out in
  let gem_user_dir := Text.strip_ws text in
  do logging_info ("Gem user directory: " ++ gem_user_dir) then
  let* old_path := env_item "PATH" in
  do modify (fun st => set_env (<["PATH" := gem_user_dir ++ "/bin:" ++ old_path]> (st_env st)) st) then
  let* env := gets st_env in
  let* out := run_command "jekyll -v" env (Some appdir) in
  let* text := decode out in
  let jekyll_version := Text.strip_ws text in
  logging_info ("Jekyll version: " ++ jekyll_version).

(** Lines 174-182: scaffold the site unless its directory exists, then enter
    it.  Returns [site_dir]. *)
Definition create_demo_site (appdir : string) : M string :=
  let site_dir := Path.join appdir "demo-site" in
  let* there := os_path_isdir site_dir in
  do (if negb there then
        do logging_info "Creating a new Jekyll site 'demo-site'..." then
        let* env := gets st_env in
        let* _ := run_command "jekyll new demo-site" env (Some appdir) in
        ret tt
      else
        logging_info "Jekyll site 'demo-site' already exists. Skipping creation.") then
  do os_chdir site_dir then
  ret site_dir.

Definition sample_post_text : string :=
  Text.line 12 "---"
  ++ Text.line 12 "layout: post"
  ++ Text.line 12 ("title: " ++ Text.dq ++ "Welcome to Jekyll" ++ Text.dq)
  ++ Text.line 12 ("date: " ++ now_stamp P)
  ++ Text.line 12 "categories: jekyll demo"
  ++ Text.line 12 "---"
  ++ Text.line 12 "Hey there! This is your first post on a brand new Jekyll site."
  ++ Text.line 12 "Let's get jek yas!"
  ++ Text.spaces 12.

(** Lines 185-187: make sure the posts directory exists.  Returns
    [posts_dir]. *)
Definition ensure_posts_dir (site_dir : string) : M string :=
  let posts_dir := Path.join site_dir "_posts" in
  let* there := os_path_isdir posts_dir in
  do (if negb there then os_makedirs posts_dir false else ret tt) then
  ret posts_dir.

(** Lines 188-205: write today's sample post unless it exists. *)
Definition create_sample_post (posts_dir : string) : M unit :=
  let today := today_iso P in
  let post_filename := today ++ "-welcome-to-jekyll.md" in
  let post_path := Path.join posts_dir post_filename in
  let* present := os_path_exists post_path in
  if negb present then
    do logging_info "Creating a sample demo post..." then
    let sample_post := dedent P sample_post_text in
    create_file post_path sample_post None (Some 420)
  else
    logging_info "Sample demo post already exists. Skipping.".

(** Lines 208-209. *)
Definition build_site (site_dir : string) : M unit :=
  do logging_info "Building the Jekyll site..." then
  let* env := gets st_env in
  let* _ := run_command "bundle exec jekyll build" env (Some site_dir) in
  ret tt.

Definition start_jekyll_text (appdir : string) : string :=
  Text.line 8 "#!/bin/bash"
  ++ Text.line 8 ("APPDIR=" ++ appdir)
  ++ Text.line 8 "cd $APPDIR/demo-site"
  ++ Text.line 8 "# Start Jekyll serve in the background and write the PID to a file."
  ++ Text.line 8 "nohup bundle exec jekyll serve > $APPDIR/demo-site/jekyll.log 2>&1 &"
  ++ Text.line 8 "echo $! > $APPDIR/demo-site/jekyll.pid"
  ++ Text.line 8 ("echo " ++ Text.dq ++ "Jekyll server started." ++ Text.dq)
  ++ Text.spaces 8.

Definition stop_jekyll_text (appdir : string) : string :=
  Text.line 8 "#!/bin/bash"
  ++ Text.line 8 ("APPDIR=" ++ appdir)
  ++ Text.line 8 "PIDFILE=$APPDIR/demo-site/jekyll.pid"
  ++ Text.line 8 ("if [ -f " ++ Text.dq ++ "$PIDFILE" ++ Text.dq ++ " ]; then")
  ++ Text.line 12 ("kill $(cat " ++ Text.dq ++ "$PIDFILE" ++ Text.dq ++ ")")
  ++ Text.line 12 ("rm -f " ++ Text.dq ++ "$PIDFILE" ++ Text.dq)
  ++ Text.line 12 ("echo " ++ Text.dq ++ "Jekyll server stopped." ++ Text.dq)
  ++ Text.line 8 "else"
  ++ Text.line 12 ("echo " ++ Text.dq ++ "Jekyll server is not running (no PID file found)." ++ Text.dq)
  ++ Text.line 8 "fi"
  ++ Text.spaces 8.

(** Lines 215-225. *)
Definition create_start_script (appdir : string) : M unit :=
  let start_jekyll := dedent P (start_jekyll_text appdir) in
  let start_script_path := Path.join appdir "start_jekyll" in
  create_file start_script_path start_jekyll None (Some 448).

(** Lines 228-241. *)
Definition create_stop_script (appdir : string) : M unit :=
  let stop_jekyll := dedent P (stop_jekyll_text appdir) in
  let stop_script_path := Path.join appdir "stop_jekyll" in
  create_file stop_script_path stop_jekyll None (Some 448).

(** [random.randint(a, b)], both ends included. *)
Definition random_randint (a b : Z) : M Z :=
  fun st => (tick st, Ok (a + Z.of_nat (entropy P (st_tick st)) mod (b - a + 1))).

(** The f-string of line 248. *)
Definition croncmd_line (m : Z) (appdir : string) : string :=
  "0" ++ Num.str m ++ ",1" ++ Num.str m ++ ",2" ++ Num.str m
  ++ ",3" ++ Num.str m ++ ",4" ++ Num.str m ++ ",5" ++ Num.str m
  ++ " * * * * " ++ appdir ++ "/start_jekyll > /dev/null 2>&1".

(** Lines 246-249. *)
Definition schedule_start (appdir : string) : M unit :=
  let* m := random_randint 0 9 in
  let croncmd := croncmd_line m appdir in
  let* env := gets st_env in
  add_cronjob croncmd env.

Definition readme_text (appdir : string) : string :=
  Text.line 8 "# Opalstack Jekyll Demo Site README"
  ++ Text.line 0 EmptyString
  ++ Text.line 8 "## Post-install Steps"
  ++ Text.line 0 EmptyString
  ++ Text.line 8 "1. To preview your Jekyll site, execute:"
  ++ Text.line 8 EmptyString
  ++ Text.line 15 (appdir ++ "/start_jekyll")
  ++ Text.line 0 EmptyString
  ++ Text.line 11 "This will start the Jekyll server (running in the background)."
  ++ Text.line 0 EmptyString
  ++ Text.line 8 "2. To stop the server, execute:"
  ++ Text.line 8 EmptyString
  ++ Text.line 15 (appdir ++ "/stop_jekyll")
  ++ Text.line 0 EmptyString
  ++ Text.line 8 "3. Your generated site files are located in:"
  ++ Text.line 8 EmptyString
  ++ Text.line 15 (appdir ++ "/demo-site/_site")
  ++ Text.line 0 EmptyString
  ++ Text.line 8 "4. Edit your Jekyll site by modifying files in the demo-site directory."
  ++ Text.line 11 "To add more posts, add markdown files to the demo-site/_posts directory."
  ++ Text.line 0 EmptyString
  ++ Text.line 8 "5. For further customization, refer to the [Jekyll documentation](https://jekyllrb.com/docs/)."
  ++ Text.line 0 EmptyString
  ++ Text.line 8 "Enjoy your new Jekyll demo site!"
  ++ Text.spaces 8.

(** Lines 254-281. *)
Definition create_readme (appdir : string) : M unit :=
  let readme := dedent P (readme_text appdir) in
  let readme_path := Path.join appdir "README" in
  create_file readme_path readme None (Some 420).

(** Lines 286-288. *)
Definition notify_installed (api : OpalstackAPITool) (args : Args) : M unit :=
  let payload := json_dumps (PList (PDict (("id", app_uuid args) :: nil) :: nil)) in
  let* finished := api_post api "/app/installed/" payload in
  logging_info ("Completed installation of Jekyll demo site " ++ fmt (app_name args)).

(** Everything [main] does before the notification (lines 129-281).
    Returns the API client. *)
Definition install (args : Args) : M OpalstackAPITool :=
  do logging_basicConfig INFO then
  do logging_info ("Started installation of Jekyll demo site " ++ fmt (app_name args)) then
  let* api :=
    OpalstackAPITool_init (API_HOST (environ P !! "API_URL")) API_BASE_URI
      (opal_token args) (opal_user args) (opal_password args) in
  let* appdir := prepare_appdir api args in
  do install_jekyll appdir then
  let* site_dir := create_demo_site appdir in
  let* posts_dir := ensure_posts_dir site_dir in
  do create_sample_post posts_dir then
  do build_site site_dir then
  do create_start_script appdir then
  do create_stop_script appdir then
  do schedule_start appdir then
  do create_readme appdir then
  ret api.

Definition main (args : Args) : M unit :=
  let* api := install args in
  notify_installed api args.

(** Running the file: the module-level assignments, then [main()]. *)
Definition script (args : Args) : M unit :=
  do modify (set_env CMD_ENV) then
  main args.

End Script.

(** ** Observations on a run *)

(** The HTTP requests of a trace, oldest first. *)
Fixpoint requests (tr : list event) : list request :=
  match tr with
  | nil => nil
  | EvHttp r :: rest => r :: requests rest
  | _ :: rest => requests rest
  end.

(** The argument vectors of the subprocess calls of a trace. *)
Fixpoint runs (tr : list event) : list (list string) :=
  match tr with
  | nil => nil
  | EvRun argv _ _ :: rest => argv :: runs rest
  | _ :: rest => runs rest
  end.

(** The log messages of a trace. *)
Fixpoint messages (tr : list event) : list string :=
  match tr with
  | nil => nil
  | EvLog _ msg :: rest => msg :: messages rest
  | _ :: rest => messages rest
  end.

(** Is this request the installed-notification of line 287? *)
Definition is_notification (r : request) : bool :=
  String.eqb (rq_method r) "POST"
  && String.eqb (rq_endpoint r) (API_BASE_URI ++ "/app/installed/").

Definition notifications (tr : list event) : list request :=
  List.filter is_notification (requests tr).

(** The request [notify_installed] sends for these arguments. *)
Definition notification (api : OpalstackAPITool) (args : Args) : request :=
  {| rq_method := "POST"; rq_host := host api;
     rq_endpoint := base_uri api ++ "/app/installed/";
     rq_body := Some (Json (PList (PDict (("id", app_uuid args) :: nil) :: nil)));
     rq_headers := headers api |}.

(** The login request of the constructor. *)
Definition login_request (host0 base_uri0 : string) (user password : pyval) : request :=
  {| rq_method := "POST"; rq_host := host0; rq_endpoint := base_uri0 ++ "/login/";
     rq_body := Some (Json (PDict (("username", user) :: ("password", password) :: nil)));
     rq_headers := ("Content-type", "application/json") :: nil |}.

(** The headers built from a token (lines 48-51). *)
Definition token_headers (P : platform) (authtoken : pyval) : list (string * string) :=
  ("Content-type", "application/json") :: ("Authorization", "Token " ++ fmt P authtoken) :: nil.

(** A JSON reply without a usable [token]: not an object, or an object whose
    [token] is missing or false in Python's sense (null, empty text, 0, ...). *)
Definition lacks_token (v : pyval) : bool :=
  match v with
  | PDict d => negb (truthy (default PNone (dict_get "token" d)))
  | _ => true
  end.

(** Minute field of a crontab line: decimal numbers separated by commas. *)
Module Cron.

Definition digit_value (c : ascii) : option Z :=
  let n := Z.of_N (N_of_ascii c) in
  if Z.leb 48 n && Z.leb n 57 then Some (n - 48) else None.

Fixpoint number (s : string) (acc : Z) : option Z :=
  match s with
  | EmptyString => Some acc
  | String c rest =>
      match digit_value c with
      | Some d => number rest (10 * acc + d)
      | None => None
      end
  end.

Fixpoint numbers (fields : list string) : option (list Z) :=
  match fields with
  | nil => Some nil
  | f :: rest =>
      match number f 0, numbers rest with
      | Some n, Some ns => Some (n :: ns)
      | _, _ => None
      end
  end.

(** The fields of a crontab line: minute, hour, day of month, month, day of
    week, then the words of the command. *)
Definition fields (line : string) : list string := Text.split_on " "%char line.

Definition minutes (line : string) : option (list Z) :=
  match fields line with
  | f :: _ => numbers (Text.split_on ","%char f)
  | nil => None
  end.

End Cron.

(** ** What the crontab commands do

    The effect on the machine of a [crontab FILE] that installs the text
    [data], and of an [rm -f FILE] that removes the file at [q]. *)

Definition install_cron (data : string) (o : os) : os :=
  {| os_fs := os_fs o; os_cron := Some data |}.

Definition remove_file (q : location) (o : os) : os :=
  {| os_fs := delete q (os_fs o); os_cron := os_cron o |}.

(** Words that [shlex.split] leaves alone: no white space, quote or
    backslash. *)
Fixpoint all_chars (f : ascii -> bool) (s : string) : bool :=
  match s with
  | EmptyString => true
  | String c rest => f c && all_chars f rest
  end.

Definition plain_char (c : ascii) : bool :=
  negb (Shlex.is_space c || Shlex.is_quote c || Shlex.is_escape c).

Definition plain (s : string) : bool := all_chars plain_char s.

(** The home directory is an absolute, plain name of an existing directory
    that holds no entry named [.tmp...]. *)
Record home_ready (P : platform) (st : state) : Prop := {
  home_absolute : Text.starts_with_slash (home P) = true;
  home_plain : plain (home P) = true;
  home_is_dir : exists m, node_at (fs_of st) (Path.resolve "/" (home P)) = Some (Dir m);
  home_no_tmp : forall name : string,
    fs_of st !! (Path.resolve "/" (home P) ++ ((".tmp" ++ name)%string :: nil))%list = None;
}.

(** The temporary file name [add_cronjob] picks when started in [st]. *)
Definition tmpname_of (P : platform) (st : state) : string :=
  home P ++ "/.tmp" ++ match snd (gen_password P None st) with
                       | Ok pw => pw
                       | Raise _ => EmptyString
                       end.

(** ** The commands of one call of [add_cronjob]

    [add_cronjob] runs three commands.  What they are assumed to do is
    stated for the calls the function makes, in the state in which it makes
    them, and for nothing else. *)

Section CronCalls.

Variable P : platform.

(** Lines 98-100: [add_cronjob] as far as the listing.  Returns the name of
    the temporary file. *)
Definition add_cronjob_opened : M string :=
  let homedir := home P in
  let* pw := gen_password P None in
  let tmpname := homedir ++ "/.tmp" ++ pw in
  do fs_open tmpname "w" then
  ret tmpname.

(** Lines 98-107: [add_cronjob] as far as the installation. *)
Definition add_cronjob_written (cronjob : string) (env : gmap string string) : M string :=
  let homedir := home P in
  let* pw := gen_password P None in
  let tmpname := homedir ++ "/.tmp" ++ pw in
  do fs_open tmpname "w" then
  let* current :=
    try_except
      (let* out := run_command P "crontab -l" env None in decode out)
      (fun ex =>
         match ex with
         | SystemExit _ => raise ex
         | _ => ret EmptyString
         end) in
  do fs_write tmpname current then
  do fs_write tmpname (cronjob ++ Text.nl) then
  ret tmpname.

(** The state in which [add_cronjob], started in [st], runs [crontab -l],
    and the one in which it runs [crontab FILE]. *)
Definition at_listing (st : state) : state := fst (add_cronjob_opened st).

Definition at_install (cronjob : string) (env : gmap string string) (st : state) : state :=
  fst (add_cronjob_written cronjob env st).

(** What a command answers when it is run in [st]: the machine it leaves
    and how it ended. *)
Definition answer (argv : list string) (env : gmap string string) (st : state)
    : os * proc_outcome :=
  spawn P (st_tick st) argv env None (st_os st).

(** What [add_cronjob] takes for the current crontab, given how
    [crontab -l] ended: what the command printed on its standard output,
    whatever its exit status, when that is UTF-8; nothing when it is not, or
    when the command could not be started. *)
Definition read_back (oc : proc_outcome) : string :=
  match oc with
  | Exited _ out _ => default EmptyString (Utf8.decode out)
  | NotLaunched _ => EmptyString
  end.

(** What the file named [p] holds in [st]; nothing when there is no such
    file. *)
Definition held (st : state) (p : string) : string := default EmptyString (data_of st p).

(** The machine once [crontab FILE] has installed the temporary file as it
    is when [add_cronjob] runs the command. *)
Definition installed (cronjob : string) (env : gmap string string) (st : state) : os :=
  install_cron (held (at_install cronjob env st) (tmpname_of P st))
    (st_os (at_install cronjob env st)).

(** The three commands of the call [add_cronjob cronjob env] made in [st] do
    what their manual pages say: [crontab -l] prints [out] and changes
    nothing, [crontab FILE] installs what the file holds and exits 0, and
    [rm -f FILE] removes the file. *)
Record commands_work (cronjob : string) (env : gmap string string) (st : state)
    (out : string) : Prop := {
  listing_prints : exists code err,
    answer ("crontab" :: "-l" :: nil) env (at_listing st)
    = (st_os (at_listing st), Exited code out err);
  file_installed : exists out' err',
    answer ("crontab" :: tmpname_of P st :: nil) env (at_install cronjob env st)
    = (installed cronjob env st, Exited 0 out' err');
  file_removed : exists code out' err',
    spawn P (S (st_tick (at_install cronjob env st)))
      ("rm" :: "-f" :: tmpname_of P st :: nil) env None (installed cronjob env st)
    = (remove_file (Path.resolve "/" (tmpname_of P st)) (installed cronjob env st),
       Exited code out' err');
}.

End CronCalls.

(** ** A small concrete machine

    Used to run the script and to instantiate the theorems below: a
    [crontab] and an [rm] that behave as their manual pages say, a
    [jekyll new] that creates the site directory, and an API server that
    knows one application. *)
Module Demo.

Definition demo_spawn (t : nat) (argv : list string) (env : gmap string string)
    (cwd : option string) (o : os) : os * proc_outcome :=
  match argv with
  | "crontab" :: "-l" :: nil =>
      match os_cron o with
      | Some c => (o, Exited 0 c EmptyString)
      | None => (o, Exited 1 EmptyString "no crontab for user")
      end
  | "crontab" :: f :: nil =>
      match os_fs o !! Path.resolve "/" f with
      | Some (File d _) => (install_cron d o, Exited 0 EmptyString EmptyString)
      | _ => (o, Exited 1 EmptyString "cannot open file")
      end
  | "rm" :: "-f" :: f :: nil =>
      (remove_file (Path.resolve "/" f) o, Exited 0 EmptyString EmptyString)
  | "jekyll" :: "new" :: d :: nil =>
      ({| os_fs := <[Path.resolve (default "/" cwd) d := Dir 493]> (os_fs o);
          os_cron := os_cron o |},
       Exited 0 "New jekyll site installed" EmptyString)
  | "false" :: nil => (o, Exited 1 "some output" "some diagnostics")
  | _ => (o, Exited 0 "ok" EmptyString)
  end.

Definition demo_server (t : nat) (r : request) : reply :=
  if String.eqb (rq_method r) "GET"
  then Body (Some (PDict (("osuser_name", PStr "u1") :: ("name", PStr "app1") :: nil)))
  else if String.eqb (rq_endpoint r) "/api/v1/login/"
  then Body (Some (PDict (("token", PStr "s3cr3t") :: nil)))
  else Body (Some (PDict nil)).

(** A server that rejects the credentials. *)
Definition deny_server (t : nat) (r : request) : reply :=
  Body (Some (PDict (("detail", PStr "Unable to log in") :: nil))).

Definition machine : platform := {|
  spawn := demo_spawn;
  server := demo_server;
  entropy := fun n => (7 * n + 3)%nat;
  dedent := fun s => s;
  py_repr := fun _ => "None";
  today_iso := "2026-11-04";
  now_stamp := "2026-11-04 09:30:00 ";
  home := "/home/u1";
  environ := ∅;
|}.

Definition deny_machine : platform := {|
  spawn := demo_spawn;
  server := deny_server;
  entropy := entropy machine;
  dedent := dedent machine;
  py_repr := py_repr machine;
  today_iso := today_iso machine;
  now_stamp := now_stamp machine;
  home := home machine;
  environ := environ machine;
|}.

Definition disk : gmap location node :=
  <["home" :: "u1" :: nil := Dir 493]> (<["home" :: nil := Dir 493]> ∅).

Definition boot (cron : option string) : state := {|
  st_os := {| os_fs := disk; os_cron := cron |};
  st_root := false;
  st_umask := 18;
  st_cwd := "/";
  st_env := CMD_ENV;
  st_level := WARNING;
  st_tick := 0;
  st_trace := nil;
|}.

Definition old_cron : string := "# m h dom mon dow command" ++ Text.nl.

Definition args_token : Args := {|
  app_uuid := PStr "0a1b2c3d";
  app_name := PStr "app1";
  opal_token := PStr "t0k3n";
  opal_user := PNone;
  opal_password := PNone;
|}.

Definition args_login : Args := {|
  app_uuid := PStr "0a1b2c3d";
  app_name := PStr "app1";
  opal_token := PNone;
  opal_user := PStr "alice";
  opal_password := PStr "hunter2";
|}.

End Demo.

(** * Properties *)

(** ** The model at work *)

Example API_HOST_default : API_HOST None = "my.opalstack.com".
Proof. reflexivity. Qed.

Example API_HOST_staging :
  API_HOST (Some "https://staging.example.com") = "aging.example.com".
Proof. reflexivity. Qed.

Example shlex_gem_dir :
  Shlex.split "ruby -r rubygems -e 'puts Gem.user_dir'"
  = Some ("ruby" :: "-r" :: "rubygems" :: "-e" :: "puts Gem.user_dir" :: nil).
Proof. reflexivity. Qed.

Example shlex_unclosed : Shlex.split "crontab 'x" = None.
Proof. reflexivity. Qed.

Example decode_ascii : Utf8.decode "*/5 * * * * true" = Some "*/5 * * * * true".
Proof. reflexivity. Qed.

Example decode_latin1 : Utf8.decode ("# caf" ++ Text.chr 233) = None.
Proof. reflexivity. Qed.

Example oct_700 : Num.oct 448 = "0o700".
Proof. reflexivity. Qed.

Example str_2024 : Num.str 2024 = "2024".
Proof. reflexivity. Qed.

Example join_appdir : Path.join "/home/u1/apps/app1" "demo-site" = "/home/u1/apps/app1/demo-site".
Proof. reflexivity. Qed.

Example resolve_appdir :
  Path.resolve "/tmp" "/home/u1//apps/./app1" = ("home" :: "u1" :: "apps" :: "app1" :: nil).
Proof. reflexivity. Qed.

Example chain_appdir :
  Path.chain nil ("home" :: "u1" :: nil) = (("home" :: nil) :: ("home" :: "u1" :: nil) :: nil).
Proof. reflexivity. Qed.

Example demo_run_completes :
  snd (script Demo.machine Demo.args_token (Demo.boot (Some Demo.old_cron))) = Ok tt.
Proof. vm_compute. reflexivity. Qed.

Example demo_run_crontab :
  os_cron (st_os (fst (script Demo.machine Demo.args_token (Demo.boot (Some Demo.old_cron)))))
  = Some (Demo.old_cron
          ++ "05,15,25,35,45,55 * * * * /home/u1/apps/app1/start_jekyll > /dev/null 2>&1"
          ++ Text.nl).
Proof. vm_compute. reflexivity. Qed.

Example demo_run_requests :
  List.map (fun r => (rq_method r, rq_endpoint r))
    (requests (st_trace (fst (script Demo.machine Demo.args_login (Demo.boot None)))))
  = ("POST", "/api/v1/login/") :: ("GET", "/api/v1/app/read/0a1b2c3d")
    :: ("POST", "/api/v1/app/installed/") :: nil.
Proof. vm_compute. reflexivity. Qed.

(** ** Reasoning about the monad *)

Lemma bind_Ok {A B} (m : M A) (k : A -> M B) st st1 a :
  m st = (st1, Ok a) -> bind m k st = k a st1.
Proof. intros H. unfold bind. rewrite H. reflexivity. Qed.

Lemma bind_Raise {A B} (m : M A) (k : A -> M B) st st1 e :
  m st = (st1, Raise e) -> bind m k st = (st1, Raise e).
Proof. intros H. unfold bind. rewrite H. reflexivity. Qed.

Lemma bind_assoc {A B C} (m : M A) (f : A -> M B) (g : B -> M C) st :
  bind (bind m f) g st = bind m (fun x => bind (f x) g) st.
Proof. unfold bind. destruct (m st) as [s [a|e]]; reflexivity. Qed.

(** The state after a logging call. *)
Definition logged (level : Z) (msg : string) (st : state) : state :=
  if Z.leb (st_level st) level then record (EvLog level msg) st else st.

Lemma logging_log_eq level msg st : logging_log level msg st = (logged level msg st, Ok tt).
Proof. reflexivity. Qed.

Lemma logged_os level msg st : st_os (logged level msg st) = st_os st.
Proof. unfold logged. destruct (Z.leb _ _); reflexivity. Qed.

Lemma logged_tick level msg st : st_tick (logged level msg st) = st_tick st.
Proof. unfold logged. destruct (Z.leb _ _); reflexivity. Qed.

Lemma logged_cwd level msg st : st_cwd (logged level msg st) = st_cwd st.
Proof. unfold logged. destruct (Z.leb _ _); reflexivity. Qed.

Lemma logged_umask level msg st : st_umask (logged level msg st) = st_umask st.
Proof. unfold logged. destruct (Z.leb _ _); reflexivity. Qed.

Lemma logged_root level msg st : st_root (logged level msg st) = st_root st.
Proof. unfold logged. destruct (Z.leb _ _); reflexivity. Qed.

Lemma logged_env level msg st : st_env (logged level msg st) = st_env st.
Proof. unfold logged. destruct (Z.leb _ _); reflexivity. Qed.

Lemma logged_level level msg st : st_level (logged level msg st) = st_level st.
Proof. unfold logged. destruct (Z.leb _ _); reflexivity. Qed.

Lemma requests_app tr1 tr2 : requests (tr1 ++ tr2)%list = (requests tr1 ++ requests tr2)%list.
Proof.
  induction tr1 as [|e tr1 IH]; [reflexivity|].
  destruct e; simpl; rewrite IH; reflexivity.
Qed.

Lemma runs_app tr1 tr2 : runs (tr1 ++ tr2)%list = (runs tr1 ++ runs tr2)%list.
Proof.
  induction tr1 as [|e tr1 IH]; [reflexivity|].
  destruct e; simpl; rewrite IH; reflexivity.
Qed.

Lemma logged_requests level msg st :
  requests (st_trace (logged level msg st)) = requests (st_trace st).
Proof.
  unfold logged. destruct (Z.leb _ _); [|reflexivity].
  simpl. rewrite requests_app. simpl. apply app_nil_r.
Qed.

Lemma logged_runs level msg st :
  runs (st_trace (logged level msg st)) = runs (st_trace st).
Proof.
  unfold logged. destruct (Z.leb _ _); [|reflexivity].
  simpl. rewrite runs_app. simpl. apply app_nil_r.
Qed.

(** ** The command runner *)

Section CommandRunner.

Variable P : platform.

(** What [check_output] does once the program has run and exited. *)
Lemma check_output_exited argv cwd env st os' code out err :
  spawn P (st_tick st) argv env cwd (st_os st) = (os', Exited code out err) ->
  check_output P argv cwd env st
  = (tick (record (EvRun argv env cwd) (set_os os' st)),
     if Z.eqb code 0 then Ok out else Raise (CalledProcessError code argv out)).
Proof.
  intros H. unfold check_output. rewrite H. destruct (Z.eqb code 0); reflexivity.
Qed.

(** The state in which [run_command] leaves the machine after a command
    that ran and exited with [code], having printed [out]. *)
Definition after_command (cmd : string) (argv : list string) (env : gmap string string)
    (cwd : option string) (os' : os) (code : Z) (out : string) (st : state) : state :=
  let st1 := tick (record (EvRun argv env cwd) (set_os os' (logged INFO ("Running: " ++ cmd) st))) in
  if Z.eqb code 0 then st1 else logged DEBUG (py_repr P (PBytes out)) st1.

Lemma run_command_exited cmd env cwd st argv os' code out err :
  Shlex.split cmd = Some argv ->
  spawn P (st_tick st) argv env cwd (st_os st) = (os', Exited code out err) ->
  run_command P cmd env cwd st = (after_command cmd argv env cwd os' code out st, Ok out).
Proof.
  intros Hsplit Hspawn.
  unfold run_command, logging_info, after_command.
  rewrite (bind_Ok _ _ _ _ _ (logging_log_eq INFO _ st)).
  unfold try_except, shlex_split. rewrite Hsplit.
  rewrite (bind_Ok _ _ _ _ argv eq_refl).
  rewrite (check_output_exited argv cwd env _ os' code out err)
    by (rewrite logged_tick, logged_os; exact Hspawn).
  destruct (Z.eqb code 0); reflexivity.
Qed.

(** C1.  A command line that launches and exits with a non-zero status makes
    [check_output] raise [CalledProcessError]; [run_command] catches it and
    returns the output captured in that error as an ordinary result.  A
    command that exits with status zero yields its output. *)
Theorem run_command_swallows_failure cmd env cwd st argv os' code out err :
  Shlex.split cmd = Some argv ->
  spawn P (st_tick st) argv env cwd (st_os st) = (os', Exited code out err) ->
  snd (run_command P cmd env cwd st) = Ok out
  /\ (code <> 0 ->
      snd (check_output P argv cwd env (logged INFO ("Running: " ++ cmd) st))
      = Raise (CalledProcessError code argv out))
  /\ (code = 0 ->
      snd (check_output P argv cwd env (logged INFO ("Running: " ++ cmd) st)) = Ok out).
Proof.
  intros Hsplit Hspawn.
  split; [rewrite (run_command_exited _ _ _ _ _ _ _ _ _ Hsplit Hspawn); reflexivity|].
  assert (Hco := check_output_exited argv cwd env (logged INFO ("Running: " ++ cmd) st) os' code out err).
  rewrite logged_tick, logged_os in Hco. specialize (Hco Hspawn).
  split; intros Hcode; rewrite Hco; simpl.
  - destruct (Z.eqb_spec code 0); [contradiction|reflexivity].
  - subst code. reflexivity.
Qed.

End CommandRunner.

Lemma run_command_swallows_failure_witness :
  snd (run_command Demo.machine "false" CMD_ENV None (Demo.boot None)) = Ok "some output"
  /\ (1 <> 0 ->
      snd (check_output Demo.machine ("false" :: nil) None CMD_ENV
             (logged INFO ("Running: " ++ "false") (Demo.boot None)))
      = Raise (CalledProcessError 1 ("false" :: nil) "some output"))
  /\ (1 = 0 ->
      snd (check_output Demo.machine ("false" :: nil) None CMD_ENV
             (logged INFO ("Running: " ++ "false") (Demo.boot None)))
      = Ok "some output").
Proof.
  apply (run_command_swallows_failure Demo.machine "false" CMD_ENV None (Demo.boot None)
           ("false" :: nil) (st_os (Demo.boot None)) 1 "some output" "some diagnostics");
    reflexivity.
Defined.

(** ** The API client *)

Section ApiClient.

Variable P : platform.

Lemma https_eq r st :
  https P r st
  = (tick (record (EvHttp r) st),
     match server P (st_tick st) r with
     | Unreachable => Raise NetworkError
     | Body None => Raise JSONDecodeError
     | Body (Some v) => Ok v
     end).
Proof.
  unfold https. destruct (server P (st_tick st) r) as [|[v|]]; reflexivity.
Qed.

Lemma https_requests r st :
  requests (st_trace (fst (https P r st))) = (requests (st_trace st) ++ r :: nil)%list.
Proof. rewrite https_eq. simpl. rewrite requests_app. reflexivity. Qed.

(** With a token the constructor is a pure function of the token. *)
Lemma init_with_token host0 base authtoken user password :
  truthy authtoken = true ->
  OpalstackAPITool_init P host0 base authtoken user password
  = ret {| host := host0; base_uri := base; headers := token_headers P authtoken |}.
Proof.
  intros H. unfold OpalstackAPITool_init. rewrite H. reflexivity.
Qed.

(** Without a token the constructor logs in and then looks at the reply. *)
Lemma init_without_token host0 base authtoken user password st :
  truthy authtoken = false ->
  OpalstackAPITool_init P host0 base authtoken user password st
  = let st1 := tick (record (EvHttp (login_request host0 base user password)) st) in
    match server P (st_tick st) (login_request host0 base user password) with
    | Unreachable => (st1, Raise NetworkError)
    | Body None => (st1, Raise JSONDecodeError)
    | Body (Some (PDict d)) =>
        match dict_get "token" d with
        | Some tok =>
            if truthy tok
            then (st1, Ok {| host := host0; base_uri := base; headers := token_headers P tok |})
            else (logged WARNING "Invalid username or password and no auth token provided, exiting." st1,
                  Raise (SystemExit 1))
        | None =>
            (logged WARNING "Invalid username or password and no auth token provided, exiting." st1,
             Raise (SystemExit 1))
        end
    | Body (Some _) => (st1, Raise AttributeError)
    end.
Proof.
  intros H. unfold OpalstackAPITool_init. rewrite H. simpl negb. cbv iota.
  unfold bind at 1. unfold bind at 1.
  change (https P _ st) with (https P (login_request host0 base user password) st).
  rewrite https_eq.
  destruct (server P (st_tick st) (login_request host0 base user password)) as [|[v|]];
    try reflexivity.
  destruct v; try reflexivity.
  simpl. destruct (dict_get "token" d) as [tok|] eqn:Hd.
  - unfold bind, ret. simpl. destruct (truthy tok) eqn:Ht; simpl.
    + reflexivity.
    + reflexivity.
  - reflexivity.
Qed.

(** C3.  With an auth token supplied the constructor contacts nothing: it
    leaves the machine untouched and returns a client whose headers are
    built from that token, whatever the user name and password are; [get]
    and [post] send those headers, and [main] as a whole does not depend on
    the credentials. *)
Theorem supplied_token_skips_login host0 base authtoken user password st :
  truthy authtoken = true ->
  let api := {| host := host0; base_uri := base; headers := token_headers P authtoken |} in
  OpalstackAPITool_init P host0 base authtoken user password st = (st, Ok api)
  /\ (forall user' password',
        OpalstackAPITool_init P host0 base authtoken user' password' st = (st, Ok api))
  /\ (forall t, authtoken = PStr t ->
        headers api = ("Content-type", "application/json")
                      :: ("Authorization", "Token " ++ t) :: nil)
  /\ (forall endpoint st1,
        requests (st_trace (fst (api_get P api endpoint st1)))
        = (requests (st_trace st1)
           ++ {| rq_method := "GET"; rq_host := host0; rq_endpoint := base ++ endpoint;
                 rq_body := None; rq_headers := token_headers P authtoken |} :: nil)%list)
  /\ (forall endpoint payload st1,
        requests (st_trace (fst (api_post P api endpoint payload st1)))
        = (requests (st_trace st1)
           ++ {| rq_method := "POST"; rq_host := host0; rq_endpoint := base ++ endpoint;
                 rq_body := Some payload; rq_headers := token_headers P authtoken |} :: nil)%list)
  /\ (forall args user' password' st0,
        opal_token args = authtoken ->
        main P {| app_uuid := app_uuid args; app_name := app_name args;
                  opal_token := opal_token args;
                  opal_user := user'; opal_password := password' |} st0
        = main P args st0).
Proof.
  intros H api.
  split; [rewrite init_with_token by exact H; reflexivity|].
  split; [intros; rewrite init_with_token by exact H; reflexivity|].
  split; [intros t ->; reflexivity|].
  split; [intros; unfold api_get; apply https_requests|].
  split; [intros; unfold api_post; apply https_requests|].
  intros args user' password' st0 Htok.
  unfold main, install. simpl.
  rewrite !init_with_token by (rewrite Htok; exact H).
  reflexivity.
Qed.

(** C2.  Without an auth token the constructor sends exactly one request, the
    login POST carrying the user name and the password.  If the JSON reply
    has no usable token the run ends there with exit status 1, whatever was
    to follow; otherwise the token of the reply goes into the headers that
    [get] and [post] send. *)
Theorem login_without_token host0 base authtoken user password st :
  truthy authtoken = false ->
  let login := login_request host0 base user password in
  let run := OpalstackAPITool_init P host0 base authtoken user password st in
  requests (st_trace (fst run)) = (requests (st_trace st) ++ login :: nil)%list
  /\ (forall v, server P (st_tick st) login = Body (Some v) -> lacks_token v = true ->
        forall (A : Type) (rest : OpalstackAPITool -> M A),
          exit_status (snd (bind (OpalstackAPITool_init P host0 base authtoken user password) rest st)) = 1
          /\ requests (st_trace (fst (bind (OpalstackAPITool_init P host0 base authtoken user password) rest st)))
             = (requests (st_trace st) ++ login :: nil)%list)
  /\ (forall d, server P (st_tick st) login = Body (Some (PDict d)) ->
        lacks_token (PDict d) = true -> snd run = Raise (SystemExit 1))
  /\ (forall d tok, server P (st_tick st) login = Body (Some (PDict d)) ->
        dict_get "token" d = Some tok -> truthy tok = true ->
        snd run = Ok {| host := host0; base_uri := base; headers := token_headers P tok |}
        /\ forall endpoint payload st1,
             requests (st_trace (fst (api_get P {| host := host0; base_uri := base;
                                                   headers := token_headers P tok |} endpoint st1)))
             = (requests (st_trace st1)
                ++ {| rq_method := "GET"; rq_host := host0; rq_endpoint := base ++ endpoint;
                      rq_body := None; rq_headers := token_headers P tok |} :: nil)%list
             /\ requests (st_trace (fst (api_post P {| host := host0; base_uri := base;
                                                       headers := token_headers P tok |}
                                            endpoint payload st1)))
                = (requests (st_trace st1)
                   ++ {| rq_method := "POST"; rq_host := host0; rq_endpoint := base ++ endpoint;
                         rq_body := Some payload; rq_headers := token_headers P tok |} :: nil)%list).
Proof.
  intros H login run.
  assert (Hrun := init_without_token host0 base authtoken user password st H).
  fold login in Hrun. cbv zeta in Hrun.
  split.
  { unfold run. rewrite Hrun.
    destruct (server P (st_tick st) login) as [|[v|]]; simpl;
      try (rewrite requests_app; reflexivity).
    destruct v; simpl; try (rewrite requests_app; reflexivity).
    destruct (dict_get "token" d) as [tok|]; [destruct (truthy tok)|]; simpl;
      rewrite ?logged_requests; simpl; rewrite requests_app; reflexivity. }
  split.
  { intros v Hv Hlack A rest. unfold bind. rewrite Hrun, Hv.
    destruct v; simpl; try (rewrite requests_app; split; reflexivity).
    simpl in Hlack.
    destruct (dict_get "token" d) as [tok|]; simpl in Hlack.
    - destruct (truthy tok); [discriminate|]. simpl.
      rewrite logged_requests. simpl. rewrite requests_app. split; reflexivity.
    - simpl. rewrite logged_requests. simpl. rewrite requests_app. split; reflexivity. }
  split.
  { intros d Hv Hlack. unfold run. rewrite Hrun, Hv. simpl in Hlack.
    destruct (dict_get "token" d) as [tok|]; simpl in Hlack; [|reflexivity].
    destruct (truthy tok); [discriminate|reflexivity]. }
  intros d tok Hv Hd Ht. split.
  { unfold run. rewrite Hrun, Hv, Hd, Ht. reflexivity. }
  intros endpoint payload st1. split.
  - unfold api_get. apply https_requests.
  - unfold api_post. apply https_requests.
Qed.

End ApiClient.

Lemma supplied_token_skips_login_witness :
  truthy (PStr "t0k3n") = true
  /\ OpalstackAPITool_init Demo.machine "my.opalstack.com" API_BASE_URI (PStr "t0k3n")
       (PStr "alice") (PStr "hunter2") (Demo.boot None)
     = (Demo.boot None,
        Ok {| host := "my.opalstack.com"; base_uri := API_BASE_URI;
              headers := token_headers Demo.machine (PStr "t0k3n") |}).
Proof.
  split; [reflexivity|].
  exact (proj1 (supplied_token_skips_login Demo.machine "my.opalstack.com" API_BASE_URI
                  (PStr "t0k3n") (PStr "alice") (PStr "hunter2") (Demo.boot None) eq_refl)).
Defined.

Lemma login_without_token_witness :
  truthy PNone = false
  /\ requests (st_trace (fst (OpalstackAPITool_init Demo.deny_machine "my.opalstack.com"
                                API_BASE_URI PNone (PStr "alice") (PStr "hunter2")
                                (Demo.boot None))))
     = login_request "my.opalstack.com" API_BASE_URI (PStr "alice") (PStr "hunter2") :: nil
  /\ snd (OpalstackAPITool_init Demo.deny_machine "my.opalstack.com" API_BASE_URI PNone
            (PStr "alice") (PStr "hunter2") (Demo.boot None))
     = Raise (SystemExit 1).
Proof.
  split; [reflexivity|].
  pose proof (login_without_token Demo.deny_machine "my.opalstack.com" API_BASE_URI PNone
                (PStr "alice") (PStr "hunter2") (Demo.boot None) eq_refl) as [H1 [_ [H3 _]]].
  split; [exact H1|].
  exact (H3 (("detail", PStr "Unable to log in") :: nil) eq_refl eq_refl).
Defined.

(** ** The API host *)

(** C8.  [str.strip] takes a set of characters, not a prefix: after the
    protocol it goes on removing every leading and trailing character of the
    host name that occurs in [https://].  The host of
    [https://staging.example.com] loses its first two letters, the host of
    [http://host.test] its first and its last two. *)
Theorem API_HOST_eats_host_characters :
  API_HOST (Some "https://staging.example.com") = "aging.example.com"
  /\ API_HOST (Some "http://host.test") = "ost.te"
  /\ API_HOST (Some "https://my.opalstack.com") = "my.opalstack.com".
Proof. repeat split; reflexivity. Qed.

(** ** The cron line *)

Section CronLine.

Variable P : platform.

Lemma split_on_cons c s : exists f fs, Text.split_on c s = f :: fs.
Proof.
  induction s as [|d s IH]; simpl; [eauto|].
  destruct (Ascii.eqb d c); [eauto|].
  destruct IH as (f & fs & ->). eauto.
Qed.

Lemma split_on_app c a b :
  Text.split_on c (a ++ String c b) = (Text.split_on c a ++ Text.split_on c b)%list.
Proof.
  induction a as [|d a IH]; simpl.
  - rewrite Ascii.eqb_refl. reflexivity.
  - destruct (Ascii.eqb d c); [rewrite IH; reflexivity|].
    rewrite IH. destruct (split_on_cons c a) as (f & fs & ->). reflexivity.
Qed.

Lemma append_cons (x : ascii) (a b : string) : String x a ++ b = String x (a ++ b).
Proof. reflexivity. Qed.

Lemma string_app_assoc (a b c : string) : (a ++ b) ++ c = a ++ (b ++ c).
Proof.
  induction a as [|x a IH]; [reflexivity|].
  rewrite !append_cons, IH. reflexivity.
Qed.

Lemma ends_with_slash_inv s :
  Text.ends_with_slash s = true -> exists a, s = a ++ "/".
Proof.
  induction s as [|c s IH]; simpl; [discriminate|].
  destruct s as [|d s].
  - intros H. apply Ascii.eqb_eq in H. subst c. exists EmptyString. reflexivity.
  - intros H. destruct (IH H) as [a Ha]. exists (String c a).
    rewrite append_cons, <- Ha. reflexivity.
Qed.

Lemma starts_with_slash_app a x :
  Text.starts_with_slash a = true -> Text.starts_with_slash (a ++ x) = true.
Proof. destruct a; [discriminate|intros H; exact H]. Qed.

(** The command of the cron line and [start_script_path] name the same file. *)
Lemma croncmd_names_start_script cwd appdir :
  Text.starts_with_slash appdir = true ->
  Path.resolve cwd (appdir ++ "/start_jekyll")
  = Path.resolve cwd (Path.join appdir "start_jekyll").
Proof.
  intros Habs.
  assert (Hne : nonempty appdir = true) by (destruct appdir; [discriminate|reflexivity]).
  unfold Path.join.
  change (Text.starts_with_slash "start_jekyll") with false. cbv iota.
  rewrite Hne. change (negb true) with false. rewrite orb_false_l.
  destruct (Text.ends_with_slash appdir) eqn:E; [|reflexivity].
  destruct (ends_with_slash_inv _ E) as [a Ha].
  unfold Path.resolve. rewrite !starts_with_slash_app by exact Habs.
  rewrite Ha.
  change (a ++ "/") with (a ++ String "/"%char EmptyString).
  rewrite !string_app_assoc.
  change (String "/"%char EmptyString ++ "/start_jekyll") with (String "/"%char "/start_jekyll").
  change (String "/"%char EmptyString ++ "start_jekyll") with (String "/"%char "start_jekyll").
  rewrite !split_on_app. rewrite !List.filter_app. reflexivity.
Qed.

(** C5.  The orchestrator draws one digit [m] between 0 and 9 and passes to
    [add_cronjob] the line whose minute field is [0m,1m,2m,3m,4m,5m], that is
    the minutes m, m+10, ..., m+50, whose next four fields are [*], and whose
    command is the start script of the application directory with its output
    sent to /dev/null. *)
Theorem croncmd_six_minutes appdir st :
  exists m,
    random_randint P 0 9 st = (tick st, Ok m)
    /\ 0 <= m <= 9
    /\ schedule_start P appdir st
       = add_cronjob P (croncmd_line m appdir) (st_env st) (tick st)
    /\ Cron.fields (croncmd_line m appdir)
       = ("0" ++ Num.str m ++ ",1" ++ Num.str m ++ ",2" ++ Num.str m
          ++ ",3" ++ Num.str m ++ ",4" ++ Num.str m ++ ",5" ++ Num.str m)
         :: "*" :: "*" :: "*" :: "*"
         :: Cron.fields (appdir ++ "/start_jekyll > /dev/null 2>&1")
    /\ Cron.minutes (croncmd_line m appdir)
       = Some (m :: m + 10 :: m + 20 :: m + 30 :: m + 40 :: m + 50 :: nil)
    /\ (forall cwd osuser appname,
          Path.resolve cwd (("/home/" ++ osuser ++ "/apps/" ++ appname) ++ "/start_jekyll")
          = Path.resolve cwd (Path.join ("/home/" ++ osuser ++ "/apps/" ++ appname) "start_jekyll")).
Proof.
  exists (0 + Z.of_nat (entropy P (st_tick st)) mod 10).
  split; [reflexivity|].
  set (m := 0 + Z.of_nat (entropy P (st_tick st)) mod 10).
  assert (Hm : 0 <= m <= 9).
  { unfold m. pose proof (Z.mod_pos_bound (Z.of_nat (entropy P (st_tick st))) 10). lia. }
  split; [exact Hm|].
  split; [reflexivity|].
  assert (Hcases : m = 0 \/ m = 1 \/ m = 2 \/ m = 3 \/ m = 4 \/ m = 5 \/ m = 6 \/ m = 7
                   \/ m = 8 \/ m = 9) by lia.
  clearbody m.
  split; [|split].
  - unfold Cron.fields.
    repeat (destruct Hcases as [-> | Hcases]); try subst m; reflexivity.
  - unfold Cron.minutes, Cron.fields.
    repeat (destruct Hcases as [-> | Hcases]); try subst m; reflexivity.
  - intros. apply croncmd_names_start_script. reflexivity.
Qed.

End CronLine.

(** ** Written files and their permissions *)

Section Files.

Variable P : platform.

Lemma node_at_insert (q : location) (x : node) (fs : gmap location node) :
  q <> nil -> node_at (<[q := x]> fs) q = Some x.
Proof.
  intros Hq. destruct q as [|c q]; [contradiction|].
  simpl. apply lookup_insert_eq.
Qed.

Lemma node_at_root_dir fs (q : location) d m : node_at fs q = Some (File d m) -> q <> nil.
Proof. intros H ->. discriminate. Qed.

Lemma mode_of_logged level msg st p : mode_of (logged level msg st) p = mode_of st p.
Proof. unfold mode_of, fs_of, locate. rewrite logged_os, logged_cwd. reflexivity. Qed.

(** What the file holds right after a successful [open]: nothing when it
    was opened with [w] or [x], what it held otherwise. *)
Definition opened_data (st : state) (p writemode : string) : string :=
  match parse_mode writemode with
  | Ok om =>
      match om_kind om with
      | Writing | Creating => EmptyString
      | _ => default EmptyString (data_of st p)
      end
  | Raise _ => EmptyString
  end.

(** What it holds after [contents] has been written to it. *)
Definition written (writemode d contents : string) : string :=
  match parse_mode writemode with
  | Ok om =>
      match om_kind om with
      | Reading => contents ++ Text.drop (String.length contents) d
      | _ => d ++ contents
      end
  | Raise _ => d
  end.

(** Does [open(p, writemode)] succeed in [st]? *)
Definition opens (st : state) (p writemode : string) : bool :=
  match snd (fs_open p writemode st) with Ok _ => true | Raise _ => false end.

(** The modes in which text can be written. *)
Definition writes_text (writemode : string) : bool :=
  match parse_mode writemode with
  | Ok om => negb (om_binary om) && writable om
  | Raise _ => false
  end.

(** Has the directory at [a] the permission bit [bit] for its owner? *)
Definition dir_bit (st : state) (a : location) (bit : Z) : bool :=
  match node_at (fs_of st) a with
  | Some (Dir m) => Z.testbit m bit
  | _ => false
  end.

(** May the user get at the name: search every directory above it and, if
    the name is free, write the directory it is to be created in?  [open]
    above leaves the permissions of directories aside; what is proved to
    succeed is proved for names the user may get at. *)
Definition may_enter (st : state) (p : string) : bool :=
  st_root st
  || (forallb (fun a => dir_bit st a 6) (Path.chain nil (Path.parent (locate st p)))
      && match node_at (fs_of st) (locate st p) with
         | None => dir_bit st (Path.parent (locate st p)) 7
         | Some _ => true
         end).

(** Can the name be written with the mode [w]: the user may get at it, and
    it is free in an existing directory or is a regular file the user may
    write. *)
Definition can_write (st : state) (p : string) : bool :=
  may_enter st p
  && match node_at (fs_of st) (locate st p) with
     | Some (File _ m) => st_root st || Z.testbit m 7
     | Some (Dir _) => false
     | None =>
         match node_at (fs_of st) (Path.parent (locate st p)) with
         | Some (Dir _) => true
         | _ => false
         end
     end.

Lemma fs_open_data p wm st st1 :
  fs_open p wm st = (st1, Ok tt) ->
  st_cwd st1 = st_cwd st
  /\ st_trace st1 = st_trace st
  /\ os_cron (st_os st1) = os_cron (st_os st)
  /\ locate st p <> nil
  /\ exists m,
       fs_of st1 = <[locate st p := File (opened_data st p wm) m]> (fs_of st)
       /\ (forall d m0, node_at (fs_of st) (locate st p) = Some (File d m0) -> m = m0).
Proof.
  unfold fs_open, opened_data, data_of. intros H.
  destruct (parse_mode wm) as [om|e]; [|discriminate].
  destruct (node_at (fs_of st) (locate st p)) as [[d m|m]|] eqn:Hn.
  - pose proof (node_at_root_dir _ _ _ _ Hn) as Hq.
    assert (Hid : fs_of st = <[locate st p := File d m]> (fs_of st)).
    { symmetry. apply insert_id. destruct (locate st p); [contradiction|exact Hn]. }
    destruct (om_kind om); try discriminate;
      (destruct (negb (permitted st om m)); [discriminate|]);
      inversion H; subst st1; clear H;
      repeat (split; [reflexivity|]); (split; [exact Hq|]); exists m;
      (split; [first [reflexivity | exact Hid]|]);
      intros d0 m0 E; inversion E; reflexivity.
  - destruct (om_kind om); discriminate.
  - assert (Hq : locate st p <> nil) by (intros E; rewrite E in Hn; discriminate).
    destruct (node_at (fs_of st) (Path.parent (locate st p))) as [[d m|m]|];
      try discriminate.
    destruct (om_kind om); try discriminate;
      inversion H; subst st1; clear H;
      repeat (split; [reflexivity|]); (split; [exact Hq|]);
      exists (masked 438 (st_umask st)); (split; [reflexivity|]);
      intros d0 m0 E; discriminate.
Qed.

Lemma fs_open_root p wm st st1 r : fs_open p wm st = (st1, r) -> st_root st1 = st_root st.
Proof.
  unfold fs_open. intros H.
  destruct (parse_mode wm) as [om|e0]; [|inversion H; reflexivity].
  destruct (node_at (fs_of st) (locate st p)) as [[d m|m]|].
  - destruct (om_kind om); try (inversion H; reflexivity);
      (destruct (negb (permitted st om m)); inversion H; reflexivity).
  - destruct (om_kind om); inversion H; reflexivity.
  - destruct (node_at (fs_of st) (Path.parent (locate st p))) as [[d m|m]|];
      try (inversion H; reflexivity).
    destruct (om_kind om); inversion H; reflexivity.
Qed.

(** A successful [open] leaves a regular file under the name. *)
Lemma fs_open_ok p wm st st1 :
  fs_open p wm st = (st1, Ok tt) ->
  st_cwd st1 = st_cwd st
  /\ exists d m, node_at (fs_of st1) (locate st p) = Some (File d m).
Proof.
  intros H. destruct (fs_open_data _ _ _ _ H) as (Hcwd & _ & _ & Hq & m & Hfs & _).
  split; [exact Hcwd|]. eexists _, m. rewrite Hfs. apply node_at_insert. exact Hq.
Qed.

(** An [open] that fails leaves everything as it was. *)
Lemma fs_open_raise p wm st st1 e : fs_open p wm st = (st1, Raise e) -> st1 = st.
Proof.
  unfold fs_open. intros H.
  destruct (parse_mode wm) as [om|e0]; [|inversion H; reflexivity].
  destruct (node_at (fs_of st) (locate st p)) as [[d m|m]|].
  - destruct (om_kind om); try (inversion H; reflexivity);
      (destruct (negb (permitted st om m)); inversion H; reflexivity).
  - destruct (om_kind om); inversion H; reflexivity.
  - destruct (node_at (fs_of st) (Path.parent (locate st p))) as [[d m|m]|];
      try (inversion H; reflexivity).
    destruct (om_kind om); inversion H; reflexivity.
Qed.

Lemma fs_open_w st p :
  can_write st p = true -> exists st1, fs_open p "w" st = (st1, Ok tt).
Proof.
  unfold can_write, fs_open. intros H.
  apply andb_prop in H. destruct H as [_ H].
  change (parse_mode "w")
    with (Ok {| om_kind := Writing; om_update := false; om_binary := false |}).
  cbv beta iota. cbn [om_kind].
  destruct (node_at (fs_of st) (locate st p)) as [[d m|m]|]; [|discriminate|].
  - unfold permitted, readable, writable. cbn [om_kind om_update negb orb andb].
    rewrite H. eexists. reflexivity.
  - destruct (node_at (fs_of st) (Path.parent (locate st p))) as [[d m|m]|];
      try discriminate.
    eexists. reflexivity.
Qed.

Lemma land_4095 perms : 0 <= perms <= 4095 -> Z.land perms 4095 = perms.
Proof.
  intros H. change 4095 with (Z.ones 12). rewrite Z.land_ones by lia.
  apply Z.mod_small. change (2 ^ 12) with 4096. lia.
Qed.

Lemma fits_int_mode perms : 0 <= perms <= 4095 -> fits_int perms = true.
Proof. intros H. unfold fits_int. apply andb_true_intro. split; apply Z.leb_le; lia. Qed.

(** Writing text to the file just opened. *)
Lemma file_write_text p wm data st d m :
  writes_text wm = true ->
  node_at (fs_of st) (locate st p) = Some (File d m) ->
  file_write p wm data st
  = (set_fs (<[locate st p := File (written wm d data) m]> (fs_of st)) st, Ok tt).
Proof.
  unfold writes_text, file_write, written. intros Hw Hn.
  destruct (parse_mode wm) as [om|e]; [|discriminate].
  apply andb_prop in Hw. destruct Hw as [Hb Hwr].
  rewrite Hwr. cbn [negb]. destruct (om_binary om); [discriminate|].
  destruct (om_kind om); unfold fs_write, fs_overwrite, modify; rewrite Hn; reflexivity.
Qed.

(** Once the file is open in a mode that takes text, and the permission
    value fits a C [int], [create_file] runs to its end. *)
Lemma create_file_opened p contents writemode perms st st1 :
  fs_open p (default "w" writemode) st = (st1, Ok tt) ->
  writes_text (default "w" writemode) = true ->
  fits_int (default 384 perms) = true ->
  create_file p contents writemode perms st
  = (logged INFO ("Created file " ++ p ++ " with permissions " ++ Num.oct (default 384 perms))
       (set_fs (<[locate st p
                  := File (written (default "w" writemode)
                             (opened_data st p (default "w" writemode)) contents)
                          (Z.land (default 384 perms) 4095)]> (fs_of st)) st1),
     Ok tt).
Proof.
  intros Ho Hw Hfit.
  destruct (fs_open_data _ _ _ _ Ho) as (Hcwd & _ & _ & Hq & m & Hfs & _).
  assert (Hloc : locate st1 p = locate st p) by (unfold locate; rewrite Hcwd; reflexivity).
  unfold create_file. rewrite (bind_Ok _ _ _ _ _ Ho).
  assert (Hn : node_at (fs_of st1) (locate st1 p)
               = Some (File (opened_data st p (default "w" writemode)) m))
    by (rewrite Hloc, Hfs; apply node_at_insert; exact Hq).
  rewrite (bind_Ok _ _ _ _ _ (file_write_text p _ contents st1 _ _ Hw Hn)).
  unfold os_chmod. unfold bind at 1. rewrite Hfit. cbn [negb].
  change (locate (set_fs ?f st1) p) with (locate st1 p).
  change (fs_of (set_fs ?f st1)) with f.
  rewrite Hloc, (node_at_insert _ _ _ Hq).
  unfold logging_info. rewrite logging_log_eq.
  rewrite Hfs, !insert_insert_eq. reflexivity.
Qed.

(** A [create_file] that returned went through all three steps. *)
Lemma create_file_inv p contents writemode perms st st' :
  create_file p contents writemode perms st = (st', Ok tt) ->
  exists st1,
    fs_open p (default "w" writemode) st = (st1, Ok tt)
    /\ writes_text (default "w" writemode) = true
    /\ fits_int (default 384 perms) = true.
Proof.
  unfold create_file. intros H.
  destruct (fs_open p (default "w" writemode) st) as [st1 [[]|e]] eqn:Ho;
    [rewrite (bind_Ok _ _ _ _ _ Ho) in H | rewrite (bind_Raise _ _ _ _ _ Ho) in H; discriminate].
  exists st1. split; [reflexivity|].
  destruct (file_write p (default "w" writemode) contents st1) as [st2 [[]|e]] eqn:Hwr;
    [rewrite (bind_Ok _ _ _ _ _ Hwr) in H | rewrite (bind_Raise _ _ _ _ _ Hwr) in H; discriminate].
  split.
  - unfold file_write in Hwr. unfold writes_text.
    destruct (parse_mode (default "w" writemode)) as [om|e]; [|discriminate].
    destruct (writable om); [|discriminate].
    destruct (om_binary om); [discriminate|reflexivity].
  - unfold os_chmod in H. unfold bind at 1 in H.
    destruct (fits_int (default 384 perms)); [reflexivity|discriminate].
Qed.

(** After a successful [create_file] the name holds a regular file whose
    mode is the requested one, cut to the twelve permission bits. *)
Lemma create_file_ok path contents writemode perms st st' :
  create_file path contents writemode perms st = (st', Ok tt) ->
  exists d, node_at (fs_of st') (locate st' path)
            = Some (File d (Z.land (default 384 perms) 4095)).
Proof.
  intros H. destruct (create_file_inv _ _ _ _ _ _ H) as (st1 & Ho & Hw & Hfit).
  destruct (fs_open_data _ _ _ _ Ho) as (Hcwd & _ & _ & Hq & _).
  rewrite (create_file_opened _ _ _ _ _ _ Ho Hw Hfit) in H.
  inversion H as [Hst]. clear H Hst.
  eexists. unfold fs_of, locate. rewrite logged_os, logged_cwd.
  cbn [st_cwd st_os os_fs set_fs set_os]. rewrite Hcwd.
  apply node_at_insert. exact Hq.
Qed.

Lemma create_file_mode path contents writemode perms st st' :
  create_file path contents writemode perms st = (st', Ok tt) ->
  mode_of st' path = Some (Z.land (default 384 perms) 4095).
Proof.
  intros H. destruct (create_file_ok _ _ _ _ _ _ H) as [d Hd].
  unfold mode_of. rewrite Hd. reflexivity.
Qed.

(** With the default mode [w], on a name that can be written. *)
Lemma create_file_runs path contents perms st :
  can_write st path = true ->
  fits_int (default 384 perms) = true ->
  exists st',
    create_file path contents None perms st = (st', Ok tt)
    /\ mode_of st' path = Some (Z.land (default 384 perms) 4095).
Proof.
  intros Hcan Hfit. destruct (fs_open_w st path Hcan) as [st1 Ho].
  pose proof (create_file_opened path contents None perms st st1 Ho eq_refl Hfit) as Hrun.
  eexists. split; [exact Hrun|]. exact (create_file_mode _ _ _ _ _ _ Hrun).
Qed.

(** C6.  A file written by [create_file] ends with exactly the requested
    mode, whatever the umask, the way the file is opened and whatever was
    under that name before; and [create_file] does write the file whenever
    the user may get at the name and it can be opened in a mode that takes
    text.  Without a permission argument the mode is 0600 (384); the start
    and the stop script get 0700 (448), the README and the sample post 0644
    (420), each on a name that is free in a directory the user may write or
    is a file the user may write. *)
Theorem create_file_sets_mode path contents writemode perms st :
  0 <= default 384 perms <= 4095 ->
  (forall st',
     create_file path contents writemode perms st = (st', Ok tt) ->
     mode_of st' path = Some (default 384 perms)
     /\ (perms = None -> mode_of st' path = Some 384))
  /\ (writes_text (default "w" writemode) = true ->
      may_enter st path = true ->
      opens st path (default "w" writemode) = true ->
      exists st', create_file path contents writemode perms st = (st', Ok tt))
  /\ (forall appdir s,
        can_write s (Path.join appdir "start_jekyll") = true ->
        exists s',
          create_start_script P appdir s = (s', Ok tt)
          /\ mode_of s' (Path.join appdir "start_jekyll") = Some 448)
  /\ (forall appdir s,
        can_write s (Path.join appdir "stop_jekyll") = true ->
        exists s',
          create_stop_script P appdir s = (s', Ok tt)
          /\ mode_of s' (Path.join appdir "stop_jekyll") = Some 448)
  /\ (forall appdir s,
        can_write s (Path.join appdir "README") = true ->
        exists s',
          create_readme P appdir s = (s', Ok tt)
          /\ mode_of s' (Path.join appdir "README") = Some 420)
  /\ (forall posts_dir s,
        exists_at s (Path.join posts_dir (today_iso P ++ "-welcome-to-jekyll.md")) = false ->
        can_write s (Path.join posts_dir (today_iso P ++ "-welcome-to-jekyll.md")) = true ->
        exists s',
          create_sample_post P posts_dir s = (s', Ok tt)
          /\ mode_of s' (Path.join posts_dir (today_iso P ++ "-welcome-to-jekyll.md"))
             = Some 420).
Proof.
  intros Hrange.
  split.
  { intros st' H. rewrite (create_file_mode _ _ _ _ _ _ H), land_4095 by exact Hrange.
    split; [reflexivity|]. intros ->. reflexivity. }
  split.
  { intros Hw _ Hopen. unfold opens in Hopen.
    destruct (fs_open path (default "w" writemode) st) as [st1 [[]|e]] eqn:Ho;
      [|discriminate].
    eexists. exact (create_file_opened _ _ _ _ _ _ Ho Hw (fits_int_mode _ Hrange)). }
  split; [intros appdir s Hcan; exact (create_file_runs _ _ (Some 448) s Hcan eq_refl)|].
  split; [intros appdir s Hcan; exact (create_file_runs _ _ (Some 448) s Hcan eq_refl)|].
  split; [intros appdir s Hcan; exact (create_file_runs _ _ (Some 420) s Hcan eq_refl)|].
  intros posts_dir s Habsent Hcan.
  unfold create_sample_post.
  rewrite (bind_Ok _ _ s s false)
    by (unfold os_path_exists, gets; rewrite Habsent; reflexivity).
  cbn [negb]. unfold logging_info.
  rewrite (bind_Ok _ _ _ _ _ (logging_log_eq _ _ s)).
  apply (create_file_runs _ _ (Some 420)); [|reflexivity].
  unfold can_write, may_enter, dir_bit, fs_of, locate in *.
  rewrite logged_os, logged_cwd, logged_root. exact Hcan.
Qed.

End Files.

Lemma create_file_sets_mode_witness :
  mode_of (fst (create_file "/home/u1/notes" "remember" None None (Demo.boot None)))
    "/home/u1/notes" = Some 384
  /\ mode_of (fst (create_start_script Demo.machine "/home/u1" (Demo.boot None)))
       "/home/u1/start_jekyll" = Some 448
  /\ mode_of (fst (create_stop_script Demo.machine "/home/u1" (Demo.boot None)))
       "/home/u1/stop_jekyll" = Some 448
  /\ mode_of (fst (create_readme Demo.machine "/home/u1" (Demo.boot None)))
       "/home/u1/README" = Some 420
  /\ mode_of (fst (create_sample_post Demo.machine "/home/u1" (Demo.boot None)))
       "/home/u1/2026-11-04-welcome-to-jekyll.md" = Some 420
  /\ mode_of (fst (create_file "/home/u1/notes" "remember" (Some "a+") (Some 292)
                     (Demo.boot None)))
       "/home/u1/notes" = Some 292.
Proof.
  assert (Hplus : mode_of (fst (create_file "/home/u1/notes" "remember" (Some "a+") (Some 292)
                                  (Demo.boot None)))
                    "/home/u1/notes" = Some 292).
  { destruct (create_file_sets_mode Demo.machine "/home/u1/notes" "remember" (Some "a+")
                (Some 292) (Demo.boot None)) as (Hmode & Hruns & _).
    { simpl. lia. }
    destruct (Hruns eq_refl eq_refl eq_refl) as (st' & Hrun).
    rewrite Hrun. exact (proj1 (Hmode st' Hrun)). }
  destruct (create_file_sets_mode Demo.machine "/home/u1/notes" "remember" None None
              (Demo.boot None)) as (Hmode & Hruns & Hstart & Hstop & Hreadme & Hpost).
  { simpl. lia. }
  destruct (Hruns eq_refl eq_refl eq_refl) as (st' & Hrun).
  destruct (Hstart "/home/u1" (Demo.boot None) eq_refl) as (s1 & Hrun1 & Hmode1).
  destruct (Hstop "/home/u1" (Demo.boot None) eq_refl) as (s2 & Hrun2 & Hmode2).
  destruct (Hreadme "/home/u1" (Demo.boot None) eq_refl) as (s3 & Hrun3 & Hmode3).
  destruct (Hpost "/home/u1" (Demo.boot None) eq_refl eq_refl) as (s4 & Hrun4 & Hmode4).
  rewrite Hrun, Hrun1, Hrun2, Hrun3, Hrun4.
  exact (conj (proj2 (Hmode st' Hrun) eq_refl)
           (conj Hmode1 (conj Hmode2 (conj Hmode3 (conj Hmode4 Hplus))))).
Defined.

(** ** The scaffold step *)

Section Scaffold.

Variable P : platform.

(** Every [run_command] whose command line splits makes one subprocess call,
    however that call ends. *)
Lemma run_command_runs cmd env cwd st argv :
  Shlex.split cmd = Some argv ->
  runs (st_trace (fst (run_command P cmd env cwd st)))
  = (runs (st_trace st) ++ argv :: nil)%list.
Proof.
  intros Hsplit. unfold run_command, logging_info.
  rewrite (bind_Ok _ _ _ _ _ (logging_log_eq INFO _ st)).
  unfold try_except, shlex_split. rewrite Hsplit.
  rewrite (bind_Ok _ _ _ _ argv eq_refl).
  unfold check_output.
  destruct (spawn P _ argv env cwd _) as [os' [why|code out err]].
  - simpl. rewrite runs_app. simpl. rewrite logged_runs. reflexivity.
  - destruct (Z.eqb code 0); simpl.
    + rewrite runs_app. simpl. rewrite logged_runs. reflexivity.
    + destruct (Z.leb _ DEBUG); simpl; rewrite !runs_app; simpl;
        rewrite logged_runs, ?app_nil_r; reflexivity.
Qed.

Lemma os_chdir_runs p st : runs (st_trace (fst (os_chdir p st))) = runs (st_trace st).
Proof.
  unfold os_chdir. destruct (node_at _ _) as [[d m|m]|]; reflexivity.
Qed.

(** C7.  When the [demo-site] directory exists the scaffold step runs no
    command and leaves files, directories and crontab as they are; when it
    does not exist the step runs [jekyll new demo-site].  The sample-post
    step likewise leaves the machine alone when today's post exists. *)
Theorem scaffold_skips_existing_site appdir st :
  (isdir_at st (Path.join appdir "demo-site") = true ->
     snd (create_demo_site P appdir st) = Ok (Path.join appdir "demo-site")
     /\ st_os (fst (create_demo_site P appdir st)) = st_os st
     /\ runs (st_trace (fst (create_demo_site P appdir st))) = runs (st_trace st))
  /\ (isdir_at st (Path.join appdir "demo-site") = false ->
     runs (st_trace (fst (create_demo_site P appdir st)))
     = (runs (st_trace st) ++ ("jekyll" :: "new" :: "demo-site" :: nil) :: nil)%list)
  /\ (forall posts_dir,
        exists_at st (Path.join posts_dir (today_iso P ++ "-welcome-to-jekyll.md")) = true ->
        snd (create_sample_post P posts_dir st) = Ok tt
        /\ st_os (fst (create_sample_post P posts_dir st)) = st_os st
        /\ runs (st_trace (fst (create_sample_post P posts_dir st))) = runs (st_trace st)).
Proof.
  split; [|split].
  - intros Hdir. unfold create_demo_site.
    rewrite (bind_Ok _ _ st st true)
      by (unfold os_path_isdir, gets; rewrite Hdir; reflexivity).
    cbn [negb]. unfold logging_info.
    rewrite (bind_Ok _ _ _ _ _ (logging_log_eq INFO _ st)).
    set (st1 := logged INFO _ st).
    assert (Hcd : os_chdir (Path.join appdir "demo-site") st1
                  = (set_cwd (Path.show (locate st1 (Path.join appdir "demo-site"))) st1, Ok tt)).
    { unfold os_chdir. unfold isdir_at in Hdir.
      unfold fs_of, locate, st1. rewrite logged_os, logged_cwd.
      unfold fs_of, locate in Hdir.
      destruct (node_at _ _) as [[d m|m]|]; try discriminate. reflexivity. }
    rewrite (bind_Ok _ _ _ _ _ Hcd). simpl.
    unfold st1. rewrite logged_os, logged_runs. repeat split; reflexivity.
  - intros Hdir. unfold create_demo_site.
    rewrite (bind_Ok _ _ st st false)
      by (unfold os_path_isdir, gets; rewrite Hdir; reflexivity).
    cbn [negb]. unfold logging_info.
    rewrite bind_assoc, (bind_Ok _ _ _ _ _ (logging_log_eq INFO _ st)).
    set (st1 := logged INFO _ st).
    rewrite bind_assoc, (bind_Ok _ _ st1 st1 (st_env st1) eq_refl), bind_assoc.
    pose proof (run_command_runs "jekyll new demo-site" (st_env st1) (Some appdir) st1
                  ("jekyll" :: "new" :: "demo-site" :: nil) eq_refl) as Hrun.
    destruct (run_command P "jekyll new demo-site" (st_env st1) (Some appdir) st1)
      as [st2 [out|e]] eqn:Hrc; simpl in Hrun.
    + rewrite (bind_Ok _ _ _ _ _ Hrc), (bind_Ok _ _ st2 st2 tt eq_refl).
      pose proof (os_chdir_runs (Path.join appdir "demo-site") st2) as Hcd.
      destruct (os_chdir (Path.join appdir "demo-site") st2) as [st3 [[]|e]] eqn:Hc;
        simpl in Hcd.
      * rewrite (bind_Ok _ _ _ _ _ Hc). simpl. rewrite Hcd, Hrun.
        unfold st1. rewrite logged_runs. reflexivity.
      * rewrite (bind_Raise _ _ _ _ _ Hc). simpl. rewrite Hcd, Hrun.
        unfold st1. rewrite logged_runs. reflexivity.
    + rewrite (bind_Raise _ _ _ _ _ Hrc).
      simpl. rewrite Hrun. unfold st1. rewrite logged_runs. reflexivity.
  - intros posts_dir Hthere. unfold create_sample_post.
    rewrite (bind_Ok _ _ st st true)
      by (unfold os_path_exists, gets; rewrite Hthere; reflexivity).
    cbn [negb]. unfold logging_info. rewrite logging_log_eq. simpl.
    rewrite logged_os, logged_runs. repeat split; reflexivity.
Qed.

End Scaffold.

Lemma scaffold_skips_existing_site_witness :
  let again := fst (script Demo.machine Demo.args_token (Demo.boot None)) in
  isdir_at again (Path.join "/home/u1/apps/app1" "demo-site") = true
  /\ snd (create_demo_site Demo.machine "/home/u1/apps/app1" again)
     = Ok (Path.join "/home/u1/apps/app1" "demo-site")
  /\ st_os (fst (create_demo_site Demo.machine "/home/u1/apps/app1" again)) = st_os again
  /\ runs (st_trace (fst (create_demo_site Demo.machine "/home/u1/apps/app1" again)))
     = runs (st_trace again).
Proof.
  intros again.
  assert (H : isdir_at again (Path.join "/home/u1/apps/app1" "demo-site") = true)
    by (vm_compute; reflexivity).
  split; [exact H|].
  exact (proj1 (scaffold_skips_existing_site Demo.machine "/home/u1/apps/app1" again) H).
Defined.

(** ** The installed-notification *)

(** A computation is quiet when it never sends the installed-notification. *)
Definition quiet {A} (m : M A) : Prop :=
  forall st, notifications (st_trace (fst (m st))) = notifications (st_trace st).

(** A computation is silent when it leaves the trace alone. *)
Definition silent {A} (m : M A) : Prop :=
  forall st, st_trace (fst (m st)) = st_trace st.

Create HintDb quiet.

Lemma silent_quiet {A} (m : M A) : silent m -> quiet m.
Proof. intros H st. rewrite H. reflexivity. Qed.

Lemma notifications_snoc tr r :
  notifications (tr ++ EvHttp r :: nil)%list
  = (notifications tr ++ (if is_notification r then r :: nil else nil))%list.
Proof.
  unfold notifications. rewrite requests_app. simpl.
  rewrite List.filter_app. simpl. destruct (is_notification r); reflexivity.
Qed.

Lemma notifications_logged level msg st :
  notifications (st_trace (logged level msg st)) = notifications (st_trace st).
Proof. unfold notifications. rewrite logged_requests. reflexivity. Qed.

Lemma quiet_ret {A} (a : A) : quiet (ret a).
Proof. intros st. reflexivity. Qed.

Lemma quiet_raise {A} e : quiet (@raise A e).
Proof. intros st. reflexivity. Qed.

Lemma quiet_bind {A B} (m : M A) (k : A -> M B) :
  quiet m -> (forall a, quiet (k a)) -> quiet (bind m k).
Proof.
  intros Hm Hk st. unfold bind. specialize (Hm st).
  destruct (m st) as [st1 [a|e]]; simpl in *.
  - rewrite Hk. exact Hm.
  - exact Hm.
Qed.

Lemma quiet_try_except {A} (m : M A) (h : exn -> M A) :
  quiet m -> (forall e, quiet (h e)) -> quiet (try_except m h).
Proof.
  intros Hm Hh st. unfold try_except. specialize (Hm st).
  destruct (m st) as [st1 [a|e]]; simpl in *.
  - exact Hm.
  - rewrite Hh. exact Hm.
Qed.

Lemma quiet_gets {A} (f : state -> A) : quiet (gets f).
Proof. intros st. reflexivity. Qed.

Lemma quiet_modify (f : state -> state) :
  (forall st, st_trace (f st) = st_trace st) -> quiet (modify f).
Proof. intros H st. simpl. rewrite H. reflexivity. Qed.

Lemma quiet_logging_log level msg : quiet (logging_log level msg).
Proof. intros st. rewrite logging_log_eq. simpl. apply notifications_logged. Qed.

Lemma quiet_logging_info msg : quiet (logging_info msg).
Proof. apply quiet_logging_log. Qed.

Lemma quiet_logging_debug msg : quiet (logging_debug msg).
Proof. apply quiet_logging_log. Qed.

Lemma quiet_logging_warning msg : quiet (logging_warning msg).
Proof. apply quiet_logging_log. Qed.

Lemma quiet_logging_basicConfig level : quiet (logging_basicConfig level).
Proof. apply quiet_modify. reflexivity. Qed.

Lemma quiet_fs_open p wm : quiet (fs_open p wm).
Proof.
  apply silent_quiet. intros st.
  destruct (fs_open p wm st) as [st1 [[]|e]] eqn:H; cbn [fst].
  - exact (proj1 (proj2 (fs_open_data _ _ _ _ H))).
  - rewrite (fs_open_raise _ _ _ _ _ H). reflexivity.
Qed.

Lemma quiet_fs_write p data : quiet (fs_write p data).
Proof.
  apply quiet_modify. intros st.
  destruct (node_at _ _) as [[? ?|?]|]; reflexivity.
Qed.

Lemma quiet_fs_overwrite p data : quiet (fs_overwrite p data).
Proof.
  apply quiet_modify. intros st.
  destruct (node_at _ _) as [[? ?|?]|]; reflexivity.
Qed.

Lemma quiet_file_write p wm data : quiet (file_write p wm data).
Proof.
  unfold file_write. destruct (parse_mode wm) as [om|e]; [|apply quiet_raise].
  destruct (negb (writable om)); [apply quiet_raise|].
  destruct (om_binary om); [apply quiet_raise|].
  destruct (om_kind om); first [apply quiet_fs_overwrite|apply quiet_fs_write].
Qed.

Lemma quiet_os_chmod p perms : quiet (os_chmod p perms).
Proof.
  apply silent_quiet. intros st. unfold os_chmod.
  destruct (negb (fits_int perms)); [reflexivity|].
  destruct (node_at _ _) as [[? ?|?]|]; reflexivity.
Qed.

Lemma quiet_os_makedirs p exist_ok : quiet (os_makedirs p exist_ok).
Proof.
  apply silent_quiet. intros st. unfold os_makedirs.
  destruct (locate st p); [destruct exist_ok; reflexivity|].
  destruct (mkdirs _ _ _ _ _); reflexivity.
Qed.

Lemma quiet_os_chdir p : quiet (os_chdir p).
Proof.
  apply silent_quiet. intros st. unfold os_chdir.
  destruct (node_at _ _) as [[? ?|?]|]; reflexivity.
Qed.

Lemma quiet_decode b : quiet (decode b).
Proof. unfold decode. destruct (Utf8.decode b); [apply quiet_ret|apply quiet_raise]. Qed.

Lemma quiet_py_get v key : quiet (py_get v key).
Proof. destruct v; simpl; first [apply quiet_ret|apply quiet_raise]. Qed.

Lemma quiet_py_item v key : quiet (py_item v key).
Proof.
  destruct v; simpl; try apply quiet_raise.
  destruct (dict_get key d); [apply quiet_ret|apply quiet_raise].
Qed.

Lemma quiet_env_item key : quiet (env_item key).
Proof. intros st. unfold env_item. destruct (st_env st !! key); reflexivity. Qed.

Lemma quiet_shlex_split cmd : quiet (shlex_split cmd).
Proof. unfold shlex_split. destruct (Shlex.split cmd); [apply quiet_ret|apply quiet_raise]. Qed.

Lemma quiet_create_file p contents writemode perms : quiet (create_file p contents writemode perms).
Proof.
  unfold create_file.
  repeat (apply quiet_bind; [|intro]);
    auto using quiet_fs_open, quiet_file_write, quiet_os_chmod, quiet_logging_info.
Qed.

#[local] Hint Resolve quiet_ret quiet_raise quiet_gets quiet_logging_log
  quiet_logging_info quiet_logging_debug quiet_logging_warning
  quiet_logging_basicConfig quiet_fs_open quiet_fs_write quiet_file_write quiet_os_chmod
  quiet_os_makedirs
  quiet_os_chdir quiet_decode quiet_py_get quiet_py_item quiet_env_item quiet_shlex_split
  quiet_create_file : quiet.

(** Break a computation into its calls and close each with the hint base. *)
Ltac quiet_steps :=
  repeat first
    [ solve [eauto with quiet]
    | apply quiet_bind; [|intro]
    | apply quiet_try_except; [|intro]
    | apply quiet_modify; reflexivity
    | match goal with
      | |- quiet (if ?b then _ else _) => destruct b
      | |- quiet (match ?e with _ => _ end) => destruct e
      end ].

(** What a computation can return. *)
Definition returns {A} (m : M A) (Q : A -> Prop) : Prop :=
  forall st st' a, m st = (st', Ok a) -> Q a.

Lemma returns_ret {A} (a : A) (Q : A -> Prop) : Q a -> returns (ret a) Q.
Proof. intros H st st' b E. inversion E. subst. exact H. Qed.

Lemma returns_bind {A B} (m : M A) (k : A -> M B) (R : A -> Prop) (Q : B -> Prop) :
  returns m R -> (forall a, R a -> returns (k a) Q) -> returns (bind m k) Q.
Proof.
  intros Hm Hk st st' b E. unfold bind in E.
  destruct (m st) as [st1 [a|e]] eqn:Em; [|discriminate].
  exact (Hk a (Hm _ _ _ Em) _ _ _ E).
Qed.

Lemma returns_any {A} (m : M A) : returns m (fun _ => True).
Proof. intros st st' a _. exact I. Qed.

Section Notification.

Variable P : platform.

Lemma quiet_https r : is_notification r = false -> quiet (https P r).
Proof.
  intros H st. rewrite https_eq. simpl. rewrite notifications_snoc, H. apply app_nil_r.
Qed.

Lemma quiet_api_get api endpoint : quiet (api_get P api endpoint).
Proof. unfold api_get. apply quiet_https. reflexivity. Qed.

Lemma quiet_check_output argv cwd env : quiet (check_output P argv cwd env).
Proof.
  intros st. unfold check_output.
  destruct (spawn P _ _ _ _ _) as [os' [why|code out err]];
    [|destruct (Z.eqb code 0)]; simpl;
    unfold notifications; rewrite requests_app; simpl; rewrite app_nil_r; reflexivity.
Qed.

Lemma quiet_run_command cmd env cwd : quiet (run_command P cmd env cwd).
Proof.
  unfold run_command. pose proof quiet_check_output. quiet_steps.
Qed.

Lemma quiet_secrets_choice chars : quiet (secrets_choice P chars).
Proof. intros st. reflexivity. Qed.

Lemma quiet_choices chars n : quiet (choices P chars n).
Proof.
  induction n as [|n IH]; simpl; [apply quiet_ret|].
  pose proof quiet_secrets_choice. quiet_steps.
Qed.

Lemma quiet_gen_password length : quiet (gen_password P length).
Proof. unfold gen_password. apply quiet_choices. Qed.

Lemma quiet_random_randint a b : quiet (random_randint P a b).
Proof. intros st. reflexivity. Qed.

Lemma quiet_add_cronjob cronjob env : quiet (add_cronjob P cronjob env).
Proof.
  unfold add_cronjob. pose proof quiet_gen_password. pose proof quiet_run_command.
  quiet_steps.
Qed.

(** The constructor of the client, called with the base URI of the script,
    sends at most the login request. *)
Lemma quiet_init host0 authtoken user password :
  quiet (OpalstackAPITool_init P host0 API_BASE_URI authtoken user password).
Proof.
  unfold OpalstackAPITool_init.
  assert (quiet (https P {| rq_method := "POST"; rq_host := host0;
                            rq_endpoint := API_BASE_URI ++ "/login/";
                            rq_body := Some (json_dumps (PDict (("username", user)
                                                               :: ("password", password) :: nil)));
                            rq_headers := ("Content-type", "application/json") :: nil |}))
    by (apply quiet_https; reflexivity).
  quiet_steps.
Qed.

Lemma returns_init host0 base authtoken user password :
  returns (OpalstackAPITool_init P host0 base authtoken user password)
    (fun api => host api = host0 /\ base_uri api = base).
Proof.
  intros st st' api E. destruct (truthy authtoken) eqn:Ht.
  - rewrite init_with_token in E by exact Ht. inversion E. split; reflexivity.
  - rewrite init_without_token in E by exact Ht. cbv zeta in E.
    destruct (server P _ _) as [|[v|]]; try discriminate.
    destruct v; try discriminate.
    destruct (dict_get "token" d) as [tok|]; [destruct (truthy tok)|]; try discriminate.
    inversion E. split; reflexivity.
Qed.

Lemma quiet_install args : quiet (install P args).
Proof.
  unfold install, prepare_appdir, install_jekyll, create_demo_site, ensure_posts_dir,
    create_sample_post, build_site, create_start_script, create_stop_script,
    schedule_start, create_readme.
  pose proof quiet_init. pose proof quiet_api_get. pose proof quiet_run_command.
  pose proof quiet_add_cronjob. pose proof quiet_random_randint.
  quiet_steps.
Qed.

Lemma returns_install args :
  returns (install P args)
    (fun api => host api = API_HOST (environ P !! "API_URL") /\ base_uri api = API_BASE_URI).
Proof.
  unfold install.
  apply (returns_bind _ _ _ _ (returns_any _)); intros _ _.
  apply (returns_bind _ _ _ _ (returns_any _)); intros _ _.
  apply (returns_bind _ _ _ _ (returns_init _ _ _ _ _)); intros api Hapi.
  repeat (apply (returns_bind _ _ _ _ (returns_any _)); intros ? _).
  apply returns_ret. exact Hapi.
Qed.

Lemma notify_requests api args st :
  requests (st_trace (fst (notify_installed P api args st)))
  = (requests (st_trace st) ++ notification api args :: nil)%list.
Proof.
  unfold notify_installed, api_post, bind.
  change (https P _ st) with (https P (notification api args) st).
  rewrite https_eq.
  destruct (server P (st_tick st) (notification api args)) as [|[v|]]; simpl;
    try destruct (Z.leb (st_level st) INFO); simpl;
    rewrite !requests_app; simpl; rewrite ?app_nil_r; reflexivity.
Qed.

(** C9.  Nothing that [main] does before line 286 sends the
    installed-notification.  If any of those steps raises, [main] ends with
    that exception and the notification is never sent.  If they all
    complete, [main] sends it exactly once, as its last request: a POST to
    [/api/v1/app/installed/] whose body is the array holding the one object
    with the application's id. *)
Theorem notification_sent_once_after_install args st :
  notifications (st_trace (fst (install P args st))) = notifications (st_trace st)
  /\ (forall e, snd (install P args st) = Raise e ->
        main P args st = (fst (install P args st), Raise e)
        /\ notifications (st_trace (fst (main P args st))) = notifications (st_trace st))
  /\ (forall api, snd (install P args st) = Ok api ->
        let sent := {| rq_method := "POST";
                       rq_host := API_HOST (environ P !! "API_URL");
                       rq_endpoint := "/api/v1/app/installed/";
                       rq_body := Some (Json (PList (PDict (("id", app_uuid args) :: nil) :: nil)));
                       rq_headers := headers api |} in
        notifications (st_trace (fst (main P args st)))
        = (notifications (st_trace st) ++ sent :: nil)%list
        /\ requests (st_trace (fst (main P args st)))
           = (requests (st_trace (fst (install P args st))) ++ sent :: nil)%list).
Proof.
  pose proof (quiet_install args st) as Hquiet.
  split; [exact Hquiet|].
  destruct (install P args st) as [st1 [api|e]] eqn:Hin; simpl in *.
  - split; [intros e E; discriminate|].
    intros api' E. inversion E. subst api'. clear E.
    destruct (returns_install args _ _ _ Hin) as [Hhost Hbase].
    unfold main. rewrite (bind_Ok _ _ _ _ _ Hin).
    assert (Hsent : notification api args
                    = {| rq_method := "POST";
                         rq_host := API_HOST (environ P !! "API_URL");
                         rq_endpoint := "/api/v1/app/installed/";
                         rq_body := Some (Json (PList (PDict (("id", app_uuid args) :: nil) :: nil)));
                         rq_headers := headers api |}).
    { unfold notification. rewrite Hhost, Hbase. reflexivity. }
    rewrite <- Hsent.
    split; [|apply notify_requests].
    unfold notifications. rewrite notify_requests, List.filter_app.
    fold (notifications (st_trace st1)). rewrite Hquiet. simpl.
    replace (is_notification (notification api args)) with true
      by (rewrite Hsent; reflexivity).
    reflexivity.
  - split; [|intros api E; discriminate].
    intros e' E. inversion E. subst e'.
    unfold main. rewrite (bind_Raise _ _ _ _ _ Hin). simpl. split; [reflexivity|exact Hquiet].
Qed.

End Notification.

(** ** The crontab editor *)

(** *** Plain words and [shlex.split] *)

Lemma append_nil_r (s : string) : s ++ EmptyString = s.
Proof. induction s as [|c s IH]; [reflexivity|]. rewrite append_cons, IH. reflexivity. Qed.

Lemma rev_onto_rev_onto w tok acc :
  Text.rev_onto (Text.rev_onto w tok) acc = Text.rev_onto tok (w ++ acc).
Proof.
  revert tok acc. induction w as [|c w IH]; intros tok acc; [reflexivity|].
  simpl Text.rev_onto at 2. rewrite IH. reflexivity.
Qed.

Lemma all_chars_app f a b : all_chars f (a ++ b) = all_chars f a && all_chars f b.
Proof.
  induction a as [|c a IH]; [reflexivity|].
  rewrite append_cons. simpl. rewrite IH. apply andb_assoc.
Qed.

Lemma all_chars_impl (f g : ascii -> bool) s :
  (forall c, f c = true -> g c = true) -> all_chars f s = true -> all_chars g s = true.
Proof.
  intros Hfg. induction s as [|c s IH]; [reflexivity|]. simpl.
  intros H. apply andb_true_iff in H as [Hc Hs]. rewrite (Hfg c Hc), (IH Hs). reflexivity.
Qed.

Lemma plain_char_cases c :
  plain_char c = true ->
  Shlex.is_space c = false /\ Shlex.is_quote c = false /\ Shlex.is_escape c = false.
Proof.
  unfold plain_char. intros H. apply negb_true_iff in H.
  apply orb_false_iff in H as [H H3]. apply orb_false_iff in H as [H1 H2]. auto.
Qed.

(** Inside a word, plain characters are collected as they come. *)
Lemma lex_word w tok :
  plain w = true -> Shlex.lex w Shlex.Word tok = Some (Text.rev (Text.rev_onto w tok) :: nil).
Proof.
  revert tok. induction w as [|c w IH]; intros tok H; [reflexivity|].
  simpl in H. apply andb_true_iff in H as [Hc Hw].
  destruct (plain_char_cases c Hc) as (H1 & H2 & H3).
  simpl. rewrite H1, H2, H3. apply IH. exact Hw.
Qed.

(** [shlex.split] of one plain word is that word. *)
Lemma lex_plain w :
  nonempty w = true -> plain w = true -> Shlex.lex w Shlex.Between EmptyString = Some (w :: nil).
Proof.
  destruct w as [|c w]; [discriminate|]. intros _ H.
  simpl in H. apply andb_true_iff in H as [Hc Hw].
  destruct (plain_char_cases c Hc) as (H1 & H2 & H3).
  simpl. rewrite H1, H2, H3. rewrite (lex_word w _ Hw).
  unfold Text.rev. rewrite rev_onto_rev_onto. simpl. rewrite append_nil_r. reflexivity.
Qed.

Lemma split_crontab f :
  nonempty f = true -> plain f = true ->
  Shlex.split ("crontab " ++ f) = Some ("crontab" :: f :: nil).
Proof.
  intros Hne Hp.
  change (Shlex.split ("crontab " ++ f))
    with (option_map (cons "crontab") (Shlex.lex f Shlex.Between EmptyString)).
  rewrite (lex_plain f Hne Hp). reflexivity.
Qed.

Lemma split_rm f :
  nonempty f = true -> plain f = true ->
  Shlex.split ("rm -f " ++ f) = Some ("rm" :: "-f" :: f :: nil).
Proof.
  intros Hne Hp.
  change (Shlex.split ("rm -f " ++ f))
    with (option_map (cons "rm")
            (option_map (cons "-f") (Shlex.lex f Shlex.Between EmptyString))).
  rewrite (lex_plain f Hne Hp). reflexivity.
Qed.

(** *** The generated password *)

Definition alnum (c : ascii) : bool := Text.mem c (ascii_letters ++ digits).

Lemma get_mem chars i c : String.get i chars = Some c -> Text.mem c chars = true.
Proof.
  revert i. induction chars as [|d chars IH]; intros i H; [destruct i; discriminate|].
  destruct i as [|i]; simpl in *.
  - inversion H. subst. rewrite Ascii.eqb_refl. reflexivity.
  - rewrite (IH i H). destruct (Ascii.eqb c d); reflexivity.
Qed.

Lemma alnum_plain c : alnum c = true -> plain_char c = true.
Proof.
  destruct c as [[] [] [] [] [] [] [] []]; intros H;
    first [reflexivity | vm_compute in H; discriminate].
Qed.

Lemma alnum_no_slash c : alnum c = true -> Ascii.eqb c "/"%char = false.
Proof.
  destruct c as [[] [] [] [] [] [] [] []]; intros H;
    first [reflexivity | vm_compute in H; discriminate].
Qed.

Lemma split_on_absent c s :
  all_chars (fun d => negb (Ascii.eqb d c)) s = true -> Text.split_on c s = s :: nil.
Proof.
  induction s as [|d s IH]; [reflexivity|]. simpl.
  intros H. apply andb_true_iff in H as [Hd Hs]. apply negb_true_iff in Hd.
  rewrite Hd, (IH Hs). reflexivity.
Qed.

(** [n] interactions later. *)
Fixpoint ticks (n : nat) (st : state) : state :=
  match n with
  | O => st
  | S k => ticks k (tick st)
  end.

Lemma ticks_os n st : st_os (ticks n st) = st_os st.
Proof. revert st. induction n as [|n IH]; intros st; [reflexivity|]. simpl. rewrite IH. reflexivity. Qed.

Lemma ticks_cwd n st : st_cwd (ticks n st) = st_cwd st.
Proof. revert st. induction n as [|n IH]; intros st; [reflexivity|]. simpl. rewrite IH. reflexivity. Qed.

Lemma ticks_umask n st : st_umask (ticks n st) = st_umask st.
Proof. revert st. induction n as [|n IH]; intros st; [reflexivity|]. simpl. rewrite IH. reflexivity. Qed.

Lemma ticks_trace n st : st_trace (ticks n st) = st_trace st.
Proof. revert st. induction n as [|n IH]; intros st; [reflexivity|]. simpl. rewrite IH. reflexivity. Qed.

Lemma ticks_level n st : st_level (ticks n st) = st_level st.
Proof. revert st. induction n as [|n IH]; intros st; [reflexivity|]. simpl. rewrite IH. reflexivity. Qed.

Lemma choices_spec P chars n st :
  exists pw,
    choices P chars n st = (ticks n st, Ok pw)
    /\ all_chars (fun c => Text.mem c chars) pw = true.
Proof.
  revert st. induction n as [|n IH]; intros st.
  - exists EmptyString. split; reflexivity.
  - destruct (IH (tick st)) as (rest & Hrest & Hall).
    simpl choices. unfold bind at 1. unfold secrets_choice at 1.
    rewrite (bind_Ok _ _ _ _ _ Hrest).
    eexists. split; [reflexivity|].
    rewrite all_chars_app, Hall, andb_true_r.
    destruct (String.get _ chars) as [c|] eqn:Hget; [|reflexivity].
    simpl. rewrite (get_mem _ _ _ Hget). reflexivity.
Qed.

Lemma gen_password_spec P st :
  exists pw,
    gen_password P None st = (ticks 20 st, Ok pw) /\ all_chars alnum pw = true.
Proof. exact (choices_spec P (ascii_letters ++ digits) 20 st). Qed.

(** *** The temporary file *)

Lemma locate_absolute st p :
  Text.starts_with_slash p = true -> locate st p = Path.resolve "/" p.
Proof. intros H. unfold locate, Path.resolve. rewrite H. reflexivity. Qed.

Lemma tmpname_facts (home0 pw : string) :
  Text.starts_with_slash home0 = true -> plain home0 = true -> all_chars alnum pw = true ->
  let tmpname := home0 ++ "/.tmp" ++ pw in
  Text.starts_with_slash tmpname = true
  /\ nonempty tmpname = true
  /\ plain tmpname = true
  /\ Path.resolve "/" tmpname
     = (Path.resolve "/" home0 ++ ((".tmp" ++ pw)%string :: nil))%list.
Proof.
  intros Habs Hplain Hpw tmpname.
  assert (H1 : Text.starts_with_slash tmpname = true) by (apply starts_with_slash_app; exact Habs).
  split; [exact H1|].
  split; [destruct home0; [discriminate|reflexivity]|].
  split.
  { unfold tmpname, plain. rewrite !all_chars_app. fold (plain home0). rewrite Hplain.
    rewrite (all_chars_impl _ _ _ alnum_plain Hpw). reflexivity. }
  unfold Path.resolve. rewrite H1, Habs.
  unfold tmpname. change ("/.tmp" ++ pw) with (String "/"%char (".tmp" ++ pw)).
  rewrite split_on_app, List.filter_app. f_equal.
  rewrite split_on_absent.
  - reflexivity.
  - rewrite all_chars_app.
    rewrite (all_chars_impl alnum (fun d => negb (Ascii.eqb d "/"%char)) pw); [reflexivity| |exact Hpw].
    intros c Hc. rewrite (alnum_no_slash c Hc). reflexivity.
Qed.

Section Crontab.

Variable P : platform.

(** The [try] statement of lines 102-105. *)
Definition current_crontab (env : gmap string string) : M string :=
  try_except
    (let* out := run_command P "crontab -l" env None in decode out)
    (fun ex =>
       match ex with
       | SystemExit _ => raise ex
       | _ => ret EmptyString
       end).

Lemma add_cronjob_eq cronjob env :
  add_cronjob P cronjob env
  = (let* pw := gen_password P None in
     let tmpname := home P ++ "/.tmp" ++ pw in
     do fs_open tmpname "w" then
     let* current := current_crontab env in
     do fs_write tmpname current then
     do fs_write tmpname (cronjob ++ Text.nl) then
     let* _ := run_command P ("crontab " ++ tmpname) env None in
     let* _ := run_command P ("rm -f " ++ tmpname) env None in
     logging_info ("Added cron job: " ++ cronjob)).
Proof. reflexivity. Qed.

Lemma after_command_os cmd argv env cwd os' code out st :
  st_os (after_command P cmd argv env cwd os' code out st) = os'.
Proof.
  unfold after_command. destruct (Z.eqb code 0); [reflexivity|].
  rewrite logged_os. reflexivity.
Qed.

Lemma after_command_tick cmd argv env cwd os' code out st :
  st_tick (after_command P cmd argv env cwd os' code out st) = S (st_tick st).
Proof.
  unfold after_command. destruct (Z.eqb code 0); rewrite ?logged_tick; simpl;
    rewrite logged_tick; reflexivity.
Qed.

Lemma after_command_cwd cmd argv env cwd os' code out st :
  st_cwd (after_command P cmd argv env cwd os' code out st) = st_cwd st.
Proof.
  unfold after_command. destruct (Z.eqb code 0); rewrite ?logged_cwd; simpl;
    apply logged_cwd.
Qed.

Lemma after_command_level cmd argv env cwd os' code out st :
  st_level (after_command P cmd argv env cwd os' code out st) = st_level st.
Proof.
  unfold after_command. destruct (Z.eqb code 0); rewrite ?logged_level; simpl;
    apply logged_level.
Qed.

Lemma after_command_runs cmd argv env cwd os' code out st :
  runs (st_trace (after_command P cmd argv env cwd os' code out st))
  = (runs (st_trace st) ++ argv :: nil)%list.
Proof.
  unfold after_command. destruct (Z.eqb code 0); rewrite ?logged_runs; simpl;
    rewrite runs_app, logged_runs; reflexivity.
Qed.

Lemma run_command_not_launched cmd env cwd st argv os' why :
  Shlex.split cmd = Some argv ->
  spawn P (st_tick st) argv env cwd (st_os st) = (os', NotLaunched why) ->
  run_command P cmd env cwd st
  = (tick (record (EvRun argv env cwd) (set_os os' (logged INFO ("Running: " ++ cmd) st))),
     Raise (OSError why (hd EmptyString argv))).
Proof.
  intros Hsplit Hspawn.
  unfold run_command, logging_info.
  rewrite (bind_Ok _ _ _ _ _ (logging_log_eq INFO _ st)).
  unfold try_except, shlex_split. rewrite Hsplit.
  rewrite (bind_Ok _ _ _ _ argv eq_refl).
  unfold check_output. rewrite logged_tick, logged_os, Hspawn. reflexivity.
Qed.

(** Reading the current crontab never fails, whatever [crontab -l] does,
    and changes neither the working directory nor the logging threshold. *)
Lemma current_crontab_total env st :
  exists st' current,
    current_crontab env st = (st', Ok current)
    /\ st_cwd st' = st_cwd st /\ st_level st' = st_level st.
Proof.
  unfold current_crontab, try_except.
  destruct (spawn P (st_tick st) ("crontab" :: "-l" :: nil) env None (st_os st))
    as [os' [why|code out err]] eqn:Hspawn.
  - rewrite (bind_Raise _ _ _ _ _ (run_command_not_launched "crontab -l" env None st _ _ _ eq_refl Hspawn)).
    eexists _, _. split; [reflexivity|]. simpl. rewrite logged_cwd, logged_level. auto.
  - rewrite (bind_Ok _ _ _ _ _ (run_command_exited P "crontab -l" env None st _ _ _ _ _ eq_refl Hspawn)).
    unfold decode. destruct (Utf8.decode out); simpl;
      (eexists _, _; split; [reflexivity|]);
      rewrite after_command_cwd, after_command_level; auto.
Qed.

(** The value read, given the answer of [crontab -l], when the command
    leaves the machine as it is. *)
Lemma current_crontab_answer env st oc :
  answer P ("crontab" :: "-l" :: nil) env st = (st_os st, oc) ->
  exists st',
    current_crontab env st = (st', Ok (read_back oc))
    /\ st_os st' = st_os st /\ st_cwd st' = st_cwd st /\ st_level st' = st_level st.
Proof.
  unfold answer. intros Hspawn.
  unfold current_crontab, try_except.
  destruct oc as [why|code out err].
  - rewrite (bind_Raise _ _ _ _ _ (run_command_not_launched "crontab -l" env None st _ _ _ eq_refl Hspawn)).
    eexists. split; [reflexivity|]. simpl. rewrite logged_cwd, logged_level. auto.
  - rewrite (bind_Ok _ _ _ _ _ (run_command_exited P "crontab -l" env None st _ _ _ _ _ eq_refl Hspawn)).
    unfold decode, read_back. destruct (Utf8.decode out); simpl;
      (eexists; split; [reflexivity|]);
      rewrite after_command_os, after_command_cwd, after_command_level; auto.
Qed.

(** Opening the temporary file creates it, empty. *)
Lemma open_tmp st pw :
  home_ready P st -> all_chars alnum pw = true ->
  let tmpname := home P ++ "/.tmp" ++ pw in
  fs_open tmpname "w" (ticks 20 st)
  = (set_fs (<[Path.resolve "/" tmpname := File EmptyString (masked 438 (st_umask st))]> (fs_of st))
       (ticks 20 st),
     Ok tt).
Proof.
  intros Hhome Hpw tmpname.
  destruct (tmpname_facts (home P) pw (home_absolute _ _ Hhome) (home_plain _ _ Hhome) Hpw)
    as (Habs & _ & _ & Hloc). fold tmpname in Habs, Hloc.
  destruct (home_is_dir _ _ Hhome) as [m Hdir].
  unfold fs_open.
  change (negb (String.eqb "w" "w" || String.eqb "w" "a" || String.eqb "w" "x")) with false.
  cbv iota.
  rewrite (locate_absolute _ _ Habs).
  unfold fs_of. rewrite ticks_os, ticks_umask. fold (fs_of st).
  rewrite Hloc. unfold Path.parent. rewrite removelast_last, Hdir.
  assert (Hnone : node_at (fs_of st) (Path.resolve "/" (home P) ++ [(".tmp" ++ pw)%string])%list = None).
  { pose proof (home_no_tmp _ _ Hhome pw) as H.
    destruct (Path.resolve "/" (home P)); exact H. }
  rewrite Hnone. reflexivity.
Qed.

End Crontab.

(** *** Text stays text *)

Lemma scan_app a b need lo hi :
  Utf8.scan a need lo hi = true ->
  Utf8.scan (a ++ b) need lo hi = Utf8.scan b 0 128%N 191%N.
Proof.
  revert need lo hi. induction a as [|c a IH]; intros need lo hi H.
  - destruct need; [|discriminate]. destruct b; reflexivity.
  - rewrite append_cons. simpl in H |- *.
    destruct need.
    + repeat match goal with
             | |- context [if Utf8.between ?x ?y c then _ else _] =>
                 destruct (Utf8.between x y c); [apply IH; exact H|]
             end.
      discriminate.
    + destruct (Utf8.between lo hi c); [apply IH; exact H|discriminate].
Qed.

Lemma valid_app a b :
  Utf8.valid a = true -> Utf8.valid b = true -> Utf8.valid (a ++ b) = true.
Proof.
  unfold Utf8.valid. intros Ha Hb. rewrite (scan_app _ _ _ _ _ Ha). exact Hb.
Qed.

Section CrontabEdit.

Variable P : platform.

Lemma bind_modify {B} (f : state -> state) (k : unit -> M B) st :
  bind (modify f) k st = k tt (f st).
Proof. reflexivity. Qed.

Lemma fs_write_file p data st d m :
  node_at (fs_of st) (locate st p) = Some (File d m) ->
  fs_write p data st = (set_fs (<[locate st p := File (d ++ data) m]> (fs_of st)) st, Ok tt).
Proof. intros H. unfold fs_write, modify. rewrite H. reflexivity. Qed.

Lemma bind_fs_write {B} p data (k : unit -> M B) st :
  bind (fs_write p data) k st = k tt (fst (fs_write p data st)).
Proof. reflexivity. Qed.

Lemma fs_write_level p data st : st_level (fst (fs_write p data st)) = st_level st.
Proof.
  unfold fs_write, modify. simpl. destruct (node_at _ _) as [[d m|m]|]; reflexivity.
Qed.

Lemma messages_app tr1 tr2 : messages (tr1 ++ tr2)%list = (messages tr1 ++ messages tr2)%list.
Proof.
  induction tr1 as [|e tr1 IH]; [reflexivity|].
  destruct e; simpl; rewrite IH; reflexivity.
Qed.

(** The first steps of [add_cronjob]: draw the name, create the file, read
    the current crontab. *)
Lemma add_cronjob_start cronjob env st :
  home_ready P st ->
  exists pw,
    all_chars alnum pw = true
    /\ tmpname_of P st = home P ++ "/.tmp" ++ pw
    /\ forall st_c current,
         current_crontab P env
           (set_fs (<[Path.resolve "/" (tmpname_of P st)
                      := File EmptyString (masked 438 (st_umask st))]> (fs_of st))
              (ticks 20 st))
         = (st_c, Ok current) ->
         add_cronjob P cronjob env st
         = (do fs_write (tmpname_of P st) current then
            do fs_write (tmpname_of P st) (cronjob ++ Text.nl) then
            let* _ := run_command P ("crontab " ++ tmpname_of P st) env None in
            let* _ := run_command P ("rm -f " ++ tmpname_of P st) env None in
            logging_info ("Added cron job: " ++ cronjob)) st_c.
Proof.
  intros Hhome.
  destruct (gen_password_spec P st) as (pw & Hgen & Hpw).
  assert (Htmp : tmpname_of P st = home P ++ "/.tmp" ++ pw)
    by (unfold tmpname_of; rewrite Hgen; reflexivity).
  exists pw. split; [exact Hpw|]. split; [exact Htmp|].
  intros st_c current Hcur.
  rewrite add_cronjob_eq. rewrite (bind_Ok _ _ _ _ _ Hgen). cbv zeta.
  rewrite <- Htmp.
  pose proof (open_tmp P st pw Hhome Hpw) as Hopen. cbv zeta in Hopen.
  rewrite <- Htmp in Hopen.
  rewrite (bind_Ok _ _ _ _ _ Hopen), (bind_Ok _ _ _ _ _ Hcur). reflexivity.
Qed.

Lemma set_fs_level fs st : st_level (set_fs fs st) = st_level st.
Proof. reflexivity. Qed.

Lemma set_fs_cron fs st : os_cron (st_os (set_fs fs st)) = os_cron (st_os st).
Proof. reflexivity. Qed.

Lemma set_fs_fs fs st : fs_of (set_fs fs st) = fs.
Proof. reflexivity. Qed.

Lemma bind_ext {A B} (m : M A) (f g : A -> M B) st :
  (forall a s, f a s = g a s) -> bind m f st = bind m g st.
Proof. intros H. unfold bind. destruct (m st) as [s [a|e]]; [apply H|reflexivity]. Qed.

(** [add_cronjob] is its first part, then the two commands and the report. *)
Lemma add_cronjob_split cronjob env st :
  add_cronjob P cronjob env st
  = bind (add_cronjob_written P cronjob env)
      (fun tmpname =>
         let* _ := run_command P ("crontab " ++ tmpname) env None in
         let* _ := run_command P ("rm -f " ++ tmpname) env None in
         logging_info ("Added cron job: " ++ cronjob)) st.
Proof.
  unfold add_cronjob, add_cronjob_written. cbv zeta. symmetry.
  rewrite bind_assoc. apply bind_ext. intros pw s1.
  rewrite bind_assoc. apply bind_ext. intros [] s2.
  rewrite bind_assoc. apply bind_ext. intros current s3.
  rewrite bind_assoc. apply bind_ext. intros [] s4.
  rewrite bind_assoc. apply bind_ext. intros [] s5.
  reflexivity.
Qed.

Lemma add_cronjob_written_eq cronjob env :
  add_cronjob_written P cronjob env
  = (let* pw := gen_password P None in
     let tmpname := home P ++ "/.tmp" ++ pw in
     do fs_open tmpname "w" then
     let* current := current_crontab P env in
     do fs_write tmpname current then
     do fs_write tmpname (cronjob ++ Text.nl) then
     ret tmpname).
Proof. reflexivity. Qed.

(** The state in which the listing is run: the temporary file is there,
    empty. *)
Lemma at_listing_eq st :
  home_ready P st ->
  at_listing P st
  = set_fs (<[Path.resolve "/" (tmpname_of P st)
              := File EmptyString (masked 438 (st_umask st))]> (fs_of st))
      (ticks 20 st).
Proof.
  intros Hhome.
  destruct (gen_password_spec P st) as (pw & Hgen & Hpw).
  assert (Htmp : tmpname_of P st = home P ++ "/.tmp" ++ pw)
    by (unfold tmpname_of; rewrite Hgen; reflexivity).
  pose proof (open_tmp P st pw Hhome Hpw) as Hopen. cbv zeta in Hopen.
  rewrite <- Htmp in Hopen.
  unfold at_listing, add_cronjob_opened. cbv zeta.
  rewrite (bind_Ok _ _ _ _ _ Hgen). rewrite <- Htmp.
  rewrite (bind_Ok _ _ _ _ _ Hopen). reflexivity.
Qed.

(** The first part of [add_cronjob], given what the listing step yields. *)
Lemma add_cronjob_written_start cronjob env st :
  home_ready P st ->
  forall st_c current,
    current_crontab P env (at_listing P st) = (st_c, Ok current) ->
    add_cronjob_written P cronjob env st
    = (fst (fs_write (tmpname_of P st) (cronjob ++ Text.nl)
              (fst (fs_write (tmpname_of P st) current st_c))),
       Ok (tmpname_of P st)).
Proof.
  intros Hhome st_c current Hcur.
  rewrite (at_listing_eq st Hhome) in Hcur.
  destruct (gen_password_spec P st) as (pw & Hgen & Hpw).
  assert (Htmp : tmpname_of P st = home P ++ "/.tmp" ++ pw)
    by (unfold tmpname_of; rewrite Hgen; reflexivity).
  pose proof (open_tmp P st pw Hhome Hpw) as Hopen. cbv zeta in Hopen.
  rewrite <- Htmp in Hopen.
  rewrite add_cronjob_written_eq. rewrite (bind_Ok _ _ _ _ _ Hgen). cbv zeta.
  rewrite <- Htmp.
  rewrite (bind_Ok _ _ _ _ _ Hopen), (bind_Ok _ _ _ _ _ Hcur).
  rewrite !bind_fs_write. reflexivity.
Qed.

(** The first part always completes: the temporary file can be created in
    the home directory, and the listing step catches what it raises. *)
Lemma add_cronjob_written_total cronjob env st :
  home_ready P st ->
  snd (add_cronjob_written P cronjob env st) = Ok (tmpname_of P st)
  /\ st_level (at_install P cronjob env st) = st_level st.
Proof.
  intros Hhome.
  destruct (current_crontab_total P env (at_listing P st))
    as (st_c & current & Hcur & _ & Hlevel_c).
  unfold at_install.
  rewrite (add_cronjob_written_start cronjob env st Hhome st_c current Hcur).
  split; [reflexivity|]. cbn [fst].
  rewrite !fs_write_level, Hlevel_c, (at_listing_eq st Hhome), set_fs_level.
  apply ticks_level.
Qed.

(** The last three lines of [add_cronjob], given how the two commands end
    when they are run there. *)
Lemma add_cronjob_tail cronjob env tmpname st_e o2 code out err o3 code3 out3 err3 :
  nonempty tmpname = true ->
  plain tmpname = true ->
  spawn P (st_tick st_e) ("crontab" :: tmpname :: nil) env None (st_os st_e)
  = (o2, Exited code out err) ->
  spawn P (S (st_tick st_e)) ("rm" :: "-f" :: tmpname :: nil) env None o2
  = (o3, Exited code3 out3 err3) ->
  exists final,
    (let* _ := run_command P ("crontab " ++ tmpname) env None in
     let* _ := run_command P ("rm -f " ++ tmpname) env None in
     logging_info ("Added cron job: " ++ cronjob)) st_e
    = (final, Ok tt)
    /\ st_os final = o3
    /\ st_cwd final = st_cwd st_e
    /\ runs (st_trace final)
       = (runs (st_trace st_e)
          ++ ("crontab" :: tmpname :: nil) :: ("rm" :: "-f" :: tmpname :: nil) :: nil)%list
    /\ (st_level st_e <= INFO ->
        exists earlier,
          messages (st_trace final)
          = (earlier ++ (("Added cron job: " ++ cronjob)%string :: nil))%list).
Proof.
  intros Hne Hplain Hspawn1 Hspawn2.
  pose proof (run_command_exited P ("crontab " ++ tmpname) env None st_e
                ("crontab" :: tmpname :: nil) o2 code out err
                (split_crontab tmpname Hne Hplain) Hspawn1) as Hrun1.
  remember (after_command P ("crontab " ++ tmpname) ("crontab" :: tmpname :: nil)
              env None o2 code out st_e) as st_f eqn:Hf.
  assert (Hos_f : st_os st_f = o2) by (rewrite Hf; apply after_command_os).
  assert (Htick_f : st_tick st_f = S (st_tick st_e)) by (rewrite Hf; apply after_command_tick).
  rewrite <- Htick_f, <- Hos_f in Hspawn2.
  pose proof (run_command_exited P ("rm -f " ++ tmpname) env None st_f
                ("rm" :: "-f" :: tmpname :: nil) o3 code3 out3 err3
                (split_rm tmpname Hne Hplain) Hspawn2) as Hrun2.
  remember (after_command P ("rm -f " ++ tmpname) ("rm" :: "-f" :: tmpname :: nil)
              env None o3 code3 out3 st_f) as st_g eqn:Hg.
  exists (logged INFO ("Added cron job: " ++ cronjob) st_g).
  split.
  { rewrite (bind_Ok _ _ _ _ _ Hrun1), (bind_Ok _ _ _ _ _ Hrun2). reflexivity. }
  assert (Hruns : runs (st_trace st_g)
                  = (runs (st_trace st_e)
                     ++ ("crontab" :: tmpname :: nil) :: ("rm" :: "-f" :: tmpname :: nil) :: nil)%list).
  { rewrite Hg, after_command_runs, Hf, after_command_runs, <- app_assoc. reflexivity. }
  assert (Hlevel : st_level st_g = st_level st_e).
  { rewrite Hg, after_command_level, Hf, after_command_level. reflexivity. }
  assert (Hcwd : st_cwd st_g = st_cwd st_e).
  { rewrite Hg, after_command_cwd, Hf, after_command_cwd. reflexivity. }
  assert (Hos : st_os st_g = o3) by (rewrite Hg; apply after_command_os).
  clear Hf Hg Hrun1 Hrun2 Hspawn1 Hspawn2 Hos_f Htick_f.
  split; [rewrite logged_os; exact Hos|].
  split; [rewrite logged_cwd; exact Hcwd|].
  split; [rewrite logged_runs; exact Hruns|].
  intros Hinfo.
  assert (Hlog : st_trace (logged INFO ("Added cron job: " ++ cronjob) st_g)
                 = (st_trace st_g ++ EvLog INFO ("Added cron job: " ++ cronjob) :: nil)%list).
  { unfold logged. rewrite Hlevel.
    destruct (Z.leb_spec (st_level st_e) INFO); [reflexivity|lia]. }
  exists (messages (st_trace st_g)). rewrite Hlog, messages_app. reflexivity.
Qed.

(** The temporary file is gone from a machine it has been removed from. *)
Lemma exists_at_removed st p o :
  Text.starts_with_slash p = true ->
  Path.resolve "/" p <> nil ->
  st_os st = remove_file (Path.resolve "/" p) o ->
  exists_at st p = false.
Proof.
  intros Habs Hq Hos.
  unfold exists_at, fs_of. rewrite (locate_absolute _ _ Habs), Hos.
  unfold remove_file. cbn [os_fs].
  destruct (Path.resolve "/" p) as [|c q]; [contradiction|].
  cbn [node_at]. rewrite lookup_delete_eq. reflexivity.
Qed.

Lemma tmpname_of_facts st :
  home_ready P st ->
  Text.starts_with_slash (tmpname_of P st) = true
  /\ nonempty (tmpname_of P st) = true
  /\ plain (tmpname_of P st) = true
  /\ Path.resolve "/" (tmpname_of P st) <> nil
  /\ fs_of st !! Path.resolve "/" (tmpname_of P st) = None.
Proof.
  intros Hhome.
  destruct (gen_password_spec P st) as (pw & Hgen & Hpw).
  assert (Htmp : tmpname_of P st = home P ++ "/.tmp" ++ pw)
    by (unfold tmpname_of; rewrite Hgen; reflexivity).
  destruct (tmpname_facts (home P) pw (home_absolute _ _ Hhome) (home_plain _ _ Hhome) Hpw)
    as (Habs & Hne & Hplain & Hloc).
  rewrite <- Htmp in Habs, Hne, Hplain, Hloc.
  repeat (split; [assumption|]). rewrite Hloc. split.
  - destruct (Path.resolve "/" (home P)); discriminate.
  - apply (home_no_tmp _ _ Hhome).
Qed.

(** C10.  When the [crontab FILE] that [add_cronjob] runs exits with a
    non-zero status, [add_cronjob] still returns normally, whatever the
    listing before it did: the command runner swallows the failure, the
    [rm -f] of the temporary file is run next and, [rm] removing the file,
    the file is gone, the crontab is what the failed command left, and the
    message [Added cron job] is logged, exactly as after a successful
    installation.  (The home directory is one in which the temporary file
    can be created.) *)
Theorem add_cronjob_hides_install_failure cronjob env st o2 code out err code3 out3 err3 :
  home_ready P st ->
  can_write st (tmpname_of P st) = true ->
  answer P ("crontab" :: tmpname_of P st :: nil) env (at_install P cronjob env st)
  = (o2, Exited code out err) ->
  code <> 0 ->
  spawn P (S (st_tick (at_install P cronjob env st)))
    ("rm" :: "-f" :: tmpname_of P st :: nil) env None o2
  = (remove_file (Path.resolve "/" (tmpname_of P st)) o2, Exited code3 out3 err3) ->
  exists final before,
    add_cronjob P cronjob env st = (final, Ok tt)
    /\ runs (st_trace final)
       = (before ++ ("crontab" :: tmpname_of P st :: nil)
                 :: ("rm" :: "-f" :: tmpname_of P st :: nil) :: nil)%list
    /\ exists_at final (tmpname_of P st) = false
    /\ os_cron (st_os final) = os_cron o2
    /\ (st_level st <= INFO ->
        exists earlier,
          messages (st_trace final)
          = (earlier ++ (("Added cron job: " ++ cronjob)%string :: nil))%list).
Proof.
  intros Hhome _ Hinstall _ Hrm.
  destruct (tmpname_of_facts st Hhome) as (Habs & Hne & Hplain & Hq & _).
  destruct (add_cronjob_written_total cronjob env st Hhome) as [Hret Hlevel].
  unfold answer in Hinstall.
  unfold at_install in *.
  destruct (add_cronjob_written P cronjob env st) as [st_e r] eqn:Hwritten.
  cbn [fst snd] in *. subst r.
  remember (tmpname_of P st) as tmpname eqn:Hname. clear Hname.
  destruct (add_cronjob_tail cronjob env tmpname st_e _ _ _ _ _ _ _ _ Hne Hplain Hinstall Hrm)
    as (final & Hend & Hos & _ & Hruns & Hmsg).
  exists final, (runs (st_trace st_e)).
  split; [rewrite add_cronjob_split, (bind_Ok _ _ _ _ _ Hwritten); exact Hend|].
  split; [exact Hruns|].
  split; [exact (exists_at_removed final tmpname o2 Habs Hq Hos)|].
  split; [rewrite Hos; reflexivity|].
  intros Hinfo. apply Hmsg. rewrite Hlevel. exact Hinfo.
Qed.

(** The state in which the installation is run, when the listing left the
    machine as it was: the temporary file holds what was read back,
    followed by the new line. *)
Lemma at_install_listing cronjob env st oc :
  home_ready P st ->
  answer P ("crontab" :: "-l" :: nil) env (at_listing P st) = (st_os (at_listing P st), oc) ->
  snd (add_cronjob_written P cronjob env st) = Ok (tmpname_of P st)
  /\ fs_of (at_install P cronjob env st)
     = <[Path.resolve "/" (tmpname_of P st)
         := File (read_back oc ++ cronjob ++ Text.nl) (masked 438 (st_umask st))]> (fs_of st)
  /\ os_cron (st_os (at_install P cronjob env st)) = os_cron (st_os st).
Proof.
  intros Hhome Hlist.
  destruct (tmpname_of_facts st Hhome) as (Habs & _ & _ & Hq_nil & _).
  destruct (current_crontab_answer P env (at_listing P st) oc Hlist)
    as (st_c & Hcur & Hos_c & _ & _).
  unfold at_install.
  rewrite (add_cronjob_written_start cronjob env st Hhome st_c (read_back oc) Hcur).
  cbn [fst snd]. split; [reflexivity|].
  rewrite (at_listing_eq st Hhome) in Hos_c.
  remember (tmpname_of P st) as tmpname eqn:Hname. clear Hname.
  remember (Path.resolve "/" tmpname) as q eqn:Hq.
  remember (masked 438 (st_umask st)) as m0 eqn:Hm0. clear Hm0.
  remember (read_back oc) as current eqn:Hcurrent. clear Hcurrent Hcur Hlist.
  assert (Hfs_c : fs_of st_c = <[q := File EmptyString m0]> (fs_of st))
    by (unfold fs_of at 1; rewrite Hos_c; exact (set_fs_fs _ (ticks 20 st))).
  assert (Hcron_c : os_cron (st_os st_c) = os_cron (st_os st))
    by (rewrite Hos_c, set_fs_cron, ticks_os; reflexivity).
  clear Hos_c.
  assert (Hloc_c : forall s, locate s tmpname = q)
    by (intros s; rewrite Hq; apply locate_absolute; exact Habs).
  assert (Hw1 : fs_write tmpname current st_c
                = (set_fs (<[q := File current m0]> (fs_of st_c)) st_c, Ok tt)).
  { rewrite (fs_write_file tmpname current st_c EmptyString m0).
    - rewrite Hloc_c. reflexivity.
    - rewrite Hloc_c, Hfs_c. apply node_at_insert. exact Hq_nil. }
  rewrite Hw1. cbn [fst]. clear Hw1.
  remember (set_fs (<[q := File current m0]> (fs_of st_c)) st_c) as st_d eqn:Hd.
  assert (Hfs_d : fs_of st_d = <[q := File current m0]> (fs_of st_c))
    by (rewrite Hd; apply set_fs_fs).
  assert (Hcron_d : os_cron (st_os st_d) = os_cron (st_os st))
    by (rewrite Hd, set_fs_cron; exact Hcron_c).
  clear Hd.
  assert (Hw2 : fs_write tmpname (cronjob ++ Text.nl) st_d
                = (set_fs (<[q := File (current ++ cronjob ++ Text.nl) m0]> (fs_of st_d))
                     st_d, Ok tt)).
  { rewrite (fs_write_file tmpname (cronjob ++ Text.nl) st_d current m0).
    - rewrite Hloc_c. reflexivity.
    - rewrite Hloc_c, Hfs_d. apply node_at_insert. exact Hq_nil. }
  rewrite Hw2. cbn [fst]. clear Hw2.
  split.
  - rewrite set_fs_fs, Hfs_d, Hfs_c, !insert_insert_eq. reflexivity.
  - rewrite set_fs_cron. exact Hcron_d.
Qed.

(** One call of [add_cronjob] whose three commands do what they should. *)
Lemma add_cronjob_once cronjob env st out :
  home_ready P st ->
  commands_work P cronjob env st out ->
  exists final,
    add_cronjob P cronjob env st = (final, Ok tt)
    /\ os_cron (st_os final)
       = Some (default EmptyString (Utf8.decode out) ++ cronjob ++ Text.nl)
    /\ fs_of final = fs_of st
    /\ exists_at final (tmpname_of P st) = false.
Proof.
  intros Hhome [Hlist Hinstall Hrm].
  destruct Hlist as (code & err & Hlist).
  destruct Hinstall as (out2 & err2 & Hinstall).
  destruct Hrm as (code3 & out3 & err3 & Hrm).
  destruct (tmpname_of_facts st Hhome) as (Habs & Hne & Hplain & Hq & Hnone).
  destruct (at_install_listing cronjob env st _ Hhome Hlist) as (Hret & Hfs_e & _).
  cbn [read_back] in Hfs_e.
  assert (Hheld : held (at_install P cronjob env st) (tmpname_of P st)
                  = default EmptyString (Utf8.decode out) ++ cronjob ++ Text.nl).
  { unfold held, data_of. rewrite (locate_absolute _ _ Habs), Hfs_e.
    rewrite (node_at_insert _ _ _ Hq). reflexivity. }
  unfold installed in Hinstall, Hrm. rewrite Hheld in Hinstall, Hrm. clear Hheld.
  unfold answer in Hinstall. unfold at_install in *.
  destruct (add_cronjob_written P cronjob env st) as [st_e r] eqn:Hwritten.
  cbn [fst snd] in *. subst r.
  remember (tmpname_of P st) as tmpname eqn:Hname. clear Hname.
  remember (default EmptyString (Utf8.decode out) ++ cronjob ++ Text.nl) as new eqn:Hnew.
  clear Hnew Hlist.
  destruct (add_cronjob_tail cronjob env tmpname st_e _ _ _ _ _ _ _ _ Hne Hplain Hinstall Hrm)
    as (final & Hend & Hos & _ & _ & _).
  exists final.
  split; [rewrite add_cronjob_split, (bind_Ok _ _ _ _ _ Hwritten); exact Hend|].
  split; [rewrite Hos; reflexivity|].
  split.
  - unfold fs_of at 1. rewrite Hos. unfold remove_file, install_cron. cbn [os_fs].
    fold (fs_of st_e). rewrite Hfs_e, delete_insert_eq. apply delete_id. exact Hnone.
  - exact (exists_at_removed final tmpname _ Habs Hq Hos).
Qed.

Lemma home_ready_same_files st st' :
  home_ready P st -> fs_of st' = fs_of st -> home_ready P st'.
Proof.
  intros [h1 h2 h3 h4] Hfs. constructor; rewrite ?Hfs; assumption.
Qed.

(** C4.  Let [out] be what [crontab -l] prints on its standard output when
    [add_cronjob] runs it, whatever its exit status: the installed crontab
    for a command that works as documented, nothing when there is no
    crontab.  When [out] is UTF-8, the temporary file can be created in the
    home directory, the listing changes nothing, [crontab FILE] installs
    what the file holds and [rm -f FILE] removes the file, [add_cronjob]
    leaves as installed crontab [out] followed by the line and a newline:
    the previous content is kept whole and in order, and nothing is
    deduplicated, a second call with the same line adding it once more.
    The temporary file does not remain and the files are as before. *)
Theorem add_cronjob_appends_line cronjob env st out :
  home_ready P st ->
  can_write st (tmpname_of P st) = true ->
  Utf8.valid out = true ->
  commands_work P cronjob env st out ->
  exists st1,
    add_cronjob P cronjob env st = (st1, Ok tt)
    /\ os_cron (st_os st1) = Some (out ++ cronjob ++ Text.nl)
    /\ fs_of st1 = fs_of st
    /\ exists_at st1 (tmpname_of P st) = false
    /\ (Utf8.valid cronjob = true ->
        can_write st1 (tmpname_of P st1) = true ->
        commands_work P cronjob env st1 (out ++ cronjob ++ Text.nl) ->
        exists st2,
          add_cronjob P cronjob env st1 = (st2, Ok tt)
          /\ os_cron (st_os st2)
             = Some (out ++ cronjob ++ Text.nl ++ cronjob ++ Text.nl)
          /\ fs_of st2 = fs_of st
          /\ exists_at st2 (tmpname_of P st1) = false).
Proof.
  intros Hhome _ Hvalid Hwork.
  assert (Hdec : forall t, Utf8.valid t = true -> default EmptyString (Utf8.decode t) = t)
    by (intros t Ht; unfold Utf8.decode; rewrite Ht; reflexivity).
  destruct (add_cronjob_once cronjob env st out Hhome Hwork)
    as (st1 & Hrun1 & Hcron1 & Hfs1 & Hgone1).
  rewrite (Hdec _ Hvalid) in Hcron1.
  exists st1. repeat (split; [assumption|]).
  intros Hline _ Hwork2.
  assert (Hvalid1 : Utf8.valid (out ++ cronjob ++ Text.nl) = true).
  { apply valid_app; [exact Hvalid|]. apply valid_app; [exact Hline|reflexivity]. }
  destruct (add_cronjob_once cronjob env st1 (out ++ cronjob ++ Text.nl)
              (home_ready_same_files st st1 Hhome Hfs1) Hwork2)
    as (st2 & Hrun2 & Hcron2 & Hfs2 & Hgone2).
  rewrite (Hdec _ Hvalid1) in Hcron2.
  exists st2. split; [exact Hrun2|].
  split; [rewrite Hcron2, !string_app_assoc; reflexivity|].
  split; [rewrite Hfs2; exact Hfs1|exact Hgone2].
Qed.

End CrontabEdit.

(** *** On the demo machines *)

Lemma demo_home_ready cron : home_ready Demo.machine (Demo.boot cron).
Proof.
  constructor.
  - reflexivity.
  - reflexivity.
  - exists 493. reflexivity.
  - intros name. change (Path.resolve "/" (home Demo.machine)) with ("home" :: "u1" :: nil).
    change (fs_of (Demo.boot cron)) with Demo.disk. unfold Demo.disk.
    rewrite !lookup_insert_ne by discriminate. apply lookup_empty.
Qed.

(** A machine whose [crontab] checks what it is given: it installs a file
    each line of which starts as a crontab line can - with a digit, [*], [@]
    or [#] - and refuses any other file. *)
Definition line_ok (l : string) : bool :=
  match l with
  | EmptyString => true
  | String c _ => Text.mem c "0123456789*@#"
  end.

Definition well_formed (data : string) : bool :=
  forallb line_ok (Text.split_on (ascii_of_nat 10) data).

Definition checking_machine : platform := {|
  spawn := fun t argv env cwd o =>
             match argv with
             | "crontab" :: "-l" :: nil => spawn Demo.machine t argv env cwd o
             | "crontab" :: f :: nil =>
                 match os_fs o !! Path.resolve "/" f with
                 | Some (File d _) =>
                     if well_formed d
                     then (install_cron d o, Exited 0 EmptyString EmptyString)
                     else (o, Exited 1 EmptyString "errors in crontab file, can't install")
                 | _ => (o, Exited 1 EmptyString "cannot open file")
                 end
             | _ => spawn Demo.machine t argv env cwd o
             end;
  server := server Demo.machine;
  entropy := entropy Demo.machine;
  dedent := dedent Demo.machine;
  py_repr := py_repr Demo.machine;
  today_iso := today_iso Demo.machine;
  now_stamp := now_stamp Demo.machine;
  home := home Demo.machine;
  environ := environ Demo.machine;
|}.

Lemma checking_home_ready cron : home_ready checking_machine (Demo.boot cron).
Proof.
  destruct (demo_home_ready cron) as [h1 h2 h3 h4].
  constructor; assumption.
Qed.

Lemma add_cronjob_appends_line_witness :
  let st1 := fst (add_cronjob checking_machine "@daily true" CMD_ENV
                    (Demo.boot (Some Demo.old_cron))) in
  os_cron (st_os st1) = Some (Demo.old_cron ++ "@daily true" ++ Text.nl)
  /\ os_cron (st_os (fst (add_cronjob checking_machine "@daily true" CMD_ENV st1)))
     = Some (Demo.old_cron ++ "@daily true" ++ Text.nl ++ "@daily true" ++ Text.nl)
  /\ os_cron (st_os (fst (add_cronjob checking_machine "@daily true" CMD_ENV (Demo.boot None))))
     = Some ("@daily true" ++ Text.nl).
Proof.
  intros st1.
  destruct (add_cronjob_appends_line checking_machine "@daily true" CMD_ENV
              (Demo.boot (Some Demo.old_cron)) Demo.old_cron
              (checking_home_ready _) eq_refl eq_refl)
    as (s1 & Hrun & Hcron & _ & _ & Hsecond).
  { constructor.
    - exists 0, EmptyString. vm_compute. reflexivity.
    - exists EmptyString, EmptyString. vm_compute. reflexivity.
    - exists 0, EmptyString, EmptyString. vm_compute. reflexivity. }
  assert (Hs1 : s1 = st1) by (unfold st1; rewrite Hrun; reflexivity).
  subst s1. split; [exact Hcron|].
  destruct (Hsecond eq_refl) as (s2 & Hrun2 & Hcron2 & _).
  { vm_compute. reflexivity. }
  { constructor.
    - exists 0, EmptyString. vm_compute. reflexivity.
    - exists EmptyString, EmptyString. vm_compute. reflexivity.
    - exists 0, EmptyString, EmptyString. vm_compute. reflexivity. }
  rewrite Hrun2. split; [exact Hcron2|].
  destruct (add_cronjob_appends_line checking_machine "@daily true" CMD_ENV
              (Demo.boot None) EmptyString
              (checking_home_ready _) eq_refl eq_refl)
    as (s3 & Hrun3 & Hcron3 & _).
  { constructor.
    - exists 1, "no crontab for user". vm_compute. reflexivity.
    - exists EmptyString, EmptyString. vm_compute. reflexivity.
    - exists 0, EmptyString, EmptyString. vm_compute. reflexivity. }
  rewrite Hrun3. exact Hcron3.
Defined.

Lemma add_cronjob_hides_install_failure_witness :
  snd (add_cronjob checking_machine "garbage" CMD_ENV (Demo.boot (Some Demo.old_cron)))
  = Ok tt
  /\ os_cron (st_os (fst (add_cronjob checking_machine "garbage" CMD_ENV
                            (Demo.boot (Some Demo.old_cron)))))
     = Some Demo.old_cron.
Proof.
  destruct (add_cronjob_hides_install_failure checking_machine "garbage" CMD_ENV
              (Demo.boot (Some Demo.old_cron))
              (st_os (at_install checking_machine "garbage" CMD_ENV
                        (Demo.boot (Some Demo.old_cron))))
              1 EmptyString "errors in crontab file, can't install"
              0 EmptyString EmptyString
              (checking_home_ready _))
    as (final & before & Hrun & _ & _ & Hcron & _).
  - vm_compute. reflexivity.
  - vm_compute. reflexivity.
  - discriminate.
  - vm_compute. reflexivity.
  - rewrite Hrun. split; [reflexivity|]. cbn [fst]. rewrite Hcron. vm_compute. reflexivity.
Defined.

(** A machine without crontab whose [crontab -l] prints its complaint on
    standard output. *)
Definition noisy_machine : platform := {|
  spawn := fun t argv env cwd o =>
             match argv with
             | "crontab" :: "-l" :: nil =>
                 (o, Exited 1 ("no crontab for u1" ++ Text.nl) EmptyString)
             | _ => spawn Demo.machine t argv env cwd o
             end;
  server := server Demo.machine;
  entropy := entropy Demo.machine;
  dedent := dedent Demo.machine;
  py_repr := py_repr Demo.machine;
  today_iso := today_iso Demo.machine;
  now_stamp := now_stamp Demo.machine;
  home := home Demo.machine;
  environ := environ Demo.machine;
|}.

(** Two crontabs for which the result is not the old content followed by
    the line.  A crontab that is not UTF-8 makes [decode] raise inside the
    [try]; the handler takes the current content to be empty and the old
    crontab is replaced by the new line alone.  And a [crontab -l] that
    fails is not taken for an empty crontab: what it printed on standard
    output is installed in front of the line. *)
Lemma add_cronjob_not_a_round_trip :
  (os_cron (st_os (fst (add_cronjob Demo.machine "@daily true" CMD_ENV
                          (Demo.boot (Some ("# caf" ++ Text.chr 233 ++ Text.nl))))))
   = Some ("@daily true" ++ Text.nl)
   /\ os_cron (st_os (fst (add_cronjob Demo.machine "@daily true" CMD_ENV
                             (Demo.boot (Some ("# caf" ++ Text.chr 233 ++ Text.nl))))))
      <> Some (("# caf" ++ Text.chr 233 ++ Text.nl) ++ "@daily true" ++ Text.nl))
  /\ (os_cron (st_os (fst (add_cronjob noisy_machine "@daily true" CMD_ENV (Demo.boot None))))
      = Some ("no crontab for u1" ++ Text.nl ++ "@daily true" ++ Text.nl)
      /\ os_cron (st_os (fst (add_cronjob noisy_machine "@daily true" CMD_ENV
                                (Demo.boot None))))
         <> Some ("@daily true" ++ Text.nl)).
Proof.
  split; split; try (vm_compute; reflexivity); vm_compute; discriminate.
Qed.

Lemma notification_sent_once_after_install_witness :
  notifications (st_trace (fst (main Demo.machine Demo.args_token (Demo.boot None))))
  = {| rq_method := "POST"; rq_host := "my.opalstack.com";
       rq_endpoint := "/api/v1/app/installed/";
       rq_body := Some (Json (PList (PDict (("id", PStr "0a1b2c3d") :: nil) :: nil)));
       rq_headers := token_headers Demo.machine (PStr "t0k3n") |} :: nil.
Proof.
  destruct (notification_sent_once_after_install Demo.machine Demo.args_token (Demo.boot None))
    as (_ & _ & Hsent).
  destruct (install Demo.machine Demo.args_token (Demo.boot None)) as [st1 [api|e]] eqn:Hin.
  - destruct (Hsent api eq_refl) as [Hn _]. rewrite Hn.
    assert (Hh : headers api = token_headers Demo.machine (PStr "t0k3n")).
    { assert (Hs : snd (install Demo.machine Demo.args_token (Demo.boot None)) = Ok api)
        by (rewrite Hin; reflexivity).
      vm_compute in Hs. inversion Hs. reflexivity. }
    rewrite Hh. reflexivity.
  - assert (Hs : snd (install Demo.machine Demo.args_token (Demo.boot None)) = Raise e)
      by (rewrite Hin; reflexivity).
    vm_compute in Hs. discriminate.
Defined.

(** * Further properties of the script *)

(** ** gen_password *)

Lemma string_length_app (a b : string) :
  String.length (a ++ b) = (String.length a + String.length b)%nat.
Proof.
  induction a as [|c a IH]; [reflexivity|].
  rewrite append_cons. simpl. rewrite IH. reflexivity.
Qed.

Lemma get_in_range chars i :
  (i < String.length chars)%nat -> exists c, String.get i chars = Some c.
Proof.
  revert i. induction chars as [|d chars IH]; intros i H; simpl in H; [lia|].
  destruct i as [|i]; simpl; [eauto|]. apply IH. lia.
Qed.

Lemma choices_length P chars n st :
  chars <> EmptyString ->
  exists pw,
    choices P chars n st = (ticks n st, Ok pw)
    /\ String.length pw = n
    /\ all_chars (fun c => Text.mem c chars) pw = true.
Proof.
  intros Hne. revert st. induction n as [|n IH]; intros st.
  - exists EmptyString. repeat split; reflexivity.
  - destruct (IH (tick st)) as (rest & Hrest & Hlen & Hall).
    assert (Hpos : (String.length chars <> 0)%nat) by (destruct chars; [contradiction|discriminate]).
    destruct (get_in_range chars (entropy P (st_tick st) mod String.length chars))
      as [c Hc]; [apply Nat.mod_upper_bound; exact Hpos|].
    exists (String c rest).
    simpl choices. unfold bind at 1. unfold secrets_choice at 1. rewrite Hc.
    rewrite (bind_Ok _ _ _ _ _ Hrest).
    split; [reflexivity|]. split; [simpl; rewrite Hlen; reflexivity|].
    simpl. rewrite (get_mem _ _ _ Hc), Hall. reflexivity.
Qed.

(** X1.  [gen_password] returns exactly [length] characters (20 when the
    argument is left out), each an ASCII letter or a digit, and draws one
    random value per character. *)
Theorem gen_password_shape P length st :
  exists pw,
    gen_password P length st = (ticks (default 20%nat length) st, Ok pw)
    /\ String.length pw = default 20%nat length
    /\ all_chars alnum pw = true
    /\ st_tick (ticks (default 20%nat length) st) = (default 20%nat length + st_tick st)%nat.
Proof.
  destruct (choices_length P (ascii_letters ++ digits) (default 20%nat length) st)
    as (pw & Hrun & Hlen & Hall); [discriminate|].
  exists pw. split; [exact Hrun|]. split; [exact Hlen|]. split; [exact Hall|].
  clear Hrun Hlen Hall.
  generalize (default 20%nat length). intros n. revert st.
  induction n as [|n IH]; intros s; [reflexivity|].
  simpl ticks. rewrite IH. simpl. lia.
Qed.

(** ** The API host, when it comes out right *)

Lemma rev_onto_app a b acc :
  Text.rev_onto (a ++ b) acc = Text.rev_onto b (Text.rev_onto a acc).
Proof.
  revert acc. induction a as [|c a IH]; intros acc; [reflexivity|].
  rewrite append_cons. simpl. apply IH.
Qed.

Lemma rev_onto_acc a acc : Text.rev_onto a acc = Text.rev a ++ acc.
Proof.
  unfold Text.rev. revert acc. induction a as [|c a IH]; intros acc; [reflexivity|].
  simpl. rewrite IH, (IH (String c EmptyString)), string_app_assoc. reflexivity.
Qed.

Lemma rev_cons c a : Text.rev (String c a) = Text.rev a ++ String c EmptyString.
Proof. unfold Text.rev at 1. simpl. apply rev_onto_acc. Qed.

Lemma rev_snoc a c : Text.rev (a ++ String c EmptyString) = String c (Text.rev a).
Proof. unfold Text.rev. rewrite rev_onto_app. reflexivity. Qed.

Lemma rev_involutive s : Text.rev (Text.rev s) = s.
Proof.
  unfold Text.rev. rewrite rev_onto_rev_onto. simpl. apply append_nil_r.
Qed.

Lemma lstrip_snoc chars x c :
  Text.mem c chars = false ->
  Text.lstrip chars (x ++ String c EmptyString) = Text.lstrip chars x ++ String c EmptyString.
Proof.
  intros Hc. induction x as [|d x IH].
  - simpl. change (EmptyString ++ String c EmptyString) with (String c EmptyString).
    simpl. rewrite Hc. reflexivity.
  - rewrite append_cons. simpl. destruct (Text.mem d chars); [exact IH|reflexivity].
Qed.

(** What is left of a string after [lstrip] is empty or starts outside the set. *)
Definition head_clean (chars s : string) : bool :=
  match s with
  | EmptyString => true
  | String c _ => negb (Text.mem c chars)
  end.

(** Neither end of the string is a character of the set. *)
Definition ends_clean (chars s : string) : bool :=
  head_clean chars s && head_clean chars (Text.rev s).

Lemma lstrip_head_clean chars s : head_clean chars (Text.lstrip chars s) = true.
Proof.
  induction s as [|c s IH]; [reflexivity|].
  simpl. destruct (Text.mem c chars) eqn:E; [exact IH|]. simpl. rewrite E. reflexivity.
Qed.

Lemma lstrip_clean chars s : head_clean chars s = true -> Text.lstrip chars s = s.
Proof.
  destruct s as [|c s]; [reflexivity|]. simpl. intros H.
  apply negb_true_iff in H. rewrite H. reflexivity.
Qed.

Lemma rstrip_cons chars c r :
  Text.mem c chars = false ->
  Text.rstrip chars (String c r) = String c (Text.rstrip chars r).
Proof.
  intros Hc. unfold Text.rstrip. rewrite rev_cons, (lstrip_snoc _ _ _ Hc), rev_snoc.
  reflexivity.
Qed.

Lemma strip_ends_clean chars s : ends_clean chars (Text.strip chars s) = true.
Proof.
  unfold ends_clean, Text.strip. apply andb_true_iff. split.
  - pose proof (lstrip_head_clean chars s) as H.
    destruct (Text.lstrip chars s) as [|c r]; [reflexivity|].
    simpl in H. apply negb_true_iff in H.
    rewrite (rstrip_cons _ _ _ H). simpl. rewrite H. reflexivity.
  - unfold Text.rstrip. rewrite rev_involutive. apply lstrip_head_clean.
Qed.

Lemma strip_clean chars s : ends_clean chars s = true -> Text.strip chars s = s.
Proof.
  unfold ends_clean. intros H. apply andb_true_iff in H as [H1 H2].
  unfold Text.strip, Text.rstrip. rewrite (lstrip_clean _ _ H1), (lstrip_clean _ _ H2).
  apply rev_involutive.
Qed.

Lemma mem_http_https c : Text.mem c "https://" = false -> Text.mem c "http://" = false.
Proof.
  simpl. repeat (destruct (Ascii.eqb c _); [discriminate|]). reflexivity.
Qed.

Lemma head_clean_http chars_s :
  head_clean "https://" chars_s = true -> head_clean "http://" chars_s = true.
Proof.
  destruct chars_s as [|c s]; [reflexivity|]. unfold head_clean. intros H.
  apply negb_true_iff in H. rewrite (mem_http_https c H). reflexivity.
Qed.

Lemma lstrip_prefix chars p s :
  all_chars (fun c => Text.mem c chars) p = true ->
  Text.lstrip chars (p ++ s) = Text.lstrip chars s.
Proof.
  induction p as [|c p IH]; [reflexivity|]. simpl. intros H.
  apply andb_true_iff in H as [Hc Hp]. rewrite ?append_cons. simpl. rewrite Hc. exact (IH Hp).
Qed.

Lemma strip_twice u :
  Text.strip "http://" (Text.strip "https://" u) = Text.strip "https://" u.
Proof.
  apply strip_clean.
  pose proof (strip_ends_clean "https://" u) as Hc.
  unfold ends_clean in *. apply andb_true_iff in Hc as [H1 H2].
  rewrite (head_clean_http _ H1), (head_clean_http _ H2). reflexivity.
Qed.

(** X2.  The second [strip] of line 21 never removes anything: the API host
    is the value of API_URL stripped once by the character set of
    [https://], and it neither starts nor ends with one of the characters
    h, t, p, s, colon and slash. *)
Theorem API_HOST_is_one_strip api_url :
  API_HOST api_url
  = Text.strip "https://" (default "https://my.opalstack.com" api_url)
  /\ ends_clean "https://" (API_HOST api_url) = true.
Proof.
  unfold API_HOST. destruct api_url as [u|]; simpl default;
    rewrite strip_twice; (split; [reflexivity|apply strip_ends_clean]).
Qed.

(** X3.  A host name that neither starts nor ends with one of the characters
    h, t, p, s, colon and slash comes out intact, whether API_URL gives it
    with [https://], with [http://] or bare. *)
Theorem API_HOST_keeps_clean_host h :
  ends_clean "https://" h = true ->
  API_HOST (Some ("https://" ++ h)) = h
  /\ API_HOST (Some ("http://" ++ h)) = h
  /\ API_HOST (Some h) = h.
Proof.
  intros Hclean.
  assert (Hh : Text.strip "https://" h = h) by (apply strip_clean; exact Hclean).
  assert (Hpre : forall p,
             all_chars (fun c => Text.mem c "https://") p = true ->
             API_HOST (Some (p ++ h)) = h).
  { intros p Hp. unfold API_HOST. rewrite strip_twice.
    unfold Text.strip. rewrite (lstrip_prefix _ _ _ Hp). exact Hh. }
  split; [apply Hpre; reflexivity|].
  split; [apply Hpre; reflexivity|].
  exact (Hpre EmptyString eq_refl).
Qed.

Lemma API_HOST_keeps_clean_host_witness :
  API_HOST (Some ("https://" ++ "my.opalstack.com")) = "my.opalstack.com".
Proof.
  exact (proj1 (API_HOST_keeps_clean_host "my.opalstack.com" eq_refl)).
Defined.

(** ** run_command: what is not swallowed, and what the log shows *)

Section CommandRunnerMore.

Variable P : platform.

(** X4.  Only a non-zero exit is swallowed: when the program cannot be
    started, [run_command] raises the [OSError] of the launch, after the one
    attempt to run it. *)
Theorem run_command_raises_when_not_started cmd env cwd st argv os' why :
  Shlex.split cmd = Some argv ->
  spawn P (st_tick st) argv env cwd (st_os st) = (os', NotLaunched why) ->
  snd (run_command P cmd env cwd st) = Raise (OSError why (hd EmptyString argv))
  /\ runs (st_trace (fst (run_command P cmd env cwd st)))
     = (runs (st_trace st) ++ argv :: nil)%list.
Proof.
  intros Hsplit Hspawn.
  rewrite (run_command_not_launched P cmd env cwd st argv os' why Hsplit Hspawn).
  split; [reflexivity|].
  simpl. rewrite runs_app, logged_runs. reflexivity.
Qed.

(** X5.  A command line that [shlex.split] rejects (an unclosed quotation, a
    trailing backslash) makes [run_command] raise [ValueError] after the
    [Running:] log line: no program is run and the machine is untouched. *)
Theorem run_command_rejects_bad_quoting cmd env cwd st :
  Shlex.split cmd = None ->
  run_command P cmd env cwd st
  = (logged INFO ("Running: " ++ cmd) st, Raise (ValueError "shlex"))
  /\ runs (st_trace (fst (run_command P cmd env cwd st))) = runs (st_trace st)
  /\ st_os (fst (run_command P cmd env cwd st)) = st_os st.
Proof.
  intros Hsplit.
  assert (H : run_command P cmd env cwd st
              = (logged INFO ("Running: " ++ cmd) st, Raise (ValueError "shlex"))).
  { unfold run_command, logging_info.
    rewrite (bind_Ok _ _ _ _ _ (logging_log_eq INFO _ st)).
    unfold try_except, shlex_split. rewrite Hsplit. reflexivity. }
  rewrite H. simpl. rewrite logged_runs, logged_os. auto.
Qed.

(** X6.  Under the threshold that [main] configures (INFO), the log of a
    command that ran is the single line [Running: ...], whatever its exit
    status: the output of a failed command is logged at DEBUG and therefore
    dropped, so neither the result nor the log tells a failure from a
    success. *)
Theorem run_command_failure_not_logged cmd env cwd st argv os' code out err :
  Shlex.split cmd = Some argv ->
  spawn P (st_tick st) argv env cwd (st_os st) = (os', Exited code out err) ->
  DEBUG < st_level st <= INFO ->
  messages (st_trace (fst (run_command P cmd env cwd st)))
  = (messages (st_trace st) ++ ("Running: " ++ cmd)%string :: nil)%list.
Proof.
  intros Hsplit Hspawn [Hlo Hhi].
  rewrite (run_command_exited P cmd env cwd st argv os' code out err Hsplit Hspawn).
  cbn [fst]. unfold after_command.
  assert (Hlog : st_trace (logged INFO ("Running: " ++ cmd) st)
                 = (st_trace st ++ EvLog INFO ("Running: " ++ cmd) :: nil)%list).
  { unfold logged. destruct (Z.leb_spec (st_level st) INFO); [reflexivity|lia]. }
  destruct (Z.eqb code 0).
  - cbn [st_trace tick record set_os]. rewrite !messages_app, Hlog, messages_app.
    simpl. rewrite app_nil_r. reflexivity.
  - unfold logged at 1. cbn [st_level tick record set_os]. rewrite logged_level.
    destruct (Z.leb_spec (st_level st) DEBUG); [lia|].
    cbn [st_trace tick record set_os]. rewrite !messages_app, Hlog, messages_app.
    simpl. rewrite app_nil_r. reflexivity.
Qed.

End CommandRunnerMore.

Lemma run_command_raises_when_not_started_witness :
  snd (run_command
         {| spawn := fun _ _ _ _ o => (o, NotLaunched FileNotFoundError);
            server := server Demo.machine; entropy := entropy Demo.machine;
            dedent := dedent Demo.machine; py_repr := py_repr Demo.machine;
            today_iso := today_iso Demo.machine; now_stamp := now_stamp Demo.machine;
            home := home Demo.machine; environ := environ Demo.machine |}
         "gem install jekyll" CMD_ENV None (Demo.boot None))
  = Raise (OSError FileNotFoundError "gem").
Proof.
  refine (proj1 (run_command_raises_when_not_started _ "gem install jekyll" CMD_ENV None
                   (Demo.boot None) ("gem" :: "install" :: "jekyll" :: nil)
                   (st_os (Demo.boot None)) FileNotFoundError _ _)); reflexivity.
Defined.

Lemma run_command_rejects_bad_quoting_witness :
  snd (run_command Demo.machine "echo 'unfinished" CMD_ENV None (Demo.boot None))
  = Raise (ValueError "shlex").
Proof.
  rewrite (proj1 (run_command_rejects_bad_quoting Demo.machine "echo 'unfinished" CMD_ENV None
                    (Demo.boot None) eq_refl)).
  reflexivity.
Defined.

Lemma run_command_failure_not_logged_witness :
  messages (st_trace (fst (run_command Demo.machine "false" CMD_ENV None
                             (set_level INFO (Demo.boot None)))))
  = "Running: false" :: nil.
Proof.
  refine (run_command_failure_not_logged Demo.machine "false" CMD_ENV None
            (set_level INFO (Demo.boot None)) ("false" :: nil) (st_os (Demo.boot None))
            1 "some output" "some diagnostics" _ _ _).
  - reflexivity.
  - reflexivity.
  - split; reflexivity.
Defined.

(** ** create_file: content, failure, repetition *)

Section CreateFile.

(** X7.  After a successful [create_file] the file holds exactly [contents]
    when it was written in mode [w] (the default): whatever was there is
    gone.  In mode [a] it holds what it held before, followed by
    [contents]. *)
Theorem create_file_content p contents writemode perms st st' :
  create_file p contents writemode perms st = (st', Ok tt) ->
  (default "w" writemode = "w" -> data_of st' p = Some contents)
  /\ (default "w" writemode = "a" ->
      data_of st' p = Some (default EmptyString (data_of st p) ++ contents)).
Proof.
  intros H.
  destruct (create_file_inv _ _ _ _ _ _ H) as (st1 & Ho & Hw & Hfit).
  destruct (fs_open_data _ _ _ _ Ho) as (Hcwd & _ & _ & Hq & _).
  rewrite (create_file_opened _ _ _ _ _ _ Ho Hw Hfit) in H. inversion H as [Hst]. clear H Hst.
  assert (Hd : forall d mode msg,
             data_of (logged INFO msg (set_fs (<[locate st p := File d mode]> (fs_of st)) st1)) p
             = Some d).
  { intros d mode msg. unfold data_of, fs_of, locate. rewrite logged_os, logged_cwd.
    cbn [st_os st_cwd set_fs set_os os_fs]. rewrite Hcwd.
    fold (locate st p). rewrite (node_at_insert _ _ _ Hq). reflexivity. }
  split; intros Hm; rewrite Hm, Hd; reflexivity.
Qed.

(** X8.  How [create_file] fails.  When the file cannot be opened, the
    exception of [open] is raised and nothing has changed.  When it is
    opened for writing in a binary mode, writing the text raises
    [TypeError]: the file stays as [open] left it - created, or emptied by
    [wb] - and its mode is not set.  When the permission value does not fit
    a C [int], [os.chmod] raises [OverflowError] after the contents have
    been written.  In none of the three cases is a line logged. *)
Theorem create_file_failures p contents writemode perms st :
  (forall e,
     snd (fs_open p (default "w" writemode) st) = Raise e ->
     create_file p contents writemode perms st = (st, Raise e))
  /\ (forall st1 om,
        fs_open p (default "w" writemode) st = (st1, Ok tt) ->
        parse_mode (default "w" writemode) = Ok om ->
        writable om = true ->
        om_binary om = true ->
        create_file p contents writemode perms st = (st1, Raise TypeError)
        /\ data_of st1 p = Some (opened_data st p (default "w" writemode))
        /\ st_trace st1 = st_trace st)
  /\ (forall st1,
        fs_open p (default "w" writemode) st = (st1, Ok tt) ->
        writes_text (default "w" writemode) = true ->
        fits_int (default 384 perms) = false ->
        exists st2,
          create_file p contents writemode perms st = (st2, Raise OverflowError)
          /\ data_of st2 p
             = Some (written (default "w" writemode)
                       (opened_data st p (default "w" writemode)) contents)
          /\ mode_of st2 p = mode_of st1 p
          /\ st_trace st2 = st_trace st).
Proof.
  split; [|split].
  - intros e He. unfold create_file.
    destruct (fs_open p (default "w" writemode) st) as [st1 [[]|e1]] eqn:Ho; [discriminate|].
    cbn [snd] in He. inversion He. subst e1.
    rewrite (bind_Raise _ _ _ _ _ Ho), (fs_open_raise _ _ _ _ _ Ho). reflexivity.
  - intros st1 om Ho Hp Hwr Hb.
    destruct (fs_open_data _ _ _ _ Ho) as (Hcwd & Htr & _ & Hq & m & Hfs & _).
    split; [|split; [|exact Htr]].
    + unfold create_file. rewrite (bind_Ok _ _ _ _ _ Ho).
      unfold file_write. rewrite Hp, Hwr, Hb. reflexivity.
    + unfold data_of, locate. rewrite Hcwd. fold (locate st p).
      rewrite Hfs, (node_at_insert _ _ _ Hq). reflexivity.
  - intros st1 Ho Hw Hfit.
    destruct (fs_open_data _ _ _ _ Ho) as (Hcwd & Htr & _ & Hq & m & Hfs & _).
    assert (Hloc : locate st1 p = locate st p) by (unfold locate; rewrite Hcwd; reflexivity).
    assert (Hn : node_at (fs_of st1) (locate st1 p)
                 = Some (File (opened_data st p (default "w" writemode)) m))
      by (rewrite Hloc, Hfs; apply node_at_insert; exact Hq).
    unfold create_file. rewrite (bind_Ok _ _ _ _ _ Ho).
    rewrite (bind_Ok _ _ _ _ _ (file_write_text p _ contents st1 _ _ Hw Hn)).
    unfold os_chmod. unfold bind at 1. rewrite Hfit. cbn [negb].
    eexists. split; [reflexivity|].
    unfold data_of, mode_of.
    change (locate (set_fs ?f st1) p) with (locate st1 p).
    change (fs_of (set_fs ?f st1)) with f.
    change (st_trace (set_fs ?f st1)) with (st_trace st1).
    rewrite Hn, Hloc, (node_at_insert _ _ _ Hq). auto.
Qed.

(** X9.  Writing the same file a second time, in the default mode [w]: for
    a user who is not the superuser this works only if the mode of the first
    call lets the owner write - then the second call succeeds and leaves
    files and crontab as the first did, while after a mode such as 0400 or
    0444 it raises [PermissionError], the file staying as the first call
    left it.  The superuser is never refused. *)
Theorem create_file_again p contents perms st st1 :
  0 <= perms <= 4095 ->
  create_file p contents None (Some perms) st = (st1, Ok tt) ->
  (st_root st || Z.testbit perms 7 = true ->
     exists st2, create_file p contents None (Some perms) st1 = (st2, Ok tt)
                 /\ st_os st2 = st_os st1)
  /\ (st_root st = false -> Z.testbit perms 7 = false ->
     create_file p contents None (Some perms) st1 = (st1, Raise (OSError PermissionError p))).
Proof.
  intros Hrange H.
  destruct (create_file_inv _ _ _ _ _ _ H) as (st0 & Ho & Hw & Hfit).
  destruct (fs_open_data _ _ _ _ Ho) as (Hcwd & _ & _ & Hq & _).
  pose proof (fs_open_root _ _ _ _ _ Ho) as Hroot0.
  rewrite (create_file_opened p contents None (Some perms) st st0 Ho Hw Hfit) in H.
  apply (f_equal fst) in H. cbn [fst] in H.
  change (default 384 (Some perms)) with perms in H.
  change (default "w" None) with "w" in H.
  rewrite (land_4095 _ Hrange) in H.
  change (written "w" (opened_data st p "w") contents) with contents in H.
  assert (Hloc1 : locate st1 p = locate st p).
  { rewrite <- H. unfold locate. rewrite logged_cwd.
    change (st_cwd (set_fs ?f st0)) with (st_cwd st0). rewrite Hcwd. reflexivity. }
  assert (Hfs1 : fs_of st1 = <[locate st p := File contents perms]> (fs_of st)).
  { rewrite <- H. unfold fs_of. rewrite logged_os. reflexivity. }
  assert (Hroot1 : st_root st1 = st_root st).
  { rewrite <- H, logged_root. exact Hroot0. }
  clear H Ho Hcwd Hroot0.
  assert (Hnode : node_at (fs_of st1) (locate st1 p) = Some (File contents perms)).
  { rewrite Hloc1, Hfs1. apply node_at_insert. exact Hq. }
  assert (Hperm : permitted st1 {| om_kind := Writing; om_update := false; om_binary := false |}
                    perms = st_root st || Z.testbit perms 7).
  { unfold permitted, readable, writable. cbn [om_kind om_update negb orb andb].
    rewrite Hroot1. reflexivity. }
  split.
  - intros Hbit.
    assert (Ho2 : fs_open p "w" st1
                  = (set_fs (<[locate st1 p := File EmptyString perms]> (fs_of st1)) st1, Ok tt)).
    { unfold fs_open.
      change (parse_mode "w")
        with (Ok {| om_kind := Writing; om_update := false; om_binary := false |}).
      cbv beta iota. rewrite Hnode. cbn [om_kind]. rewrite Hperm, Hbit. reflexivity. }
    rewrite (create_file_opened p contents None (Some perms) st1 _ Ho2 eq_refl Hfit).
    eexists. split; [reflexivity|].
    rewrite logged_os.
    change (default 384 (Some perms)) with perms.
    change (default "w" None) with "w".
    rewrite (land_4095 _ Hrange).
    change (written "w" (opened_data st1 p "w") contents) with contents.
    assert (Hsame : <[locate st1 p := File contents perms]> (fs_of st1) = fs_of st1).
    { rewrite Hloc1, Hfs1. apply insert_insert_eq. }
    rewrite Hsame.
    change (st_os (set_fs (fs_of st1) ?s)) with
      {| os_fs := fs_of st1; os_cron := os_cron (st_os s) |}.
    change (os_cron (st_os (set_fs ?f st1))) with (os_cron (st_os st1)).
    unfold fs_of. destruct (st_os st1); reflexivity.
  - intros Hnot Hbit. unfold create_file. change (default "w" None) with "w".
    assert (Ho2 : fs_open p "w" st1 = (st1, Raise (OSError PermissionError p))).
    { unfold fs_open.
      change (parse_mode "w")
        with (Ok {| om_kind := Writing; om_update := false; om_binary := false |}).
      cbv beta iota. rewrite Hnode. cbn [om_kind]. rewrite Hperm, Hnot, Hbit. reflexivity. }
    rewrite (bind_Raise _ _ _ _ _ Ho2). reflexivity.
Qed.

End CreateFile.

Lemma create_file_content_witness :
  data_of (fst (create_file "/home/u1/notes" "remember" None None (Demo.boot None)))
    "/home/u1/notes" = Some "remember".
Proof.
  refine (proj1 (create_file_content "/home/u1/notes" "remember" None None
                   (Demo.boot None) _ _) eq_refl).
  vm_compute. reflexivity.
Defined.

Lemma create_file_failures_witness :
  create_file "/nowhere/notes" "remember" None None (Demo.boot None)
  = (Demo.boot None, Raise (OSError FileNotFoundError "/nowhere/notes"))
  /\ (snd (create_file "/home/u1/notes" "remember" (Some "wb") None (Demo.boot None))
      = Raise TypeError
      /\ data_of (fst (create_file "/home/u1/notes" "remember" (Some "wb") None
                         (Demo.boot None))) "/home/u1/notes" = Some EmptyString)
  /\ exists st2,
       create_file "/home/u1/notes" "remember" None (Some 4294967296) (Demo.boot None)
       = (st2, Raise OverflowError)
       /\ data_of st2 "/home/u1/notes" = Some "remember".
Proof.
  split; [|split].
  - refine (proj1 (create_file_failures "/nowhere/notes" "remember" None None
                     (Demo.boot None)) _ _).
    vm_compute. reflexivity.
  - destruct (proj1 (proj2 (create_file_failures "/home/u1/notes" "remember" (Some "wb") None
                              (Demo.boot None)))
                _ {| om_kind := Writing; om_update := false; om_binary := true |}
                (surjective_pairing _)) as (Hrun & Hdata & _).
    + reflexivity.
    + reflexivity.
    + reflexivity.
    + rewrite Hrun. split; [reflexivity|]. exact Hdata.
  - destruct (proj2 (proj2 (create_file_failures "/home/u1/notes" "remember" None
                              (Some 4294967296) (Demo.boot None)))
                _ (surjective_pairing _) eq_refl eq_refl) as (st2 & Hrun & Hdata & _).
    exists st2. split; [exact Hrun|exact Hdata].
Defined.

Lemma create_file_again_witness :
  let st1 := fst (create_file "/home/u1/key" "secret" None (Some 256) (Demo.boot None)) in
  create_file "/home/u1/key" "secret" None (Some 256) st1
  = (st1, Raise (OSError PermissionError "/home/u1/key")).
Proof.
  intros st1.
  refine (proj2 (create_file_again "/home/u1/key" "secret" 256 (Demo.boot None) st1 _ _)
            eq_refl eq_refl).
  - lia.
  - vm_compute. reflexivity.
Defined.

(** ** download (lines 84-89) *)

Section Download.

(** What opening a URL yields: its content, or [None] when the request
    fails. *)
Variable fetch : string -> option string.

(** [urllib.request.urlretrieve(url, filename=...)]: open the URL, then
    write the bytes it serves to the file, which it opens with [wb],
    replacing what the file held. *)
Definition urlretrieve (url filename : string) : M unit :=
  match fetch url with
  | None => raise NetworkError
  | Some body => do fs_open filename "wb" then fs_write filename body
  end.

(** The [writemode] argument is accepted and never used, as in the source. *)
Definition download (url localfile : string) (writemode : option string) (perms : option Z)
    : M unit :=
  let writemode := default "wb" writemode in
  let perms := default 384 perms in
  do logging_info ("Downloading " ++ url ++ " as " ++ localfile
                   ++ " with permissions " ++ Num.oct perms) then
  do urlretrieve url localfile then
  do os_chmod localfile perms then
  logging_info ("Downloaded " ++ url ++ " as " ++ localfile
                ++ " with permissions " ++ Num.oct perms).

Lemma data_of_logged level msg st p : data_of (logged level msg st) p = data_of st p.
Proof. unfold data_of, fs_of, locate. rewrite logged_os, logged_cwd. reflexivity. Qed.

(** X10.  A download that succeeds leaves under the local name exactly what
    the URL served, with exactly the requested mode (0600 by default),
    whatever was there before.  When the URL cannot be fetched, [download]
    raises after its first log line and touches no file. *)
Theorem download_result url localfile writemode perms st :
  0 <= default 384 perms <= 4095 ->
  (forall body st',
     fetch url = Some body ->
     download url localfile writemode perms st = (st', Ok tt) ->
     data_of st' localfile = Some body
     /\ mode_of st' localfile = Some (default 384 perms))
  /\ (fetch url = None ->
      snd (download url localfile writemode perms st) = Raise NetworkError
      /\ st_os (fst (download url localfile writemode perms st)) = st_os st).
Proof.
  intros Hrange. split.
  - intros body st' Hfetch H. unfold download in H.
    unfold logging_info in H. rewrite (bind_Ok _ _ _ _ _ (logging_log_eq INFO _ st)) in H.
    match type of H with context [logged INFO ?m st] => set (st0 := logged INFO m st) in * end.
    unfold urlretrieve in H. rewrite Hfetch in H. rewrite bind_assoc in H.
    destruct (fs_open localfile "wb" st0) as [st1 [[]|e]] eqn:Ho;
      [rewrite (bind_Ok _ _ _ _ _ Ho) in H|rewrite (bind_Raise _ _ _ _ _ Ho) in H; discriminate].
    destruct (fs_open_data _ _ _ _ Ho) as (Hcwd & _ & _ & Hq & m & Hfs & _).
    assert (Hloc : locate st1 localfile = locate st0 localfile)
      by (unfold locate; rewrite Hcwd; reflexivity).
    assert (Hn : node_at (fs_of st1) (locate st1 localfile)
                 = Some (File (opened_data st0 localfile "wb") m))
      by (rewrite Hloc, Hfs; apply node_at_insert; exact Hq).
    rewrite (bind_Ok _ _ _ _ _ (fs_write_file localfile body st1 _ _ Hn)) in H.
    unfold os_chmod in H. unfold bind at 1 in H.
    rewrite (fits_int_mode _ Hrange) in H. cbn [negb] in H.
    change (locate (set_fs ?f st1) localfile) with (locate st1 localfile) in H.
    change (fs_of (set_fs ?f st1)) with f in H.
    rewrite (node_at_insert _ _ _ (eq_ind_r (fun q => q <> nil) Hq Hloc)) in H.
    rewrite logging_log_eq in H. apply (f_equal fst) in H. cbn [fst] in H.
    rewrite <- H. unfold data_of, mode_of, fs_of, locate.
    rewrite logged_os, logged_cwd.
    change (st_cwd (set_fs ?f (set_fs ?g st1))) with (st_cwd st1).
    change (os_fs (st_os (set_fs ?f ?s))) with f.
    fold (locate st1 localfile).
    rewrite (node_at_insert _ _ _ (eq_ind_r (fun q => q <> nil) Hq Hloc)).
    rewrite (land_4095 _ Hrange). split; reflexivity.
  - intros Hfetch. unfold download, logging_info.
    rewrite (bind_Ok _ _ _ _ _ (logging_log_eq INFO _ st)).
    unfold urlretrieve. rewrite Hfetch. simpl. rewrite logged_os. auto.
Qed.

End Download.

Lemma download_result_witness :
  data_of (fst (download (fun _ => Some "#!/bin/sh") "https://example.org/get.sh"
                  "/home/u1/get.sh" None (Some 448) (Demo.boot None)))
    "/home/u1/get.sh" = Some "#!/bin/sh"
  /\ mode_of (fst (download (fun _ => Some "#!/bin/sh") "https://example.org/get.sh"
                     "/home/u1/get.sh" None (Some 448) (Demo.boot None)))
       "/home/u1/get.sh" = Some 448.
Proof.
  refine (proj1 (download_result (fun _ => Some "#!/bin/sh") "https://example.org/get.sh"
                   "/home/u1/get.sh" None (Some 448) (Demo.boot None) _)
            "#!/bin/sh" _ eq_refl _).
  - simpl. lia.
  - vm_compute. reflexivity.
Defined.

(** ** The orchestrator's steps *)

Section Steps.

Variable P : platform.

(** X11.  [main] ends normally exactly when everything before the
    notification completed and the server answered the notification with a
    JSON body; the content of that answer is not looked at. *)
Theorem main_succeeds_iff args st :
  snd (main P args st) = Ok tt
  <-> exists api v,
        snd (install P args st) = Ok api
        /\ server P (st_tick (fst (install P args st))) (notification api args) = Body (Some v).
Proof.
  unfold main.
  destruct (install P args st) as [st1 [api|e]] eqn:Hin.
  - rewrite (bind_Ok _ _ _ _ _ Hin). cbn [fst snd].
    unfold notify_installed, api_post.
    change (https P _) with (https P (notification api args)).
    unfold bind. rewrite https_eq.
    destruct (server P (st_tick st1) (notification api args)) as [|[v|]] eqn:Hs; cbn [snd].
    + split; [discriminate|]. intros (a & v & Ha & Hv).
      inversion Ha. subst a. rewrite Hs in Hv. discriminate.
    + split; [intros _; exists api, v; auto|reflexivity].
    + split; [discriminate|]. intros (a & v & Ha & Hv).
      inversion Ha. subst a. rewrite Hs in Hv. discriminate.
  - rewrite (bind_Raise _ _ _ _ _ Hin). cbn [fst snd].
    split; [discriminate|]. intros (a & v & Ha & _). discriminate.
Qed.

(** The app-read request of line 135. *)
Definition app_read (api : OpalstackAPITool) (args : Args) : request :=
  {| rq_method := "GET"; rq_host := host api;
     rq_endpoint := base_uri api ++ "/app/read/" ++ fmt P (app_uuid args);
     rq_body := None; rq_headers := headers api |}.

(** Does the reply carry both names that line 136 and 137 read? *)
Definition names_of (v : pyval) : result (pyval * pyval) :=
  match v with
  | PDict d =>
      match dict_get "osuser_name" d with
      | None => Raise (KeyError "osuser_name")
      | Some osuser =>
          match dict_get "name" d with
          | None => Raise (KeyError "name")
          | Some name => Ok (osuser, name)
          end
      end
  | _ => Raise TypeError
  end.

(** X12.  When the answer to the app-read request is not a JSON object, or
    is an object without [osuser_name] or without [name], the first step
    raises ([TypeError], or [KeyError] with the missing key) before any
    directory is created: files, crontab and CMD_ENV are as before and no
    command has run. *)
Theorem prepare_appdir_needs_both_names api args st v e :
  server P (st_tick st) (app_read api args) = Body (Some v) ->
  names_of v = Raise e ->
  snd (prepare_appdir P api args st) = Raise e
  /\ st_os (fst (prepare_appdir P api args st)) = st_os st
  /\ st_env (fst (prepare_appdir P api args st)) = st_env st
  /\ runs (st_trace (fst (prepare_appdir P api args st))) = runs (st_trace st).
Proof.
  intros Hreply Hnames.
  assert (Hget : api_get P api ("/app/read/" ++ fmt P (app_uuid args)) st
                 = (tick (record (EvHttp (app_read api args)) st), Ok v)).
  { unfold api_get. change (https P _ st) with (https P (app_read api args) st).
    rewrite https_eq, Hreply. reflexivity. }
  unfold prepare_appdir. rewrite (bind_Ok _ _ _ _ _ Hget).
  assert (Hruns : runs (st_trace (tick (record (EvHttp (app_read api args)) st)))
                  = runs (st_trace st))
    by (simpl; rewrite runs_app; simpl; apply app_nil_r).
  unfold names_of in Hnames.
  destruct v; try (inversion Hnames; subst e; cbn; auto).
  destruct (dict_get "osuser_name" d) as [osuser|] eqn:Ho.
  - destruct (dict_get "name" d) as [name|] eqn:Hn; [discriminate|].
    inversion Hnames. subst e.
    unfold bind at 1. simpl py_item. rewrite Ho.
    unfold bind at 1. simpl py_item. rewrite Hn. cbn. auto.
  - inversion Hnames. subst e.
    unfold bind at 1. simpl py_item. rewrite Ho. cbn. auto.
Qed.

Lemma join_absolute a b :
  Text.starts_with_slash a = true -> Text.starts_with_slash (Path.join a b) = true.
Proof.
  intros Ha. unfold Path.join.
  destruct (Text.starts_with_slash b) eqn:Hb; [exact Hb|].
  destruct (negb (nonempty a) || Text.ends_with_slash a);
    apply starts_with_slash_app; exact Ha.
Qed.

(** X13.  When the scaffold step returns normally for an absolute
    application directory, [demo-site] is a directory and it is the working
    directory of the script. *)
Theorem create_demo_site_enters_site appdir st st' r :
  Text.starts_with_slash appdir = true ->
  create_demo_site P appdir st = (st', Ok r) ->
  r = Path.join appdir "demo-site"
  /\ isdir_at st' r = true
  /\ st_cwd st' = Path.show (Path.resolve "/" r).
Proof.
  intros Habs H. unfold create_demo_site in H.
  rewrite (bind_Ok _ _ st st (isdir_at st (Path.join appdir "demo-site")) eq_refl) in H.
  match type of H with
  | bind ?m _ _ = _ => destruct (m st) as [st2 [[]|e]] eqn:Hm
  end; [rewrite (bind_Ok _ _ _ _ _ Hm) in H|rewrite (bind_Raise _ _ _ _ _ Hm) in H; discriminate].
  clear Hm.
  pose proof (join_absolute appdir "demo-site" Habs) as Hjoin.
  unfold os_chdir in H. unfold bind at 1 in H.
  rewrite (locate_absolute st2 _ Hjoin) in H.
  destruct (node_at (fs_of st2) (Path.resolve "/" (Path.join appdir "demo-site")))
    as [[d m|m]|] eqn:Hn; try discriminate.
  inversion H. clear H.
  split; [reflexivity|]. split; [|reflexivity].
  unfold isdir_at. rewrite (locate_absolute _ _ Hjoin).
  change (fs_of (set_cwd ?c st2)) with (fs_of st2). rewrite Hn. reflexivity.
Qed.


End Steps.

Lemma prepare_appdir_needs_both_names_witness :
  snd (prepare_appdir Demo.deny_machine
         {| host := "my.opalstack.com"; base_uri := API_BASE_URI;
            headers := token_headers Demo.deny_machine (PStr "t0k3n") |}
         Demo.args_token (Demo.boot None))
  = Raise (KeyError "osuser_name").
Proof.
  refine (proj1 (prepare_appdir_needs_both_names Demo.deny_machine _ Demo.args_token
                   (Demo.boot None)
                   (PDict (("detail", PStr "Unable to log in") :: nil))
                   (KeyError "osuser_name") _ _)); reflexivity.
Defined.

Lemma create_demo_site_enters_site_witness :
  st_cwd (fst (create_demo_site Demo.machine "/home/u1" (Demo.boot None)))
  = "/home/u1/demo-site".
Proof.
  refine (proj2 (proj2 (create_demo_site_enters_site Demo.machine "/home/u1" (Demo.boot None)
                          _ (Path.join "/home/u1" "demo-site") eq_refl _))).
  vm_compute. reflexivity.
Defined.

(** A machine on which every command exits with status 1 and changes
    nothing. *)
Definition failing_machine : platform := {|
  spawn := fun _ _ _ _ o => (o, Exited 1 EmptyString "command failed");
  server := server Demo.machine;
  entropy := entropy Demo.machine;
  dedent := dedent Demo.machine;
  py_repr := py_repr Demo.machine;
  today_iso := today_iso Demo.machine;
  now_stamp := now_stamp Demo.machine;
  home := home Demo.machine;
  environ := environ Demo.machine;
|}.


(** ** Directories made by the first step *)

Lemma mkdirs_keeps (name : string) (ok : bool) (umask : Z) (chain : list location)
    (fs fs' : gmap location node) (k : location) (x : node) :
  mkdirs name ok umask chain fs = Ok fs' -> fs !! k = Some x -> fs' !! k = Some x.
Proof.
  revert fs. induction chain as [|q rest IH]; intros fs H Hk.
  - inversion H. subst. exact Hk.
  - simpl in H. destruct (fs !! q) as [[d m|m]|] eqn:Hq.
    + destruct rest; discriminate.
    + destruct rest as [|q' rest'].
      * destruct ok; [|discriminate]. inversion H. subst. exact Hk.
      * exact (IH fs H Hk).
    + apply (IH _ H). rewrite lookup_insert_ne; [exact Hk|].
      intros ->. rewrite Hq in Hk. discriminate.
Qed.

(** After a successful [makedirs] every directory on the way is there. *)
Lemma mkdirs_all (name : string) (ok : bool) (umask : Z) (chain : list location)
    (fs fs' : gmap location node) (q : location) :
  mkdirs name ok umask chain fs = Ok fs' -> In q chain ->
  exists m, fs' !! q = Some (Dir m).
Proof.
  revert fs. induction chain as [|q0 rest IH]; intros fs H Hin; [destruct Hin|].
  simpl in H. destruct Hin as [->|Hin].
  - destruct (fs !! q) as [[d m|m]|] eqn:Hq.
    + destruct rest; discriminate.
    + exists m. destruct rest as [|q' rest'].
      * destruct ok; [|discriminate]. inversion H. subst. exact Hq.
      * exact (mkdirs_keeps _ _ _ _ _ _ _ _ H Hq).
    + exists (masked 511 umask).
      apply (mkdirs_keeps _ _ _ _ _ _ _ _ H). apply lookup_insert_eq.
  - destruct (fs !! q0) as [[d m|m]|] eqn:Hq.
    + destruct rest; discriminate.
    + destruct rest as [|q' rest']; [destruct Hin|]. exact (IH fs H Hin).
    + exact (IH _ H Hin).
Qed.

Lemma chain_app (above x y : location) :
  Path.chain above (x ++ y)%list
  = (Path.chain above x ++ Path.chain (above ++ x)%list y)%list.
Proof.
  revert above. induction x as [|c x IH]; intros above; simpl.
  - rewrite app_nil_r. reflexivity.
  - rewrite IH, <- app_assoc. reflexivity.
Qed.

Lemma chain_self (above q : location) :
  q <> nil -> In (above ++ q)%list (Path.chain above q).
Proof.
  revert above. induction q as [|c q IH]; intros above Hq; [contradiction|].
  simpl. destruct q as [|c' q'].
  - left. reflexivity.
  - right. specialize (IH (above ++ c :: nil)%list).
    rewrite <- app_assoc in IH. apply IH. discriminate.
Qed.

Lemma os_makedirs_ok (p : string) (exist_ok : bool) (st st' : state) :
  os_makedirs p exist_ok st = (st', Ok tt) ->
  st_cwd st' = st_cwd st
  /\ st_env st' = st_env st
  /\ os_cron (st_os st') = os_cron (st_os st)
  /\ (forall q, In q (Path.chain nil (locate st p)) -> exists m, fs_of st' !! q = Some (Dir m))
  /\ (forall k x, fs_of st !! k = Some x -> fs_of st' !! k = Some x).
Proof.
  unfold os_makedirs. intros H.
  destruct (locate st p) as [|c q] eqn:Hloc.
  - destruct exist_ok; inversion H. subst.
    repeat (split; [reflexivity|]). split; [intros q []|auto].
  - destruct (mkdirs p exist_ok (st_umask st) (Path.chain nil (c :: q)) (fs_of st))
      as [fs'|e] eqn:Hm; inversion H. subst. clear H.
    repeat (split; [reflexivity|]). split.
    + intros q0 Hin. exact (mkdirs_all _ _ _ _ _ _ _ Hm Hin).
    + intros k x Hk. exact (mkdirs_keeps _ _ _ _ _ _ _ _ Hm Hk).
Qed.

Lemma resolve_join_name cwd a (name : string) :
  Text.starts_with_slash a = true ->
  Text.starts_with_slash name = false ->
  Path.keep name = true ->
  all_chars (fun d => negb (Ascii.eqb d "/"%char)) name = true ->
  Path.resolve cwd (Path.join a name) = (Path.resolve cwd a ++ name :: nil)%list.
Proof.
  intros Habs Hrel Hkeep Hplain.
  assert (Hne : nonempty a = true) by (destruct a; [discriminate|reflexivity]).
  assert (Hsplit : forall x, Path.resolve cwd (x ++ String "/"%char name)
                             = (List.filter Path.keep (Text.split_on "/"%char x) ++ name :: nil)%list
                             \/ Text.starts_with_slash x = false).
  { intros x. destruct (Text.starts_with_slash x) eqn:E; [left|right; reflexivity].
    unfold Path.resolve. rewrite (starts_with_slash_app _ _ E).
    rewrite split_on_app, List.filter_app, (split_on_absent _ _ Hplain).
    simpl. rewrite Hkeep. reflexivity. }
  unfold Path.join. rewrite Hrel, Hne. change (negb true) with false. rewrite orb_false_l.
  destruct (Text.ends_with_slash a) eqn:E.
  - destruct (ends_with_slash_inv _ E) as [a' Ha].
    rewrite Ha at 1. rewrite string_app_assoc.
    change ("/" ++ name) with (String "/"%char name).
    unfold Path.resolve at 2. rewrite Habs.
    destruct (Text.starts_with_slash a') eqn:E'.
    + destruct (Hsplit a') as [->|Hx]; [|congruence].
      rewrite Ha. change (a' ++ "/") with (a' ++ String "/"%char EmptyString).
      rewrite split_on_app, List.filter_app. simpl. rewrite app_nil_r. reflexivity.
    + destruct a' as [|c a'']; [|].
      * change (EmptyString ++ String "/"%char name) with (String "/"%char name).
        rewrite Ha. unfold Path.resolve. simpl Text.starts_with_slash. cbv iota.
        simpl Text.split_on. rewrite (split_on_absent _ _ Hplain).
        simpl. rewrite Hkeep. reflexivity.
      * rewrite Ha in Habs. rewrite append_cons in Habs. simpl in Habs, E'. congruence.
  - change (a ++ "/" ++ name) with (a ++ String "/"%char name).
    destruct (Hsplit a) as [->|Hx]; [|congruence].
    unfold Path.resolve. rewrite Habs. reflexivity.
Qed.

Lemma bind_inv {A B} (m : M A) (k : A -> M B) st st' b :
  bind m k st = (st', Ok b) -> exists st1 a, m st = (st1, Ok a) /\ k a st1 = (st', Ok b).
Proof.
  unfold bind. destruct (m st) as [st1 [a|e]]; [eauto|discriminate].
Qed.

Section FirstStep.

Variable P : platform.

Lemma isdir_of_chain (st : state) (p : string) (q : location) :
  Text.starts_with_slash p = true ->
  Path.resolve "/" p = q ->
  (q <> nil -> exists m, fs_of st !! q = Some (Dir m)) ->
  isdir_at st p = true.
Proof.
  intros Habs Hq Hdir. unfold isdir_at. rewrite (locate_absolute _ _ Habs), Hq.
  destruct q as [|c q']; [reflexivity|].
  destruct Hdir as [m Hm]; [discriminate|]. simpl. rewrite Hm. reflexivity.
Qed.

(** X15.  When the first step returns, the app-read answer carried both
    names, the application directory returned is
    [/home/<osuser_name>/apps/<name>], that directory and its [tmp]
    subdirectory exist as directories, every file or directory there was
    before is still there, and CMD_ENV has gained TMPDIR and GEM_HOME (both
    the [tmp] directory) and HOME, its PATH being the one it had. *)
Theorem prepare_appdir_postcondition api args st st' appdir :
  prepare_appdir P api args st = (st', Ok appdir) ->
  exists v osuser name,
    server P (st_tick st) (app_read P api args) = Body (Some v)
    /\ names_of v = Ok (osuser, name)
    /\ appdir = "/home/" ++ fmt P osuser ++ "/apps/" ++ fmt P name
    /\ isdir_at st' appdir = true
    /\ isdir_at st' (Path.join appdir "tmp") = true
    /\ (forall k x, fs_of st !! k = Some x -> fs_of st' !! k = Some x)
    /\ st_env st'
       = <["HOME" := "/home/" ++ fmt P osuser]>
           (<["GEM_HOME" := Path.join appdir "tmp"]>
              (<["TMPDIR" := Path.join appdir "tmp"]> (st_env st)))
    /\ st_env st' !! "PATH" = st_env st !! "PATH".
Proof.
  intros H. unfold prepare_appdir in H.
  apply bind_inv in H. destruct H as (st1 & v & Hget & H).
  unfold api_get in Hget.
  change (https P _ st) with (https P (app_read P api args) st) in Hget.
  rewrite https_eq in Hget.
  destruct (server P (st_tick st) (app_read P api args)) as [|[v0|]] eqn:Hs;
    try discriminate.
  inversion Hget. subst v0. clear Hget.
  assert (Hfs1 : fs_of st1 = fs_of st) by (subst st1; reflexivity).
  assert (Henv1 : st_env st1 = st_env st) by (subst st1; reflexivity).
  match goal with Hst : _ = st1 |- _ => clear Hst end.
  apply bind_inv in H. destruct H as (st1' & osuser & Ho & H).
  apply bind_inv in H. destruct H as (st1'' & name & Hn & H).
  assert (Hnames : names_of v = Ok (osuser, name) /\ st1'' = st1).
  { unfold py_item in Ho, Hn. unfold names_of. destruct v; try discriminate.
    destruct (dict_get "osuser_name" d) as [x|]; [|discriminate].
    destruct (dict_get "name" d) as [y|]; [|discriminate].
    inversion Ho. inversion Hn. subst. auto. }
  destruct Hnames as [Hnames ->]. clear Ho Hn st1'.
  exists v, osuser, name. split; [reflexivity|]. split; [exact Hnames|].
  set (dir := "/home/" ++ fmt P osuser ++ "/apps/" ++ fmt P name) in *.
  assert (Habs : Text.starts_with_slash dir = true) by reflexivity.
  apply bind_inv in H. destruct H as (st1' & present & Hp & H).
  inversion Hp. subst st1' present. clear Hp.
  apply bind_inv in H. destruct H as (st2 & [] & Hmk1 & H).
  apply bind_inv in H. destruct H as (st3 & [] & Hmk2 & H).
  apply bind_inv in H. destruct H as (st4 & [] & Hmod & H).
  inversion H. subst st4 appdir. clear H.
  inversion Hmod. clear Hmod.
  assert (H2 : st_cwd st2 = st_cwd st1 /\ st_env st2 = st_env st1
               /\ forall k x, fs_of st1 !! k = Some x -> fs_of st2 !! k = Some x).
  { destruct (negb (exists_at st1 dir)).
    - destruct (os_makedirs_ok _ _ _ _ Hmk1) as (? & ? & _ & _ & ?). auto.
    - inversion Hmk1. auto. }
  destruct H2 as (_ & Henv2 & Hkeep2). clear Hmk1.
  destruct (os_makedirs_ok _ _ _ _ Hmk2) as (_ & Henv3 & _ & Hall & Hkeep3).
  clear Hmk2.
  assert (Hloc : locate st2 (Path.join dir "tmp")
                 = (Path.resolve "/" dir ++ "tmp" :: nil)%list).
  { unfold locate. rewrite (resolve_join_name _ dir "tmp" Habs); reflexivity. }
  rewrite Hloc, chain_app in Hall.
  split; [reflexivity|].
  split.
  { apply (isdir_of_chain _ dir (Path.resolve "/" dir) Habs eq_refl).
    intros Hne. change (fs_of (set_env _ st3)) with (fs_of st3).
    apply Hall. apply in_or_app. left.
    exact (chain_self nil _ Hne). }
  split.
  { apply (isdir_of_chain _ _ (Path.resolve "/" dir ++ "tmp" :: nil)%list
             (join_absolute dir "tmp" Habs)).
    - rewrite <- Hloc. symmetry. apply locate_absolute. exact (join_absolute dir "tmp" Habs).
    - intros _. change (fs_of (set_env _ st3)) with (fs_of st3).
      apply Hall. apply in_or_app. right.
      change (nil ++ Path.resolve "/" dir)%list with (Path.resolve "/" dir).
      apply chain_self. discriminate. }
  split.
  { intros k x Hk. change (fs_of (set_env _ st3)) with (fs_of st3).
    apply Hkeep3, Hkeep2. rewrite Hfs1. exact Hk. }
  assert (Henv : st_env st3 = st_env st) by congruence.
  split.
  { change (st_env (set_env ?e st3)) with e. rewrite Henv. reflexivity. }
  change (st_env (set_env ?e st3)) with e. rewrite Henv.
  rewrite !lookup_insert_ne by discriminate. reflexivity.
Qed.

End FirstStep.

Definition demo_api : OpalstackAPITool :=
  {| host := "my.opalstack.com"; base_uri := API_BASE_URI;
     headers := ("Content-type", "application/json")
                :: ("Authorization", "Token t0k3n") :: nil |}.

Lemma prepare_appdir_postcondition_witness :
  isdir_at (fst (prepare_appdir Demo.machine demo_api Demo.args_token (Demo.boot None)))
    "/home/u1/apps/app1/tmp" = true.
Proof.
  assert (H : prepare_appdir Demo.machine demo_api Demo.args_token (Demo.boot None)
              = (fst (prepare_appdir Demo.machine demo_api Demo.args_token (Demo.boot None)),
                 Ok "/home/u1/apps/app1")).
  { vm_compute. reflexivity. }
  destruct (prepare_appdir_postcondition _ _ _ _ _ _ H)
    as (v & o & n & _ & _ & _ & _ & Hd & _).
  exact Hd.
Defined.

(** ** The environment of the gem commands *)

(** The subprocess calls of a trace, each with the environment and the
    working directory it was given. *)
Fixpoint calls (tr : list event)
    : list (list string * gmap string string * option string) :=
  match tr with
  | nil => nil
  | EvRun argv env cwd :: rest => (argv, env, cwd) :: calls rest
  | _ :: rest => calls rest
  end.

Lemma calls_app tr1 tr2 : calls (tr1 ++ tr2)%list = (calls tr1 ++ calls tr2)%list.
Proof.
  induction tr1 as [|e tr1 IH]; [reflexivity|].
  destruct e; simpl; rewrite IH; reflexivity.
Qed.

Lemma logged_calls level msg st : calls (st_trace (logged level msg st)) = calls (st_trace st).
Proof.
  unfold logged. destruct (Z.leb _ _); [|reflexivity].
  simpl. rewrite calls_app. simpl. apply app_nil_r.
Qed.

Definition gem_install_argv : list string :=
  "gem" :: "install" :: "jekyll" :: "bundler" :: "--user-install" :: nil.

Definition ruby_argv : list string :=
  "ruby" :: "-r" :: "rubygems" :: "-e" :: "puts Gem.user_dir" :: nil.

Definition jekyll_v_argv : list string := "jekyll" :: "-v" :: nil.

Lemma split_gem_install :
  Shlex.split "gem install jekyll bundler --user-install" = Some gem_install_argv.
Proof. vm_compute. reflexivity. Qed.

Lemma split_ruby :
  Shlex.split "ruby -r rubygems -e 'puts Gem.user_dir'" = Some ruby_argv.
Proof. vm_compute. reflexivity. Qed.

Lemma split_jekyll_v : Shlex.split "jekyll -v" = Some jekyll_v_argv.
Proof. vm_compute. reflexivity. Qed.

Section GemCommands.

Variable P : platform.

Lemma after_command_env cmd argv env cwd os' code out st :
  st_env (after_command P cmd argv env cwd os' code out st) = st_env st.
Proof.
  unfold after_command. destruct (Z.eqb code 0); rewrite ?logged_env; simpl;
    rewrite logged_env; reflexivity.
Qed.

Lemma after_command_calls cmd argv env cwd os' code out st :
  calls (st_trace (after_command P cmd argv env cwd os' code out st))
  = (calls (st_trace st) ++ (argv, env, cwd) :: nil)%list.
Proof.
  unfold after_command. destruct (Z.eqb code 0); rewrite ?logged_calls; simpl;
    rewrite calls_app, logged_calls; reflexivity.
Qed.

Lemma decode_valid b st : Utf8.valid b = true -> decode b st = (st, Ok b).
Proof. intros H. unfold decode, Utf8.decode. rewrite H. reflexivity. Qed.

Lemma logging_inv level msg st st' u :
  logging_log level msg st = (st', Ok u) -> st' = logged level msg st.
Proof. rewrite logging_log_eq. intros H. inversion H. reflexivity. Qed.

(** The gem installation, given how its three commands end: each of them
    exits, with whatever status, and what [ruby] and [jekyll -v] print is
    UTF-8. *)
Lemma install_jekyll_runs appdir st old o1 c1 out1 e1 o2 c2 out2 e2 o3 c3 out3 e3 :
  st_env st !! "PATH" = Some old ->
  spawn P (st_tick st) gem_install_argv (st_env st) (Some appdir) (st_os st)
  = (o1, Exited c1 out1 e1) ->
  spawn P (S (st_tick st)) ruby_argv (st_env st) (Some appdir) o1
  = (o2, Exited c2 out2 e2) ->
  Utf8.valid out2 = true ->
  spawn P (S (S (st_tick st))) jekyll_v_argv
    (<["PATH" := Text.strip_ws out2 ++ "/bin:" ++ old]> (st_env st)) (Some appdir) o2
  = (o3, Exited c3 out3 e3) ->
  Utf8.valid out3 = true ->
  exists st',
    install_jekyll P appdir st = (st', Ok tt)
    /\ st_env st' = <["PATH" := Text.strip_ws out2 ++ "/bin:" ++ old]> (st_env st)
    /\ st_os st' = o3
    /\ calls (st_trace st')
       = (calls (st_trace st)
          ++ (gem_install_argv, st_env st, Some appdir)
          :: (ruby_argv, st_env st, Some appdir)
          :: (jekyll_v_argv,
              <["PATH" := (Text.strip_ws out2 ++ "/bin:" ++ old)%string]> (st_env st),
              Some appdir) :: nil)%list.
Proof.
  intros Hold Hgem Hruby Hvalid2 Hjekyll Hvalid3.
  unfold install_jekyll, logging_info.
  rewrite (bind_Ok _ _ _ _ _ (logging_log_eq INFO _ st)).
  match goal with |- context [logged INFO ?m st] => remember (logged INFO m st) as s0 eqn:Hs0 end.
  assert (Henv0 : st_env s0 = st_env st) by (rewrite Hs0; apply logged_env).
  assert (Htick0 : st_tick s0 = st_tick st) by (rewrite Hs0; apply logged_tick).
  assert (Hos0 : st_os s0 = st_os st) by (rewrite Hs0; apply logged_os).
  assert (Hcalls0 : calls (st_trace s0) = calls (st_trace st)) by (rewrite Hs0; apply logged_calls).
  clear Hs0.
  rewrite (bind_Ok _ _ s0 s0 (st_env s0) eq_refl). rewrite Henv0.
  rewrite <- Htick0, <- Hos0 in Hgem.
  rewrite (bind_Ok _ _ _ _ _
             (run_command_exited P _ _ _ s0 gem_install_argv o1 c1 out1 e1 split_gem_install Hgem)).
  remember (after_command P "gem install jekyll bundler --user-install" gem_install_argv
              (st_env st) (Some appdir) o1 c1 out1 s0) as s1 eqn:Hs1.
  assert (Henv1 : st_env s1 = st_env st) by (rewrite Hs1, after_command_env; exact Henv0).
  assert (Htick1 : st_tick s1 = S (st_tick st))
    by (rewrite Hs1, after_command_tick, Htick0; reflexivity).
  assert (Hos1 : st_os s1 = o1) by (rewrite Hs1; apply after_command_os).
  assert (Hcalls1 : calls (st_trace s1)
                    = (calls (st_trace st) ++ (gem_install_argv, st_env st, Some appdir) :: nil)%list)
    by (rewrite Hs1, after_command_calls, Hcalls0; reflexivity).
  clear Hs1 Hgem Henv0 Htick0 Hos0 Hcalls0.
  rewrite (bind_Ok _ _ s1 s1 (st_env s1) eq_refl). rewrite Henv1.
  rewrite <- Htick1, <- Hos1 in Hruby.
  rewrite (bind_Ok _ _ _ _ _
             (run_command_exited P _ _ _ s1 ruby_argv o2 c2 out2 e2 split_ruby Hruby)).
  remember (after_command P "ruby -r rubygems -e 'puts Gem.user_dir'" ruby_argv
              (st_env st) (Some appdir) o2 c2 out2 s1) as s2 eqn:Hs2.
  assert (Henv2 : st_env s2 = st_env st) by (rewrite Hs2, after_command_env; exact Henv1).
  assert (Htick2 : st_tick s2 = S (S (st_tick st)))
    by (rewrite Hs2, after_command_tick, Htick1; reflexivity).
  assert (Hos2 : st_os s2 = o2) by (rewrite Hs2; apply after_command_os).
  assert (Hcalls2 : calls (st_trace s2)
                    = (calls (st_trace st) ++ (gem_install_argv, st_env st, Some appdir)
                       :: (ruby_argv, st_env st, Some appdir) :: nil)%list)
    by (rewrite Hs2, after_command_calls, Hcalls1, <- app_assoc; reflexivity).
  clear Hs2 Hruby Henv1 Htick1 Hos1 Hcalls1.
  rewrite (bind_Ok _ _ _ _ _ (decode_valid out2 s2 Hvalid2)).
  rewrite (bind_Ok _ _ _ _ _ (logging_log_eq INFO _ s2)).
  match goal with |- context [logged INFO ?m s2] => remember (logged INFO m s2) as s3 eqn:Hs3 end.
  assert (Henv3 : st_env s3 = st_env st) by (rewrite Hs3, logged_env; exact Henv2).
  assert (Htick3 : st_tick s3 = S (S (st_tick st))) by (rewrite Hs3, logged_tick; exact Htick2).
  assert (Hos3 : st_os s3 = o2) by (rewrite Hs3, logged_os; exact Hos2).
  assert (Hcalls3 : calls (st_trace s3) = calls (st_trace s2)) by (rewrite Hs3; apply logged_calls).
  clear Hs3 Henv2 Htick2 Hos2.
  assert (Hitem : env_item "PATH" s3 = (s3, Ok old))
    by (unfold env_item; rewrite Henv3, Hold; reflexivity).
  rewrite (bind_Ok _ _ _ _ _ Hitem). clear Hitem.
  rewrite bind_modify. rewrite Henv3.
  remember (<["PATH" := Text.strip_ws out2 ++ "/bin:" ++ old]> (st_env st)) as env' eqn:Henv'.
  remember (set_env env' s3) as s4 eqn:Hs4.
  assert (Henv4 : st_env s4 = env') by (rewrite Hs4; reflexivity).
  assert (Htick4 : st_tick s4 = S (S (st_tick st))) by (rewrite Hs4; exact Htick3).
  assert (Hos4 : st_os s4 = o2) by (rewrite Hs4; exact Hos3).
  assert (Hcalls4 : calls (st_trace s4) = calls (st_trace s2)) by (rewrite Hs4; exact Hcalls3).
  clear Hs4 Henv3 Htick3 Hos3 Hcalls3.
  rewrite (bind_Ok _ _ s4 s4 (st_env s4) eq_refl). rewrite Henv4.
  rewrite <- Htick4, <- Hos4 in Hjekyll.
  rewrite (bind_Ok _ _ _ _ _
             (run_command_exited P _ _ _ s4 jekyll_v_argv o3 c3 out3 e3 split_jekyll_v Hjekyll)).
  remember (after_command P "jekyll -v" jekyll_v_argv env' (Some appdir) o3 c3 out3 s4)
    as s5 eqn:Hs5.
  assert (Henv5 : st_env s5 = env') by (rewrite Hs5, after_command_env; exact Henv4).
  assert (Hos5 : st_os s5 = o3) by (rewrite Hs5; apply after_command_os).
  assert (Hcalls5 : calls (st_trace s5)
                    = (calls (st_trace s2) ++ (jekyll_v_argv, env', Some appdir) :: nil)%list)
    by (rewrite Hs5, after_command_calls, Hcalls4; reflexivity).
  clear Hs5 Hjekyll Henv4 Htick4 Hos4 Hcalls4.
  rewrite (bind_Ok _ _ _ _ _ (decode_valid out3 s5 Hvalid3)).
  rewrite logging_log_eq.
  eexists. split; [reflexivity|].
  rewrite logged_env, logged_os, logged_calls, Hcalls5, Hcalls2, <- app_assoc.
  auto.
Qed.

(** X16.  The gem installation runs exactly three commands, all in the
    application directory: [gem install] and [ruby] with CMD_ENV as it was,
    then [jekyll -v] with the CMD_ENV the step leaves behind.  When each of
    them exits, with whatever status, and the outputs of [ruby] and of
    [jekyll -v] are UTF-8, the step completes, and the new CMD_ENV differs
    from the old one only in PATH: what [ruby] printed, white space removed
    at both ends, followed by [/bin:], is put before the old PATH. *)
Theorem install_jekyll_environment appdir st old o1 c1 out1 e1 o2 c2 out2 e2 o3 c3 out3 e3 :
  st_env st !! "PATH" = Some old ->
  spawn P (st_tick st) gem_install_argv (st_env st) (Some appdir) (st_os st)
  = (o1, Exited c1 out1 e1) ->
  spawn P (S (st_tick st)) ruby_argv (st_env st) (Some appdir) o1
  = (o2, Exited c2 out2 e2) ->
  Utf8.valid out2 = true ->
  spawn P (S (S (st_tick st))) jekyll_v_argv
    (<["PATH" := Text.strip_ws out2 ++ "/bin:" ++ old]> (st_env st)) (Some appdir) o2
  = (o3, Exited c3 out3 e3) ->
  Utf8.valid out3 = true ->
  exists st',
    install_jekyll P appdir st = (st', Ok tt)
    /\ st_env st' = <["PATH" := Text.strip_ws out2 ++ "/bin:" ++ old]> (st_env st)
    /\ (forall key, key <> "PATH" -> st_env st' !! key = st_env st !! key)
    /\ calls (st_trace st')
       = (calls (st_trace st)
          ++ (gem_install_argv, st_env st, Some appdir)
          :: (ruby_argv, st_env st, Some appdir)
          :: (jekyll_v_argv, st_env st', Some appdir) :: nil)%list.
Proof.
  intros Hold Hgem Hruby Hvalid2 Hjekyll Hvalid3.
  destruct (install_jekyll_runs appdir st old _ _ _ _ _ _ _ _ _ _ _ _
              Hold Hgem Hruby Hvalid2 Hjekyll Hvalid3)
    as (st' & Hrun & Henv & _ & Hcalls).
  exists st'. split; [exact Hrun|]. split; [exact Henv|]. split.
  - intros key Hkey. rewrite Henv. apply lookup_insert_ne. congruence.
  - rewrite Henv. exact Hcalls.
Qed.

(** X17.  A [ruby] that fails without printing anything on standard output
    does not stop the gem installation: its exit status is not looked at,
    and when the two other commands exit and [jekyll -v] prints UTF-8 the
    step completes, leaving as PATH the old PATH behind the entry [/bin]. *)
Theorem install_jekyll_silent_ruby appdir st old o1 c1 out1 e1 o2 c2 e2 o3 c3 out3 e3 :
  st_env st !! "PATH" = Some old ->
  spawn P (st_tick st) gem_install_argv (st_env st) (Some appdir) (st_os st)
  = (o1, Exited c1 out1 e1) ->
  spawn P (S (st_tick st)) ruby_argv (st_env st) (Some appdir) o1
  = (o2, Exited c2 EmptyString e2) ->
  c2 <> 0 ->
  spawn P (S (S (st_tick st))) jekyll_v_argv
    (<["PATH" := "/bin:" ++ old]> (st_env st)) (Some appdir) o2
  = (o3, Exited c3 out3 e3) ->
  Utf8.valid out3 = true ->
  exists st',
    install_jekyll P appdir st = (st', Ok tt)
    /\ st_env st' !! "PATH" = Some ("/bin:" ++ old).
Proof.
  intros Hold Hgem Hruby _ Hjekyll Hvalid3.
  destruct (install_jekyll_runs appdir st old _ _ _ _ _ _ _ _ _ _ _ _
              Hold Hgem Hruby eq_refl Hjekyll Hvalid3)
    as (st' & Hrun & Henv & _).
  exists st'. split; [exact Hrun|].
  rewrite Henv. apply lookup_insert_eq.
Qed.

End GemCommands.

Lemma install_jekyll_environment_witness :
  exists st',
    install_jekyll Demo.machine "/home/u1" (Demo.boot None) = (st', Ok tt)
    /\ st_env st' = <["PATH" := "ok/bin:/usr/local/bin:/usr/bin:/bin"]> CMD_ENV
    /\ (forall key, key <> "PATH" -> st_env st' !! key = CMD_ENV !! key)
    /\ calls (st_trace st')
       = (gem_install_argv, CMD_ENV, Some "/home/u1")
         :: (ruby_argv, CMD_ENV, Some "/home/u1")
         :: (jekyll_v_argv, st_env st', Some "/home/u1") :: nil.
Proof.
  exact (install_jekyll_environment Demo.machine "/home/u1" (Demo.boot None)
           "/usr/local/bin:/usr/bin:/bin"
           (st_os (Demo.boot None)) 0 "ok" EmptyString
           (st_os (Demo.boot None)) 0 "ok" EmptyString
           (st_os (Demo.boot None)) 0 "ok" EmptyString
           eq_refl eq_refl eq_refl eq_refl eq_refl eq_refl).
Defined.

(** A machine on which every command exits with status 1, prints nothing
    and changes nothing. *)
Lemma install_jekyll_silent_ruby_witness :
  exists st',
    install_jekyll failing_machine "/home/u1" (Demo.boot None) = (st', Ok tt)
    /\ st_env st' !! "PATH" = Some "/bin:/usr/local/bin:/usr/bin:/bin".
Proof.
  refine (install_jekyll_silent_ruby failing_machine "/home/u1" (Demo.boot None)
            "/usr/local/bin:/usr/bin:/bin"
            (st_os (Demo.boot None)) 1 EmptyString "command failed"
            (st_os (Demo.boot None)) 1 "command failed"
            (st_os (Demo.boot None)) 1 EmptyString "command failed"
            eq_refl eq_refl eq_refl _ eq_refl eq_refl).
  discriminate.
Defined.

(** ** The sample post on a second run *)

Section SamplePost.

(** The first run and the second one: two runs read the date each for
    itself. *)
Variables P P' : platform.

Lemma exists_at_logged level msg st p : exists_at (logged level msg st) p = exists_at st p.
Proof. unfold exists_at, fs_of, locate. rewrite logged_os, logged_cwd. reflexivity. Qed.

(** X18.  On one day the sample-post step does its work once: run again, on
    the same day, on the state a successful run left, it finds the post,
    writes nothing and only reports that the post exists - also when the
    first run found the name taken already. *)
Theorem create_sample_post_twice posts_dir st st1 :
  today_iso P' = today_iso P ->
  create_sample_post P posts_dir st = (st1, Ok tt) ->
  create_sample_post P' posts_dir st1
  = (logged INFO "Sample demo post already exists. Skipping." st1, Ok tt).
Proof.
  intros Hday H.
  assert (Hthere : exists_at st1 (Path.join posts_dir (today_iso P ++ "-welcome-to-jekyll.md"))
                   = true).
  { unfold create_sample_post in H.
    apply bind_inv in H. destruct H as (s & present & Hp & H).
    inversion Hp. subst s present. clear Hp.
    destruct (exists_at st _) eqn:Hex; cbn [negb] in H.
    - apply logging_inv in H. subst st1. rewrite exists_at_logged. exact Hex.
    - apply bind_inv in H. destruct H as (s & [] & _ & H).
      destruct (create_file_ok _ _ _ _ _ _ H) as [d Hd].
      unfold exists_at. rewrite Hd. reflexivity. }
  unfold create_sample_post. rewrite Hday.
  rewrite (bind_Ok _ _ st1 st1 true) by (unfold os_path_exists, gets; rewrite Hthere; reflexivity).
  reflexivity.
Qed.

End SamplePost.

Lemma create_sample_post_twice_witness :
  create_sample_post failing_machine "/home/u1"
    (fst (create_sample_post Demo.machine "/home/u1" (Demo.boot None)))
  = (logged INFO "Sample demo post already exists. Skipping."
       (fst (create_sample_post Demo.machine "/home/u1" (Demo.boot None))), Ok tt).
Proof.
  refine (create_sample_post_twice Demo.machine failing_machine "/home/u1" (Demo.boot None)
            _ eq_refl _).
  vm_compute. reflexivity.
Defined.

(** ** The crontab editor: a crontab that is not text, a missing [crontab] *)

Section CrontabMore.

Variable P : platform.

(** X19.  A crontab that is not valid UTF-8 is lost.  When what
    [crontab -l] prints - the installed crontab - does not decode, the
    temporary file can be created in the home directory, the listing
    changes nothing, [crontab FILE] installs what the file holds and
    [rm -f FILE] removes the file, [add_cronjob] returns normally and the
    installed crontab is afterwards the new line alone; the files are as
    before. *)
Theorem add_cronjob_drops_undecodable cronjob env st out :
  home_ready P st ->
  can_write st (tmpname_of P st) = true ->
  Utf8.valid out = false ->
  commands_work P cronjob env st out ->
  exists final,
    add_cronjob P cronjob env st = (final, Ok tt)
    /\ os_cron (st_os final) = Some (cronjob ++ Text.nl)
    /\ fs_of final = fs_of st.
Proof.
  intros Hhome _ Hvalid Hwork.
  assert (Hdec : default EmptyString (Utf8.decode out) ++ cronjob ++ Text.nl
                 = cronjob ++ Text.nl)
    by (unfold Utf8.decode; rewrite Hvalid; reflexivity).
  destruct (add_cronjob_once P cronjob env st out Hhome Hwork)
    as (final & Hrun & Hcron & Hfs & _).
  exists final. rewrite Hdec in Hcron. auto.
Qed.

End CrontabMore.

Lemma add_cronjob_drops_undecodable_witness :
  exists final,
    add_cronjob Demo.machine "@daily true" CMD_ENV
      (Demo.boot (Some ("# caf" ++ Text.chr 233 ++ Text.nl))) = (final, Ok tt)
    /\ os_cron (st_os final) = Some ("@daily true" ++ Text.nl)
    /\ fs_of final = fs_of (Demo.boot (Some ("# caf" ++ Text.chr 233 ++ Text.nl))).
Proof.
  refine (add_cronjob_drops_undecodable Demo.machine "@daily true" CMD_ENV
            (Demo.boot (Some ("# caf" ++ Text.chr 233 ++ Text.nl)))
            ("# caf" ++ Text.chr 233 ++ Text.nl)
            (demo_home_ready _) eq_refl eq_refl _).
  constructor.
  - exists 0, EmptyString. vm_compute. reflexivity.
  - exists EmptyString, EmptyString. vm_compute. reflexivity.
  - exists 0, EmptyString, EmptyString. vm_compute. reflexivity.
Defined.

Section CrontabMissing.

Variable P : platform.

Lemma set_fs_trace fs st : st_trace (set_fs fs st) = st_trace st.
Proof. reflexivity. Qed.

(** A [crontab] that cannot be started at all (the program is not there,
    say): the reason is [why]. *)
Definition crontab_missing (env : gmap string string) (why : os_error) : Prop :=
  forall t args o, spawn P t ("crontab" :: args) env None o = (o, NotLaunched why).

Lemma current_crontab_missing env why st :
  crontab_missing env why ->
  exists st',
    current_crontab P env st = (st', Ok EmptyString)
    /\ st_os st' = st_os st
    /\ runs (st_trace st') = (runs (st_trace st) ++ ("crontab" :: "-l" :: nil) :: nil)%list.
Proof.
  intros Hmiss.
  unfold current_crontab, try_except.
  rewrite (bind_Raise _ _ _ _ _
             (run_command_not_launched P "crontab -l" env None st _ _ _ eq_refl
                (Hmiss (st_tick st) ("-l" :: nil) (st_os st)))).
  eexists. split; [reflexivity|]. split; [reflexivity|].
  simpl. rewrite runs_app, logged_runs. reflexivity.
Qed.

(** X20.  When [crontab] cannot be started, the failure of the listing is
    taken for an empty crontab, and the failure of the installation is
    raised as [OSError]: [add_cronjob] stops there, the crontab is
    untouched, [rm] is never run and the temporary file stays in the home
    directory, holding the new line. *)
Theorem add_cronjob_without_crontab cronjob env why st :
  home_ready P st ->
  crontab_missing env why ->
  exists final,
    add_cronjob P cronjob env st = (final, Raise (OSError why "crontab"))
    /\ data_of final (tmpname_of P st) = Some (cronjob ++ Text.nl)
    /\ os_cron (st_os final) = os_cron (st_os st)
    /\ runs (st_trace final)
       = (runs (st_trace st)
          ++ ("crontab" :: "-l" :: nil) :: ("crontab" :: tmpname_of P st :: nil) :: nil)%list.
Proof.
  intros Hhome Hmiss.
  destruct (add_cronjob_start P cronjob env st Hhome) as (pw & Hpw & Htmp & Hstart).
  destruct (tmpname_facts (home P) pw (home_absolute _ _ Hhome) (home_plain _ _ Hhome) Hpw)
    as (Habs & Hne & Hplain & Hloc).
  rewrite <- Htmp in Habs, Hne, Hplain, Hloc.
  remember (tmpname_of P st) as tmpname eqn:Hname. clear Hname Htmp.
  remember (Path.resolve "/" tmpname) as q eqn:Hq.
  assert (Hq_nil : q <> nil)
    by (rewrite Hloc; destruct (Path.resolve "/" (home P)); discriminate).
  clear Hloc.
  remember (masked 438 (st_umask st)) as m0 eqn:Hm0. clear Hm0.
  remember (set_fs (<[q := File EmptyString m0]> (fs_of st)) (ticks 20 st)) as st_b eqn:Hb.
  assert (Hfs_b : fs_of st_b = <[q := File EmptyString m0]> (fs_of st))
    by (rewrite Hb; apply set_fs_fs).
  assert (Hcron_b : os_cron (st_os st_b) = os_cron (st_os st))
    by (rewrite Hb, set_fs_cron, ticks_os; reflexivity).
  assert (Htr_b : st_trace st_b = st_trace st)
    by (rewrite Hb, set_fs_trace, ticks_trace; reflexivity).
  clear Hb.
  destruct (current_crontab_missing env why st_b Hmiss) as (st_c & Hcur & Hos_c & Hruns_c).
  specialize (Hstart st_c EmptyString Hcur). clear Hcur.
  rewrite Htr_b in Hruns_c.
  assert (Hfs_c : fs_of st_c = <[q := File EmptyString m0]> (fs_of st))
    by (unfold fs_of; rewrite Hos_c; exact Hfs_b).
  assert (Hcron_c : os_cron (st_os st_c) = os_cron (st_os st))
    by (rewrite Hos_c; exact Hcron_b).
  clear Hos_c Hfs_b Hcron_b Htr_b.
  assert (Hloc_c : forall s, locate s tmpname = q)
    by (intros s; rewrite Hq; apply locate_absolute; exact Habs).
  assert (Hw1 : fs_write tmpname EmptyString st_c
                = (set_fs (<[q := File EmptyString m0]> (fs_of st_c)) st_c, Ok tt)).
  { rewrite (fs_write_file tmpname EmptyString st_c EmptyString m0).
    - rewrite Hloc_c. reflexivity.
    - rewrite Hloc_c, Hfs_c. apply node_at_insert. exact Hq_nil. }
  rewrite (bind_Ok _ _ _ _ _ Hw1) in Hstart. clear Hw1.
  remember (set_fs (<[q := File EmptyString m0]> (fs_of st_c)) st_c) as st_d eqn:Hd.
  assert (Hfs_d : fs_of st_d = <[q := File EmptyString m0]> (fs_of st_c))
    by (rewrite Hd; apply set_fs_fs).
  assert (Hcron_d : os_cron (st_os st_d) = os_cron (st_os st))
    by (rewrite Hd, set_fs_cron; exact Hcron_c).
  assert (Hruns_d : runs (st_trace st_d)
                    = (runs (st_trace st) ++ ("crontab" :: "-l" :: nil) :: nil)%list)
    by (rewrite Hd, set_fs_trace; exact Hruns_c).
  clear Hd Hcron_c Hruns_c.
  assert (Hw2 : fs_write tmpname (cronjob ++ Text.nl) st_d
                = (set_fs (<[q := File (cronjob ++ Text.nl) m0]> (fs_of st_d)) st_d, Ok tt)).
  { rewrite (fs_write_file tmpname (cronjob ++ Text.nl) st_d EmptyString m0).
    - rewrite Hloc_c. reflexivity.
    - rewrite Hloc_c, Hfs_d. apply node_at_insert. exact Hq_nil. }
  rewrite (bind_Ok _ _ _ _ _ Hw2) in Hstart. clear Hw2.
  remember (set_fs (<[q := File (cronjob ++ Text.nl) m0]> (fs_of st_d)) st_d) as st_e eqn:He.
  assert (Hfs_e : fs_of st_e = <[q := File (cronjob ++ Text.nl) m0]> (fs_of st_d))
    by (rewrite He; apply set_fs_fs).
  assert (Hcron_e : os_cron (st_os st_e) = os_cron (st_os st))
    by (rewrite He, set_fs_cron; exact Hcron_d).
  assert (Hruns_e : runs (st_trace st_e)
                    = (runs (st_trace st) ++ ("crontab" :: "-l" :: nil) :: nil)%list)
    by (rewrite He, set_fs_trace; exact Hruns_d).
  clear He Hcron_d Hruns_d Hfs_d Hfs_c.
  pose proof (run_command_not_launched P ("crontab " ++ tmpname) env None st_e
                ("crontab" :: tmpname :: nil) (st_os st_e) why
                (split_crontab tmpname Hne Hplain)
                (Hmiss (st_tick st_e) (tmpname :: nil) (st_os st_e))) as Hrun.
  rewrite (bind_Raise _ _ _ _ _ Hrun) in Hstart. clear Hrun.
  eexists. split; [exact Hstart|]. clear Hstart.
  split.
  { unfold data_of. rewrite Hloc_c.
    change (fs_of (tick (record ?e (set_os ?o ?s)))) with (os_fs o).
    fold (fs_of st_e). rewrite Hfs_e, (node_at_insert _ _ _ Hq_nil). reflexivity. }
  split.
  { change (st_os (tick (record ?e (set_os ?o ?s)))) with o. exact Hcron_e. }
  change (st_trace (tick (record ?e (set_os ?o ?s)))) with (st_trace s ++ e :: nil)%list.
  rewrite runs_app, logged_runs, Hruns_e, <- app_assoc. reflexivity.
Qed.

End CrontabMissing.

(** A machine without a [crontab] program. *)
Definition no_crontab_machine : platform := {|
  spawn := fun t argv env cwd o =>
             match argv with
             | "crontab" :: _ => (o, NotLaunched FileNotFoundError)
             | _ => spawn Demo.machine t argv env cwd o
             end;
  server := server Demo.machine;
  entropy := entropy Demo.machine;
  dedent := dedent Demo.machine;
  py_repr := py_repr Demo.machine;
  today_iso := today_iso Demo.machine;
  now_stamp := now_stamp Demo.machine;
  home := home Demo.machine;
  environ := environ Demo.machine;
|}.

Lemma add_cronjob_without_crontab_witness :
  exists final,
    add_cronjob no_crontab_machine "@daily true" CMD_ENV (Demo.boot None)
    = (final, Raise (OSError FileNotFoundError "crontab"))
    /\ data_of final (tmpname_of no_crontab_machine (Demo.boot None))
       = Some ("@daily true" ++ Text.nl)
    /\ os_cron (st_os final) = os_cron (st_os (Demo.boot None))
    /\ runs (st_trace final)
       = (runs (st_trace (Demo.boot None))
          ++ ("crontab" :: "-l" :: nil)
          :: ("crontab" :: tmpname_of no_crontab_machine (Demo.boot None) :: nil) :: nil)%list.
Proof.
  refine (add_cronjob_without_crontab no_crontab_machine "@daily true" CMD_ENV
            FileNotFoundError (Demo.boot None) _ _).
  - destruct (demo_home_ready None) as [h1 h2 h3 h4]. constructor; assumption.
  - intros t args o. reflexivity.
Defined.

(** ** The posts directory *)

(** X21.  For an absolute site directory: when the posts step returns, what
    it returns is [<site_dir>/_posts], that name is a directory, and every
    file and directory there was before is still there.  With a regular
    file of that name in the way the step cannot return: it raises. *)
Theorem ensure_posts_dir_result site_dir st :
  Text.starts_with_slash site_dir = true ->
  (forall st' r,
     ensure_posts_dir site_dir st = (st', Ok r) ->
     r = Path.join site_dir "_posts"
     /\ isdir_at st' r = true
     /\ (forall k x, fs_of st !! k = Some x -> fs_of st' !! k = Some x))
  /\ (forall d m,
        node_at (fs_of st) (Path.resolve "/" (Path.join site_dir "_posts")) = Some (File d m) ->
        exists e, snd (ensure_posts_dir site_dir st) = Raise e).
Proof.
  intros Habs.
  pose proof (join_absolute site_dir "_posts" Habs) as Hjoin.
  assert (Hok : forall st' r,
             ensure_posts_dir site_dir st = (st', Ok r) ->
             r = Path.join site_dir "_posts"
             /\ isdir_at st' r = true
             /\ (forall k x, fs_of st !! k = Some x -> fs_of st' !! k = Some x)).
  { intros st' r H. unfold ensure_posts_dir in H.
    apply bind_inv in H. destruct H as (s & there & Ht & H).
    inversion Ht. subst s there. clear Ht.
    apply bind_inv in H. destruct H as (s & [] & Hmk & H).
    inversion H. subst s r. clear H.
    split; [reflexivity|].
    destruct (isdir_at st (Path.join site_dir "_posts")) eqn:Hdir; cbn [negb] in Hmk.
    - inversion Hmk. subst st'. auto.
    - destruct (os_makedirs_ok _ _ _ _ Hmk) as (_ & _ & _ & Hall & Hkeep).
      split; [|exact Hkeep].
      apply (isdir_of_chain st' _ _ Hjoin eq_refl). intros Hne.
      apply Hall. rewrite (locate_absolute _ _ Hjoin).
      exact (chain_self nil _ Hne). }
  split; [exact Hok|].
  intros d m Hfile.
  destruct (ensure_posts_dir site_dir st) as [st' [r|e]] eqn:Hrun; [|exists e; reflexivity].
  exfalso.
  destruct (Hok st' r eq_refl) as (-> & Hdir & Hkeep).
  unfold isdir_at in Hdir. rewrite (locate_absolute _ _ Hjoin) in Hdir.
  pose proof (node_at_root_dir _ _ _ _ Hfile) as Hne.
  destruct (Path.resolve "/" (Path.join site_dir "_posts")) as [|c q]; [contradiction|].
  simpl in Hfile, Hdir. rewrite (Hkeep _ _ Hfile) in Hdir. discriminate.
Qed.

Lemma ensure_posts_dir_result_witness :
  isdir_at (fst (ensure_posts_dir "/home/u1" (Demo.boot None))) "/home/u1/_posts" = true.
Proof.
  destruct (ensure_posts_dir_result "/home/u1" (Demo.boot None) eq_refl) as [Hok _].
  destruct (Hok (fst (ensure_posts_dir "/home/u1" (Demo.boot None))) "/home/u1/_posts")
    as (_ & Hdir & _).
  - vm_compute. reflexivity.
  - exact Hdir.
Defined.

(** ** Logging in: failures other than a refused login *)

Section LoginFailures.

Variable P : platform.

(** X22.  Without an auth token, a login that fails for another reason than
    a JSON object without token ends the constructor with the exception of
    that failure - no connection, a body that is not JSON, a JSON value
    that is not an object - and the warning about the user name and
    password is not logged. *)
Theorem login_failure_without_warning host0 base authtoken user password st :
  truthy authtoken = false ->
  (forall d, server P (st_tick st) (login_request host0 base user password)
             <> Body (Some (PDict d))) ->
  snd (OpalstackAPITool_init P host0 base authtoken user password st)
  = Raise (match server P (st_tick st) (login_request host0 base user password) with
           | Unreachable => NetworkError
           | Body None => JSONDecodeError
           | Body (Some _) => AttributeError
           end)
  /\ messages (st_trace (fst (OpalstackAPITool_init P host0 base authtoken user password st)))
     = messages (st_trace st).
Proof.
  intros Htok Hnot.
  rewrite (init_without_token P host0 base authtoken user password st Htok). cbv zeta.
  destruct (server P (st_tick st) (login_request host0 base user password)) as [|[v|]];
    cbn [fst snd]; try (split; [reflexivity|]; simpl; rewrite messages_app; apply app_nil_r).
  destruct v; try (split; [reflexivity|]; simpl; rewrite messages_app; apply app_nil_r).
  exfalso. exact (Hnot d eq_refl).
Qed.

End LoginFailures.

(** A machine whose API server cannot be reached. *)
Definition offline_machine : platform := {|
  spawn := spawn Demo.machine;
  server := fun _ _ => Unreachable;
  entropy := entropy Demo.machine;
  dedent := dedent Demo.machine;
  py_repr := py_repr Demo.machine;
  today_iso := today_iso Demo.machine;
  now_stamp := now_stamp Demo.machine;
  home := home Demo.machine;
  environ := environ Demo.machine;
|}.

Lemma login_failure_without_warning_witness :
  snd (OpalstackAPITool_init offline_machine "my.opalstack.com" API_BASE_URI
         PNone (PStr "alice") (PStr "hunter2") (Demo.boot None))
  = Raise NetworkError
  /\ messages (st_trace (fst (OpalstackAPITool_init offline_machine "my.opalstack.com"
                                API_BASE_URI PNone (PStr "alice") (PStr "hunter2")
                                (Demo.boot None))))
     = messages (st_trace (Demo.boot None)).
Proof.
  refine (login_failure_without_warning offline_machine "my.opalstack.com" API_BASE_URI
            PNone (PStr "alice") (PStr "hunter2") (Demo.boot None) eq_refl _).
  intros d. discriminate.
Defined.
